(** * simulator-core: the solver network, its boundary asset, the production
    cluster set-points and the simulation time loop.

    A shallow embedding of
      - [simulator_core/solver/network/network.py]            (class [Network]),
      - [simulator_core/solver/network/assets/base_node_item.py],
      - [simulator_core/solver/network/assets/Boundary.py]    (class [BaseBoundary]),
      - [simulator_core/entities/assets/production_cluster.py] ([_set_heat_demand]),
      - [simulator_core/simulation/networksimulation.py]      ([NetworkSimulation.run]).

    Python objects live in an explicit store ([Heap]) and are named by
    references ([loc]), so that a [Node] reached through [Network.nodes] and the
    same [Node] reached through an asset's [connected_nodes] are one object.
    Python [float] is IEEE binary64, i.e. Rocq's primitive [float]. *)

From Stdlib Require Import ZArith Floats.
From stdpp Require Import base option list gmap strings.

Local Open Scope Z_scope.

(** ** Python primitives used by the sources *)

Module Py.

(** The text of the exceptions the sources raise.  [str(uuid)] is kept
    symbolic: a message records the identifier it was formatted from. *)
Inductive message :=
  | NotRecognized (asset_type : string)        (* asset_type + " not recognized" *)
  | AlreadyExists (name : N)                   (* f"{asset.name} already exists in network" *)
  | DoesNotExist (asset : N)                   (* str(asset) + " does not exists in network" *)
  | NotValidAssetId (asset_id : N)             (* str(asset_id) + " Not a valid asset id" *)
  | NotValidNodeId (asset_id : N)              (* str(asset_id) + " Not a valid node id" *)
  | AlreadyConnectedToAssets                   (* "Assets already connected to assets" *)
  | AlreadyConnectedToNode                     (* "Something has gone wrong assets already connected to node" *)
  | NegativeMassFlow (mass_flow : float) (asset_name : string)
                                               (* f"The mass flow rate {..} of the asset {..} is negative." *)
  | RangeArg3Zero.                             (* "range() arg 3 must not be zero" *)

(** The exception classes.  [DanglingReference] is not a Python exception: it
    is the outcome of the model when a reference is absent from the store,
    which no Python execution can observe. *)
Inductive exn :=
  | ValueError (m : message)
  | NotImplementedError (m : message)
  | KeyError
  | DanglingReference.

(** A method either returns a value or raises; both outcomes carry the
    state as the method left it. *)
Inductive outcome (S A : Type) :=
  | Return (v : A) (s : S)
  | Raise (e : exn) (s : S).
Arguments Return {S A} v s.
Arguments Raise {S A} e s.

(** [l[i:j]] for a list: negative bounds count from the end, and both bounds
    are clamped to the list. *)
Definition slice_bound (len i : Z) : Z :=
  if i <? 0 then Z.max (i + len) 0 else Z.min i len.

Definition slice {A} (l : list A) (i j : Z) : list A :=
  let len := Z.of_nat (length l) in
  let lo := slice_bound len i in
  let hi := slice_bound len j in
  take (Z.to_nat (hi - lo)) (drop (Z.to_nat lo) l).

(** [range(start, stop, step)] as the list it enumerates; [None] is the
    [ValueError] of a zero step. *)
Fixpoint count_from (n : nat) (start step : Z) : list Z :=
  match n with
  | O => []
  | S n' => start :: count_from n' (start + step) step
  end.

Definition range_len (start stop step : Z) : Z :=
  if 0 <? step then
    if start <? stop then (stop - start - 1) / step + 1 else 0
  else
    if stop <? start then (start - stop - 1) / (- step) + 1 else 0.

Definition range (start stop step : Z) : option (list Z) :=
  if step =? 0 then None
  else Some (count_from (Z.to_nat (range_len start stop step)) start step).

End Py.

(** ** Objects and the store *)

Abbreviation UUID := N (only parsing).
Abbreviation loc := positive (only parsing).

(** The position of each core quantity inside an entity's block of unknowns.
    Module [core_enum], from which [Boundary.py] imports [IndexEnum], is not
    among the sources; the values are those of the dataclass
    [IndexCoreQuantity] ([index_core_quantity.py]) that carries them in the
    sources. *)
Module IndexEnum.
Definition number_core_quantities : Z := 3.
Definition discharge : Z := 0.
Definition pressure : Z := 1.
Definition internal_energy : Z := 2.
End IndexEnum.

(** [EquationObject]: one row of the assembled system. *)
Record EquationObject := mkEquationObject {
  indices : list Z;
  coefficients : list float;
  rhs : float
}.

(** [BaseNodeItem]: the fields every node and asset inherits. *)
Module BaseNodeItem.

Record t := mk {
  name : UUID;
  number_of_unknowns : Z;
  matrix_index : Z;
  prev_sol : list float
}.

(** [__init__]: [matrix_index = 0], [prev_sol = [0.0] * number_of_unknowns]. *)
Definition init (number_of_unknowns : Z) (name : UUID) : t :=
  {| name := name;
     number_of_unknowns := number_of_unknowns;
     matrix_index := 0;
     prev_sol := replicate (Z.to_nat number_of_unknowns) 0%float |}.

Definition set_matrix_index (self : t) (index : Z) : t :=
  {| name := name self;
     number_of_unknowns := number_of_unknowns self;
     matrix_index := index;
     prev_sol := prev_sol self |}.

(** The assignment [self.prev_sol = sol]. *)
Definition set_prev_sol (self : t) (sol : list float) : t :=
  {| name := name self;
     number_of_unknowns := number_of_unknowns self;
     matrix_index := matrix_index self;
     prev_sol := sol |}.

End BaseNodeItem.

(** The classes of [Network.str_to_class_dict]; a [BaseBoundary] carries its
    [initial_pressure]. *)
Inductive AssetClass :=
  | ClsBaseBoundary (initial_pressure : float)
  | ClsBaseAsset
  | ClsFallType
  | ClsProductionAsset
  | ClsSolverPipe.

(** Modelled from the spec: class [BaseAsset] (module [base_asset]) is not
    among the sources.  An asset "has exactly N connection points, each
    connected to exactly one Node": [connected_nodes] binds a connection point
    to the node attached there, [is_connected] tells whether a point is bound
    and [is_all_connected] whether all [number_of_connection_point] points
    are. *)
Module BaseAsset.

Record t := mk {
  item : BaseNodeItem.t;
  class : AssetClass;
  number_of_connection_point : Z;
  connected_nodes : gmap Z loc
}.

Definition init (name : UUID) (number_of_unknowns number_con_points : Z)
    (class : AssetClass) : t :=
  {| item := BaseNodeItem.init number_of_unknowns name;
     class := class;
     number_of_connection_point := number_con_points;
     connected_nodes := ∅ |}.

Definition is_connected (self : t) (connection_point : Z) : bool :=
  bool_decide (is_Some (connected_nodes self !! connection_point)).

Definition get_connected_node (self : t) (connection_point : Z) : option loc :=
  connected_nodes self !! connection_point.

Definition connect_node (connection_point : Z) (node : loc) (self : t) : t :=
  {| item := item self;
     class := class self;
     number_of_connection_point := number_of_connection_point self;
     connected_nodes := <[connection_point := node]> (connected_nodes self) |}.

Definition is_all_connected (self : t) : bool :=
  forallb (is_connected self) (seqZ 0 (number_of_connection_point self)).

Definition set_item (self : t) (i : BaseNodeItem.t) : t :=
  {| item := i;
     class := class self;
     number_of_connection_point := number_of_connection_point self;
     connected_nodes := connected_nodes self |}.

End BaseAsset.

(** Modelled from the spec: class [Node] (module [node]) is not among the
    sources.  A node is "a junction with one or more connected Asset
    connection-points": [connected_assets] lists the (asset, connection point)
    pairs attached so far, and [is_connected] holds when there is at least
    one.  A node owns three unknowns (one per core quantity). *)
Module Node.

Record t := mk {
  item : BaseNodeItem.t;
  connected_assets : list (loc * Z)
}.

Definition init (name : UUID) : t :=
  {| item := BaseNodeItem.init IndexEnum.number_core_quantities name;
     connected_assets := [] |}.

Definition connect_asset (asset : loc) (connection_point : Z) (self : t) : t :=
  {| item := item self;
     connected_assets := connected_assets self ++ [(asset, connection_point)] |}.

Definition is_connected (self : t) : bool :=
  bool_decide (0 < length (connected_assets self))%nat.

Definition set_item (self : t) (i : BaseNodeItem.t) : t :=
  {| item := i; connected_assets := connected_assets self |}.

End Node.

(** The store of asset and node objects. *)
Record Heap := mkHeap {
  asset_objs : gmap loc BaseAsset.t;
  node_objs : gmap loc Node.t
}.

(** ** [Boundary.py]: class [BaseBoundary] *)

Module BaseBoundary.

(** A [BaseBoundary] is a [BaseAsset] with one more field. *)
Record t := mk {
  super : BaseAsset.t;
  initial_pressure : float
}.

(** The object as the store keeps it. *)
Definition upcast (self : t) : BaseAsset.t :=
  {| BaseAsset.item := BaseAsset.item (super self);
     BaseAsset.class := ClsBaseBoundary (initial_pressure self);
     BaseAsset.number_of_connection_point :=
       BaseAsset.number_of_connection_point (super self);
     BaseAsset.connected_nodes := BaseAsset.connected_nodes (super self) |}.

(** [__init__(name, number_of_unknowns=3, number_con_points=1)]. *)
Definition init (name : UUID) (number_of_unknowns number_con_points : Z) : t :=
  {| super := BaseAsset.init name number_of_unknowns number_con_points
                (ClsBaseBoundary 10000.0%float);
     initial_pressure := 10000.0%float |}.

Definition matrix_index (self : t) : Z :=
  BaseNodeItem.matrix_index (BaseAsset.item (super self)).

Definition add_pressure_equation (self : t) : EquationObject :=
  {| indices := [matrix_index self + IndexEnum.pressure];
     coefficients := [1.0%float];
     rhs := initial_pressure self |}.

Section get_equations.

(** [add_thermal_equations] and [add_press_to_node_equation] are inherited
    from [BaseAsset], which is not among the sources: they are parameters
    here.  Either may read the store (the attached node) and either may
    raise. *)
Variable add_thermal_equations : Heap → t → Z → Py.exn + EquationObject.
Variable add_press_to_node_equation : Heap → t → Z → Py.exn + EquationObject.

(** The list display evaluates its three elements from left to right. *)
Definition get_equations (h : Heap) (self : t) : Py.exn + list EquationObject :=
  let e0 := add_pressure_equation self in
  match add_thermal_equations h self 0 with
  | inl e => inl e
  | inr e1 =>
      match add_press_to_node_equation h self 0 with
      | inl e => inl e
      | inr e2 => inr [e0; e1; e2]
      end
  end.

End get_equations.

End BaseBoundary.

(** ** [network.py]: class [Network] *)

Module Network.

Record t := mk {
  assets : gmap UUID loc;   (* self.assets: dict[uuid.UUID, BaseAsset] *)
  nodes : gmap UUID loc     (* self.nodes: dict[uuid.UUID, Node] *)
}.

(** [__init__]: both dictionaries start empty. *)
Definition init : t := {| assets := ∅; nodes := ∅ |}.

(** The state a method runs in: the network and the object store. *)
Definition M (A : Type) : Type := t * Heap → Py.outcome (t * Heap) A.

#[global] Instance M_ret : MRet M := λ A v s, Py.Return v s.
#[global] Instance M_bind : MBind M := λ A B k m s,
  match m s with
  | Py.Return v s' => k v s'
  | Py.Raise e s' => Py.Raise e s'
  end.

Definition raise {A} (e : Py.exn) : M A := λ s, Py.Raise e s.

Definition get_self : M t := λ s, Py.Return s.1 s.

(** Reading and writing objects through their references. *)
Definition asset_at (r : loc) : M BaseAsset.t := λ s,
  match asset_objs s.2 !! r with
  | Some a => Py.Return a s
  | None => Py.Raise Py.DanglingReference s
  end.

Definition node_at (r : loc) : M Node.t := λ s,
  match node_objs s.2 !! r with
  | Some n => Py.Return n s
  | None => Py.Raise Py.DanglingReference s
  end.

Definition put_asset (r : loc) (a : BaseAsset.t) : M unit := λ s,
  Py.Return () (s.1, {| asset_objs := <[r := a]> (asset_objs s.2);
                        node_objs := node_objs s.2 |}).

Definition put_node (r : loc) (n : Node.t) : M unit := λ s,
  Py.Return () (s.1, {| asset_objs := asset_objs s.2;
                        node_objs := <[r := n]> (node_objs s.2) |}).

(** A mutating method call [obj.method(...)] on the object behind [r]. *)
Definition update_asset (r : loc) (f : BaseAsset.t → BaseAsset.t) : M unit :=
  a ← asset_at r; put_asset r (f a).

Definition update_node (r : loc) (f : Node.t → Node.t) : M unit :=
  n ← node_at r; put_node r (f n).

(** Object creation: the new object gets a reference no object has yet. *)
Definition new_asset (a : BaseAsset.t) : M loc := λ s,
  let r := fresh (dom (asset_objs s.2)) in
  Py.Return r (s.1, {| asset_objs := <[r := a]> (asset_objs s.2);
                       node_objs := node_objs s.2 |}).

Definition new_node (n : Node.t) : M loc := λ s,
  let r := fresh (dom (node_objs s.2)) in
  Py.Return r (s.1, {| asset_objs := asset_objs s.2;
                       node_objs := <[r := n]> (node_objs s.2) |}).

(** [self.assets[k]], [self.nodes[k]] (a missing key is a [KeyError]) and the
    item assignments [self.assets[k] = r], [self.nodes[k] = r]. *)
Definition assets_item (k : UUID) : M loc := λ s,
  match assets s.1 !! k with
  | Some r => Py.Return r s
  | None => Py.Raise Py.KeyError s
  end.

Definition nodes_item (k : UUID) : M loc := λ s,
  match nodes s.1 !! k with
  | Some r => Py.Return r s
  | None => Py.Raise Py.KeyError s
  end.

Definition assets_setitem (k : UUID) (r : loc) : M unit := λ s,
  Py.Return () ({| assets := <[k := r]> (assets s.1); nodes := nodes s.1 |}, s.2).

Definition nodes_setitem (k : UUID) (r : loc) : M unit := λ s,
  Py.Return () ({| assets := assets s.1; nodes := <[k := r]> (nodes s.1) |}, s.2).

(** Modelled from the spec: the constructors of [BaseAsset], [FallType],
    [ProductionAsset] and [SolverPipe] are not among the sources.  Called
    with the name alone they give an asset with two connection points and
    three unknowns for each ("commonly 3 per connection point", "2 for
    pipes/pumps"). *)
Definition two_point_asset (class : AssetClass) (name : UUID) : BaseAsset.t :=
  BaseAsset.init name 6 2 class.

(** [str_to_class_dict]: the registered kinds and their constructors, each
    called with the name alone. *)
Definition str_to_class_dict : gmap string (UUID → BaseAsset.t) :=
  <["Boundary" := λ name, BaseBoundary.upcast (BaseBoundary.init name 3 1)]>
  (<["Asset" := two_point_asset ClsBaseAsset]>
  (<["Fall" := two_point_asset ClsFallType]>
  (<["Production" := two_point_asset ClsProductionAsset]>
  (<["Pipe" := two_point_asset ClsSolverPipe]> ∅)))).

(** [add_asset].  [uuid4] is the value [uuid.uuid4()] returns when it is
    called, i.e. when [name] is [None]. *)
Definition add_asset (asset_type : string) (name : option UUID) (uuid4 : UUID) : M UUID :=
  match str_to_class_dict !! asset_type with
  | None => raise (Py.ValueError (Py.NotRecognized asset_type))
  | Some cls =>
      let name := match name with None => uuid4 | Some n => n end in
      r ← new_asset (cls name);
      assets_setitem name r;;
      mret name
  end.

(** [add_existing_asset]: [asset] is the reference of an object already in
    the store. *)
Definition add_existing_asset (asset : loc) : M UUID :=
  a ← asset_at asset;
  self ← get_self;
  let asset_name := BaseNodeItem.name (BaseAsset.item a) in
  if bool_decide (is_Some (assets self !! asset_name)) then
    raise (Py.ValueError (Py.AlreadyExists asset_name))
  else
    assets_setitem asset_name asset;;
    mret asset_name.

(** [exists_asset], [exists_node], [get_asset], [get_node]. *)
Definition exists_asset (asset_id : UUID) : M bool :=
  self ← get_self; mret (bool_decide (is_Some (assets self !! asset_id))).

Definition exists_node (asset_id : UUID) : M bool :=
  self ← get_self; mret (bool_decide (is_Some (nodes self !! asset_id))).

Definition get_asset (asset_id : UUID) : M loc :=
  e ← exists_asset asset_id;
  if negb e then raise (Py.ValueError (Py.NotValidAssetId asset_id))
  else assets_item asset_id.

Definition get_node (asset_id : UUID) : M loc :=
  e ← exists_node asset_id;
  if negb e then raise (Py.ValueError (Py.NotValidNodeId asset_id))
  else nodes_item asset_id.

(** The calls [self.assets[asset].is_connected(connection_point)] and
    [self.assets[asset].get_connected_node(connection_point)]. *)
Definition asset_is_connected (asset : UUID) (connection_point : Z) : M bool :=
  r ← assets_item asset;
  a ← asset_at r;
  mret (BaseAsset.is_connected a connection_point).

Definition asset_get_connected_node (asset : UUID) (connection_point : Z) : M loc :=
  r ← assets_item asset;
  a ← asset_at r;
  match BaseAsset.get_connected_node a connection_point with
  | Some node => mret node
  | None => raise Py.KeyError
  end.

(** [connect_assets].  [uuid4] is the value [uuid.uuid4()] returns when the
    first branch calls it.  The two [is_connected] calls read the store only,
    so the conditions of the [elif] chain are evaluated once, ahead of the
    chain; the chain itself, with its fourth condition equal to its first, is
    the one of the source. *)
Definition connect_assets (asset1 : UUID) (connection_point_1 : Z)
    (asset2 : UUID) (connection_point_2 : Z) (uuid4 : UUID) : M UUID :=
  e1 ← exists_asset asset1;
  if negb e1 then raise (Py.ValueError (Py.DoesNotExist asset1)) else
  e2 ← exists_asset asset2;
  if negb e2 then raise (Py.ValueError (Py.DoesNotExist asset2)) else
  c1 ← asset_is_connected asset1 connection_point_1;
  c2 ← asset_is_connected asset2 connection_point_2;
  if negb c1 && negb c2 then
    (* both asset connect points not connected *)
    let asset_id := uuid4 in
    r ← new_node (Node.init asset_id);
    nodes_setitem asset_id r;;
    a1 ← assets_item asset1;
    node ← nodes_item asset_id;
    update_asset a1 (BaseAsset.connect_node connection_point_1 node);;
    a2 ← assets_item asset2;
    node ← nodes_item asset_id;
    update_asset a2 (BaseAsset.connect_node connection_point_2 node);;
    node ← nodes_item asset_id;
    a1 ← assets_item asset1;
    update_node node (Node.connect_asset a1 connection_point_1);;
    node ← nodes_item asset_id;
    a2 ← assets_item asset2;
    update_node node (Node.connect_asset a2 connection_point_2);;
    mret asset_id
  else if c1 && negb c2 then
    (* asset 1 connected asset 2 not *)
    node ← asset_get_connected_node asset1 connection_point_1;
    a2 ← assets_item asset2;
    update_asset a2 (BaseAsset.connect_node connection_point_2 node);;
    a2 ← assets_item asset2;
    update_node node (Node.connect_asset a2 connection_point_2);;
    n ← node_at node;
    mret (BaseNodeItem.name (Node.item n))
  else if negb c1 && c2 then
    (* asset 2 connected asset 1 not *)
    node ← asset_get_connected_node asset2 connection_point_2;
    a1 ← assets_item asset1;
    update_asset a1 (BaseAsset.connect_node connection_point_1 node);;
    a1 ← assets_item asset1;
    update_node node (Node.connect_asset a1 connection_point_1);;
    n ← node_at node;
    mret (BaseNodeItem.name (Node.item n))
  else if negb c1 && negb c2 then
    (* both asset already connected need to delete one node. *)
    raise (Py.NotImplementedError Py.AlreadyConnectedToAssets)
  else
    raise (Py.NotImplementedError Py.AlreadyConnectedToNode).

(** [check_connectivity_assets], [check_connectivity_nodes]: a list
    comprehension over the dictionary's items, then [all].  [map_to_list]
    enumerates the items in key order rather than insertion order; [all] does
    not depend on the order. *)
Definition check_connectivity_assets : M bool :=
  self ← get_self;
  result ← mapM (λ kv, a ← asset_at kv.2; mret (BaseAsset.is_all_connected a))
               (map_to_list (assets self));
  mret (forallb id result).

Definition check_connectivity_nodes : M bool :=
  self ← get_self;
  result ← mapM (λ kv, n ← node_at kv.2; mret (Node.is_connected n))
               (map_to_list (nodes self));
  mret (forallb id result).

(** [a and b]: [b] is evaluated only when [a] is true. *)
Definition check_connectivity : M bool :=
  a ← check_connectivity_assets;
  if (a : bool) then check_connectivity_nodes else mret a.

(** A [for] loop over a list. *)
Fixpoint for_each {A} (l : list A) (body : A → M unit) : M unit :=
  match l with
  | [] => mret ()
  | x :: l' => body x;; for_each l' body
  end.

(** [set_result_asset], [set_result_node]: a loop over the dictionary's keys
    ([map_to_list] enumerates them in key order; the body touches one object
    per key).  Every [get_asset] / [get_node] call of the body is the one of
    the source. *)
Definition set_result_asset_body (solution : list float) (asset : UUID) : M unit :=
  a ← get_asset asset; o ← asset_at a;
  let index := BaseNodeItem.matrix_index (BaseAsset.item o) in
  a ← get_asset asset; o ← asset_at a;
  let nou := BaseNodeItem.number_of_unknowns (BaseAsset.item o) in
  a ← get_asset asset;
  update_asset a (λ o, BaseAsset.set_item o
    (BaseNodeItem.set_prev_sol (BaseAsset.item o)
       (Py.slice solution index (index + nou)))).

Definition set_result_asset (solution : list float) : M unit :=
  self ← get_self;
  for_each (map_to_list (assets self)).*1 (set_result_asset_body solution).

Definition set_result_node_body (solution : list float) (node : UUID) : M unit :=
  n ← get_node node; o ← node_at n;
  let index := BaseNodeItem.matrix_index (Node.item o) in
  n ← get_node node; o ← node_at n;
  let nou := BaseNodeItem.number_of_unknowns (Node.item o) in
  n ← get_node node;
  update_node n (λ o, Node.set_item o
    (BaseNodeItem.set_prev_sol (Node.item o)
       (Py.slice solution index (index + nou)))).

Definition set_result_node (solution : list float) : M unit :=
  self ← get_self;
  for_each (map_to_list (nodes self)).*1 (set_result_node_body solution).

End Network.

(** The scatter step of the solver: [set_result_asset] followed by
    [set_result_node], on the same solution vector. *)
Definition scatter_solution (solution : list float) : Network.M unit :=
  Network.set_result_asset solution;; Network.set_result_node solution.

(** What an entity looks like after the scatter: [prev_sol] holds the slice
    of the solution at the entity's own [matrix_index], the rest is as it
    was. *)
Definition scattered_item (solution : list float) (i : BaseNodeItem.t) : BaseNodeItem.t :=
  BaseNodeItem.set_prev_sol i
    (Py.slice solution (BaseNodeItem.matrix_index i)
       (BaseNodeItem.matrix_index i + BaseNodeItem.number_of_unknowns i)).

Definition scattered_asset (solution : list float) (a : BaseAsset.t) : BaseAsset.t :=
  BaseAsset.set_item a (scattered_item solution (BaseAsset.item a)).

Definition scattered_node (solution : list float) (n : Node.t) : Node.t :=
  Node.set_item n (scattered_item solution (Node.item n)).

(** Every reference held by the network's two dictionaries is to an object
    of the store (in Python a reference always is). *)
Definition stored (s : Network.t * Heap) : Prop :=
  map_Forall (λ _ r, is_Some (asset_objs s.2 !! r)) (Network.assets s.1) ∧
  map_Forall (λ _ r, is_Some (node_objs s.2 !! r)) (Network.nodes s.1).

#[global] Instance stored_dec s : Decision (stored s).
Proof. unfold stored. apply _. Defined.

(** The effect of a scatter loop over the keys [ks] of the dictionary [refs]
    on one component of the store: the objects behind the references of
    [ks] are replaced by their image under [f], all others are kept. *)
Definition scatter_refs {X} (f : X → X) (refs : gmap UUID loc) (ks : list UUID)
    (objs objs' : gmap loc X) : Prop :=
  ∀ r, objs' !! r =
       if decide (Exists (λ k, refs !! k = Some r) ks) then f <$> objs !! r
       else objs !! r.

(** Two entities that differ in [prev_sol] at most. *)
Definition same_item_but_prev_sol (i i' : BaseNodeItem.t) : Prop :=
  BaseNodeItem.name i' = BaseNodeItem.name i ∧
  BaseNodeItem.number_of_unknowns i' = BaseNodeItem.number_of_unknowns i ∧
  BaseNodeItem.matrix_index i' = BaseNodeItem.matrix_index i.

Definition same_asset_but_prev_sol (a a' : BaseAsset.t) : Prop :=
  same_item_but_prev_sol (BaseAsset.item a) (BaseAsset.item a') ∧
  BaseAsset.class a' = BaseAsset.class a ∧
  BaseAsset.number_of_connection_point a' = BaseAsset.number_of_connection_point a ∧
  BaseAsset.connected_nodes a' = BaseAsset.connected_nodes a.

Definition same_node_but_prev_sol (n n' : Node.t) : Prop :=
  same_item_but_prev_sol (Node.item n) (Node.item n') ∧
  Node.connected_assets n' = Node.connected_assets n.

(** Mutual consistency of the wiring: a connection point bound to a node is
    listed by that node, and a pair listed by a node is bound to it. *)
Definition wired (h : Heap) : Prop :=
  (∀ r a cp n,
     asset_objs h !! r = Some a → BaseAsset.connected_nodes a !! cp = Some n →
     ∃ nd, node_objs h !! n = Some nd ∧ (r, cp) ∈ Node.connected_assets nd) ∧
  (∀ n nd r cp,
     node_objs h !! n = Some nd → (r, cp) ∈ Node.connected_assets nd →
     ∃ a, asset_objs h !! r = Some a ∧ BaseAsset.connected_nodes a !! cp = Some n).

(** ** [production_cluster.py]: [ProductionCluster._set_heat_demand] *)

Module ProductionCluster.

(** The pandapipes network, reduced to the two columns the method writes:
    [net["circ_pump_mass"]["mdot_flow_kg_per_s"]] and
    [net["flow_control"]["controlled_mdot_kg_per_s"]], each a map from the
    component index to the value. *)
Record pandapipesNet := mkNet {
  circ_pump_mass_mdot_flow_kg_per_s : gmap Z float;
  flow_control_controlled_mdot_kg_per_s : gmap Z float
}.

Record t := mk {
  pandapipes_net : pandapipesNet;
  asset_name : string;
  temperature_supply : float;
  temperature_return : float;
  _controlled_mass_flow : float;
  circ_pump_index : Z;              (* self._circ_pump.index *)
  flow_control_index : Z            (* self._flow_control.index *)
}.

Section set_heat_demand.

(** [heat_demand_and_temperature_to_mass_flow] ([entities/assets/utils.py])
    is not among the sources: it is a parameter, called with
    [thermal_demand], [temperature_supply], [temperature_return] and
    [pandapipes_net]. *)
Variable heat_demand_and_temperature_to_mass_flow :
  float → float → float → pandapipesNet → float.

Definition _set_heat_demand (self : t) (heat_demand : float) : Py.outcome t unit :=
  (* Calculate the mass flow rate *)
  let self :=
    {| pandapipes_net := pandapipes_net self;
       asset_name := asset_name self;
       temperature_supply := temperature_supply self;
       temperature_return := temperature_return self;
       _controlled_mass_flow :=
         heat_demand_and_temperature_to_mass_flow heat_demand
           (temperature_supply self) (temperature_return self) (pandapipes_net self);
       circ_pump_index := circ_pump_index self;
       flow_control_index := flow_control_index self |} in
  (* Check if the mass flow rate is positive *)
  if PrimFloat.ltb (_controlled_mass_flow self) 0%float then
    Py.Raise (Py.ValueError
                (Py.NegativeMassFlow (_controlled_mass_flow self) (asset_name self))) self
  else
    let net := pandapipes_net self in
    (* Set the mass flow rate of the circulation pump *)
    let net :=
      {| circ_pump_mass_mdot_flow_kg_per_s :=
           <[circ_pump_index self := _controlled_mass_flow self]>
             (circ_pump_mass_mdot_flow_kg_per_s net);
         flow_control_controlled_mdot_kg_per_s :=
           flow_control_controlled_mdot_kg_per_s net |} in
    (* Set the mass flow rate of the control valve *)
    let net :=
      {| circ_pump_mass_mdot_flow_kg_per_s := circ_pump_mass_mdot_flow_kg_per_s net;
         flow_control_controlled_mdot_kg_per_s :=
           <[flow_control_index self := _controlled_mass_flow self]>
             (flow_control_controlled_mdot_kg_per_s net) |} in
    Py.Return ()
      {| pandapipes_net := net;
         asset_name := asset_name self;
         temperature_supply := temperature_supply self;
         temperature_return := temperature_return self;
         _controlled_mass_flow := _controlled_mass_flow self;
         circ_pump_index := circ_pump_index self;
         flow_control_index := flow_control_index self |}.

End set_heat_demand.

End ProductionCluster.

(** ** [networksimulation.py]: [NetworkSimulation.run] *)

Module NetworkSimulation.

(** [SimulationConfiguration], reduced to the fields [run] reads. *)
Record SimulationConfiguration := mkConfig {
  start : Z;
  stop : Z;
  timestep : Z
}.

Section run.

(** [HeatNetwork] and [NetworkController] are not among the sources: their
    states and the three methods [run] calls are parameters. *)
Context {HeatNetwork NetworkController ControllerInput : Type}.
Variable controller_run_time_step : NetworkController → Z → NetworkController * ControllerInput.
Variable network_run_time_step : HeatNetwork → Z → ControllerInput → HeatNetwork.
Variable network_store_output : HeatNetwork → HeatNetwork.

(** The simulation object.  [journal] is not a field of the source: it
    records, for each timestep, the time, the number of
    [network.run_time_step] calls its [while] loop made and the network as
    the loop left it. *)
Record t := mk {
  config : option SimulationConfiguration;
  network : HeatNetwork;
  controller : NetworkController;
  journal : list (Z * nat * HeatNetwork)
}.

(** The [while not_converged] loop; [fuel] bounds the evaluations of its
    condition, [calls] counts the passes made so far. *)
Fixpoint while_not_converged (fuel : nat) (not_converged : bool) (time : Z)
    (controller_input : ControllerInput) (net : HeatNetwork) (calls : nat)
    : option (HeatNetwork * nat) :=
  match fuel with
  | O => None
  | S fuel' =>
      if not_converged then
        let not_converged := false in
        (* for the moment we do not check on convergence *)
        let net := network_run_time_step net time controller_input in
        while_not_converged fuel' not_converged time controller_input net (S calls)
      else Some (net, calls)
  end.

(** The body of the time loop. *)
Definition time_step (fuel : nat) (self : t) (time : Z) : option t :=
  let not_converged := true in
  let '(ctrl, controller_input) := controller_run_time_step (controller self) time in
  match while_not_converged fuel not_converged time controller_input (network self) 0 with
  | None => None
  | Some (net, calls) =>
      Some {| config := config self;
              network := network_store_output net;
              controller := ctrl;
              journal := journal self ++ [(time, calls, net)] |}
  end.

Fixpoint time_loop (fuel : nat) (times : list Z) (self : t) : option t :=
  match times with
  | [] => Some self
  | time :: times' =>
      match time_step fuel self time with
      | None => None
      | Some self' => time_loop fuel times' self'
      end
  end.

(** [run]; [None] when [fuel] does not suffice for some [while] loop. *)
Definition run (fuel : nat) (self : t) (cfg : SimulationConfiguration)
    : option (Py.outcome t unit) :=
  let self := {| config := Some cfg; network := network self;
                 controller := controller self; journal := journal self |} in
  match Py.range (start cfg) (stop cfg) (timestep cfg) with
  | None => Some (Py.Raise (Py.ValueError Py.RangeArg3Zero) self)
  | Some times =>
      match time_loop fuel times self with
      | None => None
      | Some self' => Some (Py.Return () self')
      end
  end.

(** The state an outcome carries. *)
Definition state_of {A} (r : Py.outcome t A) : t :=
  match r with Py.Return _ s => s | Py.Raise _ s => s end.

(** The behaviour the specification words, for a convergence criterion
    [converged] on the network and an iteration cap [cap]: every timestep's
    loop ends on a converged network or after [cap] solve steps, and a loop
    that ends on a network that is not converged makes [run] raise. *)
Definition repeats_until_converged_or_capped (converged : HeatNetwork → bool)
    (cap : nat) (r : Py.outcome t unit) : Prop :=
  (∀ time calls net, (time, calls, net) ∈ journal (state_of r) →
     converged net = true ∨ calls = cap) ∧
  ((∃ time calls net, (time, calls, net) ∈ journal (state_of r) ∧
      converged net = false) →
   ∃ e s, r = Py.Raise e s).

End run.

End NetworkSimulation.

(** ** Example objects, used to instantiate the theorems below *)

Module Example.
Definition pipe : BaseAsset.t := BaseAsset.init 1 6 2 ClsSolverPipe.
Definition boundary : BaseAsset.t := BaseBoundary.upcast (BaseBoundary.init 2 3 1).
Definition pipe2 : BaseAsset.t := BaseAsset.init 3 6 2 ClsSolverPipe.
Definition h0 : Heap :=
  {| asset_objs := <[1%positive := pipe]> (<[2%positive := boundary]> (<[3%positive := pipe2]> ∅));
     node_objs := ∅ |}.
Definition net0 : Network.t :=
  {| Network.assets := <[1%N := 1%positive]> (<[2%N := 2%positive]> (<[3%N := 3%positive]> ∅));
     Network.nodes := ∅ |}.
Definition net1 : Network.t :=
  {| Network.assets := Network.assets net0;
     Network.nodes := <[100%N := 1%positive]> ∅ |}.
Definition node1 : Node.t :=
  {| Node.item := BaseNodeItem.init 3 100;
     Node.connected_assets := [(1%positive, 0); (2%positive, 0)] |}.
Definition h1 : Heap :=
  {| asset_objs :=
       <[1%positive := BaseAsset.connect_node 0 1%positive pipe]>
         (<[2%positive := BaseAsset.connect_node 0 1%positive boundary]>
            (<[3%positive := pipe2]> ∅));
     node_objs := <[1%positive := node1]> ∅ |}.
Definition h2 : Heap :=
  {| asset_objs :=
       <[1%positive := BaseAsset.connect_node 0 1%positive pipe]>
         (<[2%positive := BaseAsset.connect_node 0 1%positive boundary]>
            (<[3%positive := BaseAsset.connect_node 1 1%positive pipe2]> ∅));
     node_objs := <[1%positive := Node.connect_asset 3%positive 1 node1]> ∅ |}.

(** A boundary object and two stand-ins for the inherited equation methods. *)
Definition boundary_obj : BaseBoundary.t := BaseBoundary.init 2 3 1.
Definition thermal_row (h : Heap) (self : BaseBoundary.t) (connection_point : Z)
    : Py.exn + EquationObject :=
  inr {| indices := [BaseBoundary.matrix_index self + IndexEnum.internal_energy];
         coefficients := [1.0%float]; rhs := 0%float |}.
Definition press_to_node_row (h : Heap) (self : BaseBoundary.t) (connection_point : Z)
    : Py.exn + EquationObject :=
  inr {| indices := [BaseBoundary.matrix_index self + IndexEnum.pressure; 0];
         coefficients := [1.0%float; (-1.0)%float]; rhs := 0%float |}.

(** A production cluster with a supply of 353 K and a return of 313 K,
    and a stand-in for the mass-flow helper: demand / (4182 * (Ts - Tr)). *)
Definition cluster : ProductionCluster.t :=
  {| ProductionCluster.pandapipes_net :=
       {| ProductionCluster.circ_pump_mass_mdot_flow_kg_per_s := <[0 := 1.0%float]> ∅;
          ProductionCluster.flow_control_controlled_mdot_kg_per_s := <[0 := 1.0%float]> ∅ |};
     ProductionCluster.asset_name := "producer";
     ProductionCluster.temperature_supply := 353.0%float;
     ProductionCluster.temperature_return := 313.0%float;
     ProductionCluster._controlled_mass_flow := 1.0%float;
     ProductionCluster.circ_pump_index := 0;
     ProductionCluster.flow_control_index := 0 |}.
Definition mass_flow_of (thermal_demand temperature_supply temperature_return : float)
    (net : ProductionCluster.pandapipesNet) : float :=
  (thermal_demand / (4182 * (temperature_supply - temperature_return)))%float.

(** A simulation of two timesteps over a network that counts the solve steps
    made on it; the convergence criterion [converged_at_3] asks for three. *)
Definition cfg : NetworkSimulation.SimulationConfiguration :=
  {| NetworkSimulation.start := 0; NetworkSimulation.stop := 2;
     NetworkSimulation.timestep := 1 |}.
Definition sim : NetworkSimulation.t (HeatNetwork := nat) (NetworkController := unit) :=
  {| NetworkSimulation.config := None; NetworkSimulation.network := 0%nat;
     NetworkSimulation.controller := (); NetworkSimulation.journal := [] |}.
Definition sim_run (fuel : nat) :=
  NetworkSimulation.run (ControllerInput := unit)
    (λ c _, (c, ())) (λ n _ _, S n) (λ n, n) fuel sim cfg.
Definition converged_at_3 (n : nat) : bool := (3 <=? n)%nat.

End Example.

(** * Further code of the same files, their callees and callers *)

(** What [solution[index : index + nou]] holds for a block that starts at a
    non-negative index: the entries of the block that exist.  A block inside
    the vector is copied whole, a block past its end is empty. *)
Definition block_of (solution : list float) (index nou : Z) (prev_sol : list float) : Prop :=
  prev_sol = take (Z.to_nat nou) (drop (Z.to_nat index) solution) ∧
  (index + nou ≤ Z.of_nat (length solution) →
     length prev_sol = Z.to_nat nou ∧
     ∀ j, (j < Z.to_nat nou)%nat → prev_sol !! j = solution !! (Z.to_nat index + j)%nat) ∧
  (Z.of_nat (length solution) ≤ index → prev_sol = []).

(** ** [networksimulation.py]: one pass of the time loop, written directly *)

Module NetworkSimulationStep.

Section step.

Context {HeatNetwork NetworkController ControllerInput : Type}.
Variable controller_run_time_step : NetworkController → Z → NetworkController * ControllerInput.
Variable network_run_time_step : HeatNetwork → Z → ControllerInput → HeatNetwork.
Variable network_store_output : HeatNetwork → HeatNetwork.

(** One controller step, one solve step with its input, one
    [store_output]. *)
Definition step_once (state : HeatNetwork * NetworkController) (time : Z)
    : HeatNetwork * NetworkController :=
  let '(ctrl, controller_input) := controller_run_time_step state.2 time in
  (network_store_output (network_run_time_step state.1 time controller_input), ctrl).

(** The controller alone. *)
Definition controller_once (ctrl : NetworkController) (time : Z) : NetworkController :=
  (controller_run_time_step ctrl time).1.

End step.

End NetworkSimulationStep.

(** ** [production_cluster.py]: set-points, results and [update] *)

Module ProductionClusterSetpoints.

(** [asset_defaults.py]: the names of the set-points. *)
Definition PROPERTY_HEAT_DEMAND : string := "heat_demand".
Definition PROPERTY_TEMPERATURE_SUPPLY : string := "temperature_supply".
Definition PROPERTY_TEMPERATURE_RETURN : string := "temperature_return".

(** The parts of the pandapipes network that [ProductionCluster.pandapipesNet]
    leaves out: the column [net["circ_pump_mass"]["t_flow_k"]] and the two
    result tables read here, each reduced to the column that is read,
    [net.res_junction["t_k"]] and
    [net.res_circ_pump_mass["mdot_flow_kg_per_s"]].  A result table is an
    attribute of the network only once it was computed ([None]: the
    attribute is absent). *)
Record more_tables := mkMore {
  circ_pump_mass_t_flow_k : gmap Z float;
  res_junction_t_k : option (gmap Z float);
  res_circ_pump_mass_mdot_flow_kg_per_s : option (gmap Z float)
}.

(** The cluster with the rest of its network and of its fields.  [warnings]
    is not a field of the source: it records the calls of [warn], each with
    the set of names it reports. *)
Record t := mk {
  cluster : ProductionCluster.t;
  tables : more_tables;
  from_junction_index : Z;            (* self.from_junction.index *)
  to_junction_index : Z;              (* self.to_junction.index *)
  warnings : list (gset string)
}.

(** The exceptions of these methods: those of the first part, the
    [ValueError] of missing set-points with the set it reports, the
    [ValueError] "Simulation data not available." and the [AttributeError]
    of an absent result table. *)
Inductive exn :=
  | Inner (e : Py.exn)
  | MissingSetpoints (missing : gset string)
  | SimulationDataNotAvailable
  | AttributeError.

Inductive outcome (A : Type) :=
  | Return (v : A) (s : t)
  | Raise (e : exn) (s : t).
Arguments Return {A} v s.
Arguments Raise {A} e s.

Definition set_cluster (self : t) (c : ProductionCluster.t) : t :=
  {| cluster := c; tables := tables self;
     from_junction_index := from_junction_index self;
     to_junction_index := to_junction_index self;
     warnings := warnings self |}.

Definition set_temperature_supply (c : ProductionCluster.t) (v : float) : ProductionCluster.t :=
  {| ProductionCluster.pandapipes_net := ProductionCluster.pandapipes_net c;
     ProductionCluster.asset_name := ProductionCluster.asset_name c;
     ProductionCluster.temperature_supply := v;
     ProductionCluster.temperature_return := ProductionCluster.temperature_return c;
     ProductionCluster._controlled_mass_flow := ProductionCluster._controlled_mass_flow c;
     ProductionCluster.circ_pump_index := ProductionCluster.circ_pump_index c;
     ProductionCluster.flow_control_index := ProductionCluster.flow_control_index c |}.

Definition set_temperature_return (c : ProductionCluster.t) (v : float) : ProductionCluster.t :=
  {| ProductionCluster.pandapipes_net := ProductionCluster.pandapipes_net c;
     ProductionCluster.asset_name := ProductionCluster.asset_name c;
     ProductionCluster.temperature_supply := ProductionCluster.temperature_supply c;
     ProductionCluster.temperature_return := v;
     ProductionCluster._controlled_mass_flow := ProductionCluster._controlled_mass_flow c;
     ProductionCluster.circ_pump_index := ProductionCluster.circ_pump_index c;
     ProductionCluster.flow_control_index := ProductionCluster.flow_control_index c |}.

Definition set_controlled_mass_flow (c : ProductionCluster.t) (v : float) : ProductionCluster.t :=
  {| ProductionCluster.pandapipes_net := ProductionCluster.pandapipes_net c;
     ProductionCluster.asset_name := ProductionCluster.asset_name c;
     ProductionCluster.temperature_supply := ProductionCluster.temperature_supply c;
     ProductionCluster.temperature_return := ProductionCluster.temperature_return c;
     ProductionCluster._controlled_mass_flow := v;
     ProductionCluster.circ_pump_index := ProductionCluster.circ_pump_index c;
     ProductionCluster.flow_control_index := ProductionCluster.flow_control_index c |}.

(** [_set_supply_temperature]: the field, then the pump's row of
    [t_flow_k]. *)
Definition _set_supply_temperature (self : t) (temperature_supply : float) : t :=
  let c := set_temperature_supply (cluster self) temperature_supply in
  {| cluster := c;
     tables :=
       {| circ_pump_mass_t_flow_k :=
            <[ProductionCluster.circ_pump_index c := ProductionCluster.temperature_supply c]>
              (circ_pump_mass_t_flow_k (tables self));
          res_junction_t_k := res_junction_t_k (tables self);
          res_circ_pump_mass_mdot_flow_kg_per_s :=
            res_circ_pump_mass_mdot_flow_kg_per_s (tables self) |};
     from_junction_index := from_junction_index self;
     to_junction_index := to_junction_index self;
     warnings := warnings self |}.

(** [_set_return_temperature]. *)
Definition _set_return_temperature (self : t) (temperature_return : float) : t :=
  set_cluster self (set_temperature_return (cluster self) temperature_return).

(** The set [necessary_setpoints] of [set_setpoints]. *)
Definition necessary_setpoints : gset string :=
  {[PROPERTY_TEMPERATURE_SUPPLY; PROPERTY_TEMPERATURE_RETURN; PROPERTY_HEAT_DEMAND]}.

Section methods.

(** The two conversions of [entities/assets/utils.py] are not among the
    sources: they are parameters.  Both receive the pandapipes network, here
    its two parts. *)
Variable heat_demand_and_temperature_to_mass_flow :
  float → float → float → ProductionCluster.pandapipesNet * more_tables → float.
Variable mass_flow_and_temperature_to_heat_demand :
  float → float → float → ProductionCluster.pandapipesNet * more_tables → float.

(** The call [self._set_heat_demand(heat_demand)]: the method of the first
    part, whose helper sees the whole network. *)
Definition _set_heat_demand (self : t) (heat_demand : float) : outcome unit :=
  match ProductionCluster._set_heat_demand
          (λ thermal_demand temperature_supply temperature_return net,
             heat_demand_and_temperature_to_mass_flow thermal_demand
               temperature_supply temperature_return (net, tables self))
          (cluster self) heat_demand with
  | Py.Return v c => Return v (set_cluster self c)
  | Py.Raise e c => Raise (Inner e) (set_cluster self c)
  end.

(** [setpoints[key]]. *)
Definition setpoints_item (setpoints : gmap string float) (key : string) (self : t)
    : outcome float :=
  match setpoints !! key with
  | Some v => Return v self
  | None => Raise (Inner Py.KeyError) self
  end.

(** [set_setpoints]. *)
Definition set_setpoints (self : t) (setpoints : gmap string float) : outcome unit :=
  let setpoints_set := dom setpoints in
  if bool_decide (necessary_setpoints ⊆ setpoints_set) then
    match setpoints_item setpoints PROPERTY_TEMPERATURE_SUPPLY self with
    | Raise e s => Raise e s
    | Return temperature_supply self =>
    let self := _set_supply_temperature self temperature_supply in
    match setpoints_item setpoints PROPERTY_TEMPERATURE_RETURN self with
    | Raise e s => Raise e s
    | Return temperature_return self =>
    let self := _set_return_temperature self temperature_return in
    match setpoints_item setpoints PROPERTY_HEAT_DEMAND self with
    | Raise e s => Raise e s
    | Return heat_demand self =>
    match _set_heat_demand self heat_demand with
    | Raise e s => Raise e s
    | Return _ self =>
        (* Raise warning if there are more setpoints *)
        if bool_decide (0 < size (setpoints_set ∖ necessary_setpoints))%nat then
          Return ()
            {| cluster := cluster self; tables := tables self;
               from_junction_index := from_junction_index self;
               to_junction_index := to_junction_index self;
               warnings := warnings self ++ [setpoints_set ∖ necessary_setpoints] |}
        else Return () self
    end end end end
  else
    Raise (MissingSetpoints (necessary_setpoints ∖ setpoints_set)) self.

(** [simulation_performed]: reading the attribute [res_circ_pump_mass]
    raises [AttributeError] when it is absent; when it is present it is a
    table, which [is] not the class [AttributeError]. *)
Definition simulation_performed (self : t) : outcome bool :=
  match res_circ_pump_mass_mdot_flow_kg_per_s (tables self) with
  | None => Raise AttributeError self
  | Some _ => Return true self
  end.

(** [net.table[column][index]] on a result table. *)
Definition result_item (table : more_tables → option (gmap Z float)) (index : Z)
    (self : t) : outcome float :=
  match table (tables self) with
  | None => Raise AttributeError self
  | Some column =>
      match column !! index with
      | Some v => Return v self
      | None => Raise (Inner Py.KeyError) self
      end
  end.

(** [get_setpoints]. *)
Definition get_setpoints (self : t) : outcome (gmap string float) :=
  match simulation_performed self with
  | Raise e s => Raise e s
  | Return false self => Raise SimulationDataNotAvailable self
  | Return true self =>
    match result_item res_junction_t_k (to_junction_index self) self with
    | Raise e s => Raise e s
    | Return temp_supply self =>
    match result_item res_junction_t_k (from_junction_index self) self with
    | Raise e s => Raise e s
    | Return temp_return self =>
    match result_item res_circ_pump_mass_mdot_flow_kg_per_s
            (ProductionCluster.circ_pump_index (cluster self)) self with
    | Raise e s => Raise e s
    | Return mass_flow self =>
        let heat_demand :=
          mass_flow_and_temperature_to_heat_demand temp_supply temp_return mass_flow
            (ProductionCluster.pandapipes_net (cluster self), tables self) in
        Return (<[PROPERTY_TEMPERATURE_SUPPLY := temp_supply]>
               (<[PROPERTY_TEMPERATURE_RETURN := temp_return]>
               (<[PROPERTY_HEAT_DEMAND := heat_demand]> ∅))) self
    end end end
  end.

(** [update]. *)
Definition update (self : t) : outcome unit :=
  match simulation_performed self with
  | Raise e s => Raise e s
  | Return false self => Raise SimulationDataNotAvailable self
  | Return true self =>
    (* Retrieve the setpoints (Ts, Tr, Qh) *)
    match get_setpoints self with
    | Raise e s => Raise e s
    | Return setpoints self =>
    (* Set the setpoints (Ts, Tr, Qh) *)
    match set_setpoints self setpoints with
    | Raise e s => Raise e s
    | Return _ self =>
    (* Set massflow *)
    match result_item res_circ_pump_mass_mdot_flow_kg_per_s
            (ProductionCluster.circ_pump_index (cluster self)) self with
    | Raise e s => Raise e s
    | Return mass_flow self =>
        Return () (set_cluster self (set_controlled_mass_flow (cluster self) mass_flow))
    end end end
  end.

End methods.

End ProductionClusterSetpoints.

(** ** [esdl_asset_object.py]: [EsdlAssetObject.get_asset_parameters] *)

Module EsdlAssetObject.

(** The values of attributes and defaults ([any] in the source): numbers,
    strings, and other objects, which are kept opaque. *)
Inductive value :=
  | VFloat (f : float)
  | VStr (s : string)
  | VObject (id : positive).

Record EsdlKey := mkKey {
  name : string;
  default : value
}.

(** [ASSET_DICT]; a dictionary display keeps the order of its items. *)
Definition ASSET_DICT : list (string * list (string * EsdlKey)) :=
  [ ("producer",
      [ ("heating demand", mkKey "power" (VFloat 0)) ]);
    ("consumer",
      [ ("heating demand", mkKey "power" (VFloat 0));
        ("maximum temperature", mkKey "maximumTemperature" (VFloat 0));
        ("minimum temperature", mkKey "minimumTemperature" (VFloat 0)) ]);
    ("pipe",
      [ ("length", mkKey "length" (VFloat 0));
        ("roughness", mkKey "roughness" (VFloat 0));
        ("diameter", mkKey "diameter" (VFloat 0));
        ("inner diameter", mkKey "innerDiameter" (VFloat 0));
        ("outer diameter", mkKey "outerDiameter" (VFloat 0));
        ("material", mkKey "material" (VStr EmptyString)) ]) ].

(** The object: the attributes of its [esdl_asset] ([getattr] on a name
    that is not a key raises [AttributeError]) and its
    [asset_specific_parameters], one of the dictionaries of [ASSET_DICT]. *)
Record t := mk {
  esdl_asset : gmap string value;
  asset_specific_parameters : list (string * EsdlKey)
}.

(** The two [logger.warning] calls of the [except] branch. *)
Inductive warning :=
  | AttributeNotFound (attribute : string)
  | DefaultValueUsed (default : value) (attribute : string).

(** The body of the [for] loop. *)
Definition get_asset_parameters_body (self : t)
    (state : gmap string value * list warning) (item : string * EsdlKey)
    : gmap string value * list warning :=
  let '(parameters, log) := state in
  let '(parameter_key, esdl_key) := item in
  match esdl_asset self !! name esdl_key with
  | Some v => (<[parameter_key := v]> parameters, log)
  | None =>
      (<[parameter_key := default esdl_key]> parameters,
       log ++ [AttributeNotFound (name esdl_key);
               DefaultValueUsed (default esdl_key) (name esdl_key)])
  end.

(** [get_asset_parameters], with the warnings it logs. *)
Definition get_asset_parameters (self : t) : gmap string value * list warning :=
  foldl (get_asset_parameters_body self) (∅, []) (asset_specific_parameters self).

(** The value the loop stores for a key. *)
Definition parameter_of (self : t) (esdl_key : EsdlKey) : value :=
  from_option (λ v, v) (default esdl_key) (esdl_asset self !! name esdl_key).

End EsdlAssetObject.

(** ** [pipe.py]: [Pipe.add_physical_data] *)

Module Pipe.

(** [PIPE_DEFAULTS.k_value = 2e-3] ([asset_defaults.py]), as the binary64
    number that literal denotes. *)
Definition PIPE_DEFAULTS_k_value : float := 0x1.0624dd2f1a9fcp-9%float.

Section pipe.

(** [SolverPipe] is not among the sources: its state is a parameter and so
    is its method [set_physical_properties], called with the dictionary
    [{"length": .., "diameter": .., "roughness": ..}]. *)
Context {SolverPipe : Type}.
Variable set_physical_properties : SolverPipe → float → float → float → SolverPipe.

(** The pipe, reduced to the fields [add_physical_data] reads and writes. *)
Record t := mk {
  length : float;
  diameter : float;
  roughness : float;
  alpha_value : float;
  solver_asset : SolverPipe
}.

(** What the methods ask of the [EsdlAssetObject] they are given:
    [get_property(name, default)], which returns a value and whether the
    property was available ([EsdlAssetObject.get_property] is not among the
    sources), the asset's name, and the result of
    [get_thermal_conductivity_table(esdl_asset)]. *)
Record esdl_view := mkView {
  get_property : string → float → float * bool;
  esdl_asset_name : string;
  thermal_conductivity_table : list float * list float
}.

(** [calculate_inverse_heat_transfer_coefficient] ([utils.py]) and
    [np.sum] are parameters. *)
Variable calculate_inverse_heat_transfer_coefficient :
  list float → list float → list float → list float.
Variable np_sum : list float → float.

(** The [NotImplementedError] of [_get_diameter], with the asset name its
    message reports. *)
Inductive exn := InnerDiameterUnavailable (esdl_asset_name : string).

(** [_get_diameter]. *)
Definition _get_diameter (self : t) (esdl_asset : esdl_view) : exn + float :=
  let '(temp_diameter, property_available) :=
    get_property esdl_asset "innerDiameter" (diameter self) in
  if property_available then inr temp_diameter
  else inl (InnerDiameterUnavailable (esdl_asset_name esdl_asset)).

(** [_get_heat_transfer_coefficient]: [diameters[:-1]] and [diameters[1:]]
    are the inner and outer diameters of the layers. *)
Definition _get_heat_transfer_coefficient (self : t) (esdl_asset : esdl_view) : float :=
  let '(diameters, heat_coefficients) := thermal_conductivity_table esdl_asset in
  if bool_decide (diameters ≠ []) then
    let inverse_heat_transfer_coefficient :=
      np_sum (calculate_inverse_heat_transfer_coefficient
                (Py.slice diameters 0 (-1))
                (drop 1 diameters)
                heat_coefficients) in
    (1.0 / inverse_heat_transfer_coefficient)%float
  else alpha_value self.

(** [add_physical_data]: on a raise the pipe is returned as the method left
    it. *)
Definition add_physical_data (self : t) (esdl_asset : esdl_view) : exn * t + t :=
  let self :=
    {| length := (get_property esdl_asset "length" (length self)).1;
       diameter := diameter self; roughness := roughness self;
       alpha_value := alpha_value self; solver_asset := solver_asset self |} in
  let self :=
    {| length := length self; diameter := diameter self;
       roughness := (get_property esdl_asset "roughness" (roughness self)).1;
       alpha_value := alpha_value self; solver_asset := solver_asset self |} in
  let self :=
    {| length := length self; diameter := diameter self;
       roughness := if PrimFloat.eqb (roughness self) 0 then PIPE_DEFAULTS_k_value
                    else roughness self;
       alpha_value := alpha_value self; solver_asset := solver_asset self |} in
  match _get_diameter self esdl_asset with
  | inl e => inl (e, self)
  | inr d =>
      let self :=
        {| length := length self; diameter := d; roughness := roughness self;
           alpha_value := alpha_value self; solver_asset := solver_asset self |} in
      let self :=
        {| length := length self; diameter := diameter self;
           roughness := roughness self;
           alpha_value := _get_heat_transfer_coefficient self esdl_asset;
           solver_asset := solver_asset self |} in
      inr {| length := length self; diameter := diameter self;
             roughness := roughness self; alpha_value := alpha_value self;
             solver_asset :=
               set_physical_properties (solver_asset self)
                 (length self) (diameter self) (roughness self) |}
  end.

End pipe.

End Pipe.

(** ** [heatexchanger.py] and [asset_abstract.py]: [HeatExchanger.create] *)

Module HeatExchanger.

(** A junction, of which [create] reads the [index]. *)
Record Junction := mkJunction { junction_index : Z }.

Section heat_exchanger.

(** pandapipes' [create_heat_exchanger] is a parameter: it registers the
    component in the network and returns its index. *)
Context {pandapipesNet : Type}.
Variable create_heat_exchanger :
  pandapipesNet → Z → Z → float → float → bool → option string → option Z →
  Z * pandapipesNet.

Record t := mk {
  pandapipes_net : pandapipesNet;
  from_junction : option Junction;      (* None until connect_junctions *)
  to_junction : option Junction;
  diameter_m : float;
  heat_flux_w : float;
  in_service : bool;
  name : option string;
  index : option Z;
  _initialized : bool
}.

(** [__init__]: [AssetAbstract.__init__] sets both junctions to [None]. *)
Definition init (pandapipes_net : pandapipesNet) (diameter_m heat_flux_w : float)
    (in_service : bool) (name : option string) (index : option Z) : t :=
  {| pandapipes_net := pandapipes_net; from_junction := None; to_junction := None;
     diameter_m := diameter_m; heat_flux_w := heat_flux_w; in_service := in_service;
     name := name; index := index; _initialized := false |}.

(** [AssetAbstract.connect_junctions]. *)
Definition connect_junctions (self : t) (from_junction to_junction : Junction) : t :=
  {| pandapipes_net := pandapipes_net self;
     from_junction := Some from_junction; to_junction := Some to_junction;
     diameter_m := diameter_m self; heat_flux_w := heat_flux_w self;
     in_service := in_service self; name := name self; index := index self;
     _initialized := _initialized self |}.

(** The [AttributeError] of [None.index]. *)
Inductive exn := AttributeError.

(** [create]: the flag is set first; the arguments of
    [create_heat_exchanger] are evaluated next, [self.from_junction.index]
    before [self.to_junction.index]. *)
Definition create (self : t) : exn * t + t :=
  if negb (_initialized self) then
    let self :=
      {| pandapipes_net := pandapipes_net self;
         from_junction := from_junction self; to_junction := to_junction self;
         diameter_m := diameter_m self; heat_flux_w := heat_flux_w self;
         in_service := in_service self; name := name self; index := index self;
         _initialized := true |} in
    match from_junction self, to_junction self with
    | Some fj, Some tj =>
        let '(i, net) :=
          create_heat_exchanger (pandapipes_net self) (junction_index fj)
            (junction_index tj) (diameter_m self) (heat_flux_w self)
            (in_service self) (name self) (index self) in
        inr {| pandapipes_net := net;
               from_junction := from_junction self; to_junction := to_junction self;
               diameter_m := diameter_m self; heat_flux_w := heat_flux_w self;
               in_service := in_service self; name := name self; index := Some i;
               _initialized := _initialized self |}
    | _, _ => inl (AttributeError, self)
    end
  else inr self.

End heat_exchanger.

End HeatExchanger.

(** ** Further example data *)

Module ExampleMore.

(** A solution vector and the store the scatter leaves for it. *)
Definition solution : list float := [1.0; 2.0; 3.0; 4.0]%float.
Definition h3 : Heap :=
  match scatter_solution solution (Example.net1, Example.h2) with
  | Py.Return _ s => s.2
  | Py.Raise _ s => s.2
  end.

(** A boundary registered as the only asset of a network, with its unknowns
    at rows 1 to 3 of the system. *)
Definition boundary_at_1 : BaseBoundary.t :=
  {| BaseBoundary.super :=
       BaseAsset.set_item (BaseBoundary.super Example.boundary_obj)
         (BaseNodeItem.set_matrix_index
            (BaseAsset.item (BaseBoundary.super Example.boundary_obj)) 1);
     BaseBoundary.initial_pressure := 10000.0%float |}.
Definition net_boundary : Network.t :=
  {| Network.assets := <[2%N := 1%positive]> ∅; Network.nodes := ∅ |}.
Definition h_boundary : Heap :=
  {| asset_objs := <[1%positive := BaseBoundary.upcast boundary_at_1]> ∅;
     node_objs := ∅ |}.
Definition h_boundary' : Heap :=
  match scatter_solution solution (net_boundary, h_boundary) with
  | Py.Return _ s => s.2
  | Py.Raise _ s => s.2
  end.

(** The network and the store after [add_asset("Pipe")] on an empty
    network, with 7 as the new id. *)
Definition net_pipe : Network.t :=
  {| Network.assets := <[7%N := 1%positive]> ∅; Network.nodes := ∅ |}.
Definition h_pipe : Heap :=
  {| asset_objs := <[1%positive := BaseAsset.init 7 6 2 ClsSolverPipe]> ∅;
     node_objs := ∅ |}.
Definition h_empty : Heap := {| asset_objs := ∅; node_objs := ∅ |}.

(** The simulation of [Example], with its three stand-ins named. *)
Definition controller_step (c : unit) (time : Z) : unit * unit := (c, ()).
Definition solve_step (n : nat) (time : Z) (input : unit) : nat := S n.
Definition store_output (n : nat) : nat := n.

(** The production cluster of [Example] before and after a simulation:
    junction 0 returns at 315 K, junction 1 is supplied at 350 K and the
    pump moves 2 kg/s. *)
Definition producer : ProductionClusterSetpoints.t :=
  {| ProductionClusterSetpoints.cluster := Example.cluster;
     ProductionClusterSetpoints.tables :=
       {| ProductionClusterSetpoints.circ_pump_mass_t_flow_k := <[0 := 353.0%float]> ∅;
          ProductionClusterSetpoints.res_junction_t_k := None;
          ProductionClusterSetpoints.res_circ_pump_mass_mdot_flow_kg_per_s := None |};
     ProductionClusterSetpoints.from_junction_index := 0;
     ProductionClusterSetpoints.to_junction_index := 1;
     ProductionClusterSetpoints.warnings := [] |}.
Definition t_k_results : gmap Z float := <[0 := 315.0%float]> (<[1 := 350.0%float]> ∅).
Definition mdot_results : gmap Z float := <[0 := 2.0%float]> ∅.
Definition producer_simulated : ProductionClusterSetpoints.t :=
  {| ProductionClusterSetpoints.cluster := Example.cluster;
     ProductionClusterSetpoints.tables :=
       {| ProductionClusterSetpoints.circ_pump_mass_t_flow_k := <[0 := 353.0%float]> ∅;
          ProductionClusterSetpoints.res_junction_t_k := Some t_k_results;
          ProductionClusterSetpoints.res_circ_pump_mass_mdot_flow_kg_per_s :=
            Some mdot_results |};
     ProductionClusterSetpoints.from_junction_index := 0;
     ProductionClusterSetpoints.to_junction_index := 1;
     ProductionClusterSetpoints.warnings := [] |}.

(** Stand-ins for the two conversions: demand / (4182 * (Ts - Tr)) and its
    inverse. *)
Definition mass_flow_on (thermal_demand temperature_supply temperature_return : float)
    (net : ProductionCluster.pandapipesNet * ProductionClusterSetpoints.more_tables)
    : float :=
  Example.mass_flow_of thermal_demand temperature_supply temperature_return net.1.
Definition heat_demand_of (temperature_supply temperature_return mass_flow : float)
    (net : ProductionCluster.pandapipesNet * ProductionClusterSetpoints.more_tables)
    : float :=
  (mass_flow * (4182 * (temperature_supply - temperature_return)))%float.

Definition setpoints (heat_demand : float) : gmap string float :=
  <[ProductionClusterSetpoints.PROPERTY_TEMPERATURE_SUPPLY := 360.0%float]>
    (<[ProductionClusterSetpoints.PROPERTY_TEMPERATURE_RETURN := 320.0%float]>
       (<[ProductionClusterSetpoints.PROPERTY_HEAT_DEMAND := heat_demand]> ∅)).

(** An ESDL pipe that has a length and an inner diameter and nothing else. *)
Definition esdl_pipe : EsdlAssetObject.t :=
  {| EsdlAssetObject.esdl_asset :=
       <["length" := EsdlAssetObject.VFloat 120.0]>
         (<["innerDiameter" := EsdlAssetObject.VFloat 0.5]> ∅);
     EsdlAssetObject.asset_specific_parameters :=
       [ ("length", EsdlAssetObject.mkKey "length" (EsdlAssetObject.VFloat 0));
         ("roughness", EsdlAssetObject.mkKey "roughness" (EsdlAssetObject.VFloat 0));
         ("diameter", EsdlAssetObject.mkKey "diameter" (EsdlAssetObject.VFloat 0));
         ("inner diameter",
            EsdlAssetObject.mkKey "innerDiameter" (EsdlAssetObject.VFloat 0));
         ("outer diameter",
            EsdlAssetObject.mkKey "outerDiameter" (EsdlAssetObject.VFloat 0));
         ("material", EsdlAssetObject.mkKey "material" (EsdlAssetObject.VStr EmptyString)) ] |}.

(** A pipe as [Pipe.__init__] leaves it, with a solver pipe that just keeps
    the three properties it is given, and two views of ESDL assets: one with
    a length, a zero roughness and an inner diameter, one with a length
    only. *)
Definition pipe_obj : Pipe.t (SolverPipe := float * float * float) :=
  {| Pipe.length := 1.0; Pipe.diameter := 1.25;
     Pipe.roughness := Pipe.PIPE_DEFAULTS_k_value; Pipe.alpha_value := 0.0;
     Pipe.solver_asset := (1.0, 1.25, Pipe.PIPE_DEFAULTS_k_value)%float |}.
Definition keep_properties (solver : float * float * float)
    (length diameter roughness : float) : float * float * float :=
  (length, diameter, roughness).
Definition no_layers (inner_diameter outer_diameter thermal_conductivity : list float)
    : list float := [].
Definition sum_one (values : list float) : float := 1.0.
Definition esdl_view_complete : Pipe.esdl_view :=
  {| Pipe.get_property := λ name default,
       if String.eqb name "length" then (120.0%float, true)
       else if String.eqb name "roughness" then (0.0%float, true)
       else if String.eqb name "innerDiameter" then (0.5%float, true)
       else (default, false);
     Pipe.esdl_asset_name := "pipe1";
     Pipe.thermal_conductivity_table := ([], []) |}.
Definition esdl_view_length_only : Pipe.esdl_view :=
  {| Pipe.get_property := λ name default,
       if String.eqb name "length" then (120.0%float, true) else (default, false);
     Pipe.esdl_asset_name := "pipe2";
     Pipe.thermal_conductivity_table := ([], []) |}.

(** A heat exchanger in a network that lists the junction pairs of its
    components; the index of a new component is its position. *)
Definition register (net : list (Z * Z)) (from_junction to_junction : Z)
    (diameter_m qext_w : float) (in_service : bool) (name : option string)
    (index : option Z) : Z * list (Z * Z) :=
  (Z.of_nat (length net), net ++ [(from_junction, to_junction)]).
Definition exchanger : HeatExchanger.t (pandapipesNet := list (Z * Z)) :=
  HeatExchanger.init [(0, 1)] 0.5 1000.0 true (Some "hex") None.

End ExampleMore.

(** * Properties *)

(** ** The network *)

Module NetworkSpec.
Import Network.

Ltac run :=
  unfold mbind, M_bind, mret, M_ret, raise, get_self, asset_at, node_at,
    put_asset, put_node, new_asset, new_node, assets_item, nodes_item,
    assets_setitem, nodes_setitem; cbn.

Lemma insert_as_alter `{Countable K} {A} (f : A → A) (m : gmap K A) i x :
  m !! i = Some x → <[i := f x]> m = alter f i m.
Proof.
  intros Hi. apply map_eq. intros j.
  rewrite lookup_alter, lookup_insert. case_decide; subst; by rewrite ?Hi.
Qed.

Lemma bind_Return {A B} (m : M A) (k : A → M B) s v s' :
  m s = Py.Return v s' → (m ≫= k) s = k v s'.
Proof. unfold mbind, M_bind. by intros ->. Qed.

Lemma bind_Raise {A B} (m : M A) (k : A → M B) s e s' :
  m s = Py.Raise e s' → (m ≫= k) s = Py.Raise e s'.
Proof. unfold mbind, M_bind. by intros ->. Qed.

Lemma update_asset_run r f self h :
  is_Some (asset_objs h !! r) →
  update_asset r f (self, h)
  = Py.Return () (self, {| asset_objs := alter f r (asset_objs h);
                           node_objs := node_objs h |}).
Proof.
  intros [a Ha]. unfold update_asset. run. rewrite Ha. cbn.
  by rewrite (insert_as_alter f _ _ a).
Qed.

Lemma update_node_run r f self h :
  is_Some (node_objs h !! r) →
  update_node r f (self, h)
  = Py.Return () (self, {| asset_objs := asset_objs h;
                           node_objs := alter f r (node_objs h) |}).
Proof.
  intros [n Hn]. unfold update_node. run. rewrite Hn. cbn.
  by rewrite (insert_as_alter f _ _ n).
Qed.

Lemma exists_asset_run k self h :
  exists_asset k (self, h)
  = Py.Return (bool_decide (is_Some (assets self !! k))) (self, h).
Proof. done. Qed.

Lemma asset_is_connected_run k cp r a self h :
  assets self !! k = Some r → asset_objs h !! r = Some a →
  asset_is_connected k cp (self, h)
  = Py.Return (BaseAsset.is_connected a cp) (self, h).
Proof. intros Hk Ha. unfold asset_is_connected. run. rewrite Hk. cbn. by rewrite Ha. Qed.

Lemma new_node_run n self h :
  new_node n (self, h)
  = Py.Return (fresh (dom (node_objs h)))
      (self, {| asset_objs := asset_objs h;
                node_objs := <[fresh (dom (node_objs h)) := n]> (node_objs h) |}).
Proof. done. Qed.

Lemma nodes_setitem_run k r self h :
  nodes_setitem k r (self, h)
  = Py.Return () ({| assets := assets self; nodes := <[k := r]> (nodes self) |}, h).
Proof. done. Qed.

Lemma assets_item_run k r self h :
  assets self !! k = Some r → assets_item k (self, h) = Py.Return r (self, h).
Proof. unfold assets_item. cbn. by intros ->. Qed.

Lemma nodes_item_run k r self h :
  nodes self !! k = Some r → nodes_item k (self, h) = Py.Return r (self, h).
Proof. unfold nodes_item. cbn. by intros ->. Qed.

Lemma node_at_run r n self h :
  node_objs h !! r = Some n → node_at r (self, h) = Py.Return n (self, h).
Proof. unfold node_at. cbn. by intros ->. Qed.

Lemma asset_get_connected_node_run k cp r a n self h :
  assets self !! k = Some r → asset_objs h !! r = Some a →
  BaseAsset.connected_nodes a !! cp = Some n →
  asset_get_connected_node k cp (self, h) = Py.Return n (self, h).
Proof.
  intros Hk Ha Hn. unfold asset_get_connected_node, BaseAsset.get_connected_node.
  run. rewrite Hk. cbn. rewrite Ha. cbn. by rewrite Hn.
Qed.

Ltac step lem := rewrite (bind_Return _ _ _ _ _ lem).
Ltac step_by tac := erewrite bind_Return; [| tac].

Lemma is_connected_bound (a : BaseAsset.t) (cp : Z) (n : loc) :
  BaseAsset.connected_nodes a !! cp = Some n → BaseAsset.is_connected a cp = true.
Proof. intros Hn. unfold BaseAsset.is_connected. by rewrite Hn, bool_decide_eq_true_2. Qed.

Lemma is_connected_unbound (a : BaseAsset.t) (cp : Z) :
  BaseAsset.is_connected a cp = false ↔ BaseAsset.connected_nodes a !! cp = None.
Proof.
  unfold BaseAsset.is_connected. rewrite bool_decide_eq_false, <- eq_None_not_Some. done.
Qed.

Lemma alter_connect_node_lookup (A : gmap loc BaseAsset.t) r cp n r' o :
  A !! r' = Some o →
  alter (BaseAsset.connect_node cp n) r A !! r'
  = Some (if decide (r = r') then BaseAsset.connect_node cp n o else o).
Proof. intros Ho. rewrite lookup_alter. case_decide; subst; by rewrite Ho. Qed.

Section connect_assets.

Context (self : Network.t) (h : Heap).
Context (asset1 asset2 uuid4 : UUID) (cp1 cp2 : Z).
Context (r1 r2 : loc) (o1 o2 : BaseAsset.t).
Hypothesis Hr1 : assets self !! asset1 = Some r1.
Hypothesis Hr2 : assets self !! asset2 = Some r2.
Hypothesis Ho1 : asset_objs h !! r1 = Some o1.
Hypothesis Ho2 : asset_objs h !! r2 = Some o2.

Local Abbreviation new_ref := (fresh (dom (node_objs h))).

Ltac prologue :=
  unfold connect_assets;
  rewrite (bind_Return _ _ _ _ _ (exists_asset_run _ _ _));
  rewrite Hr1, bool_decide_eq_true_2 by done; cbn [negb];
  rewrite (bind_Return _ _ _ _ _ (exists_asset_run _ _ _));
  rewrite Hr2, bool_decide_eq_true_2 by done; cbn [negb];
  rewrite (bind_Return _ _ _ _ _ (asset_is_connected_run _ _ _ _ _ _ Hr1 Ho1));
  rewrite (bind_Return _ _ _ _ _ (asset_is_connected_run _ _ _ _ _ _ Hr2 Ho2)).

Lemma new_ref_fresh : node_objs h !! new_ref = None.
Proof. apply not_elem_of_dom, is_fresh. Qed.

Lemma connect_assets_neither :
  BaseAsset.is_connected o1 cp1 = false →
  BaseAsset.is_connected o2 cp2 = false →
  connect_assets asset1 cp1 asset2 cp2 uuid4 (self, h)
  = Py.Return uuid4
      ({| assets := assets self; nodes := <[uuid4 := new_ref]> (nodes self) |},
       {| asset_objs :=
            alter (BaseAsset.connect_node cp2 new_ref) r2
              (alter (BaseAsset.connect_node cp1 new_ref) r1 (asset_objs h));
          node_objs :=
            <[new_ref := {| Node.item := BaseNodeItem.init 3 uuid4;
                            Node.connected_assets := [(r1, cp1); (r2, cp2)] |}]>
              (node_objs h) |}).
Proof.
  intros Hc1 Hc2. prologue. rewrite Hc1, Hc2. cbn [negb andb].
  step_by ltac:(apply new_node_run). fold new_ref.
  step_by ltac:(apply nodes_setitem_run).
  step_by ltac:(by apply assets_item_run).
  step_by ltac:(by apply nodes_item_run, lookup_insert_eq).
  step_by ltac:(by eapply update_asset_run).
  step_by ltac:(by apply assets_item_run).
  step_by ltac:(by apply nodes_item_run, lookup_insert_eq).
  step_by ltac:(eapply update_asset_run; cbn;
                rewrite lookup_alter; case_decide; subst; by rewrite ?Ho1, ?Ho2).
  step_by ltac:(by apply nodes_item_run, lookup_insert_eq).
  step_by ltac:(by apply assets_item_run).
  step_by ltac:(eapply update_node_run; cbn; by rewrite lookup_insert_eq).
  step_by ltac:(by apply nodes_item_run, lookup_insert_eq).
  step_by ltac:(by apply assets_item_run).
  step_by ltac:(eapply update_node_run; cbn;
                by rewrite alter_insert_eq, lookup_insert_eq).
  cbn. by rewrite !alter_insert_eq.
Qed.

Lemma connect_assets_first (n : loc) (nd : Node.t) :
  BaseAsset.connected_nodes o1 !! cp1 = Some n →
  node_objs h !! n = Some nd →
  BaseAsset.is_connected o2 cp2 = false →
  connect_assets asset1 cp1 asset2 cp2 uuid4 (self, h)
  = Py.Return (BaseNodeItem.name (Node.item nd))
      (self,
       {| asset_objs := alter (BaseAsset.connect_node cp2 n) r2 (asset_objs h);
          node_objs := alter (Node.connect_asset r2 cp2) n (node_objs h) |}).
Proof.
  intros Hn Hnd Hc2. prologue.
  rewrite (is_connected_bound _ _ _ Hn), Hc2. cbn [negb andb].
  step_by ltac:(by eapply asset_get_connected_node_run).
  step_by ltac:(by apply assets_item_run).
  step_by ltac:(by eapply update_asset_run).
  step_by ltac:(by apply assets_item_run).
  step_by ltac:(by eapply update_node_run).
  step_by ltac:(eapply node_at_run; cbn; by rewrite lookup_alter_eq, Hnd).
  done.
Qed.

Lemma connect_assets_second (n : loc) (nd : Node.t) :
  BaseAsset.is_connected o1 cp1 = false →
  BaseAsset.connected_nodes o2 !! cp2 = Some n →
  node_objs h !! n = Some nd →
  connect_assets asset1 cp1 asset2 cp2 uuid4 (self, h)
  = Py.Return (BaseNodeItem.name (Node.item nd))
      (self,
       {| asset_objs := alter (BaseAsset.connect_node cp1 n) r1 (asset_objs h);
          node_objs := alter (Node.connect_asset r1 cp1) n (node_objs h) |}).
Proof.
  intros Hc1 Hn Hnd. prologue.
  rewrite (is_connected_bound _ _ _ Hn), Hc1. cbn [negb andb].
  step_by ltac:(by eapply asset_get_connected_node_run).
  step_by ltac:(by apply assets_item_run).
  step_by ltac:(by eapply update_asset_run).
  step_by ltac:(by apply assets_item_run).
  step_by ltac:(by eapply update_node_run).
  step_by ltac:(eapply node_at_run; cbn; by rewrite lookup_alter_eq, Hnd).
  done.
Qed.

Lemma connect_assets_both :
  BaseAsset.is_connected o1 cp1 = true →
  BaseAsset.is_connected o2 cp2 = true →
  connect_assets asset1 cp1 asset2 cp2 uuid4 (self, h)
  = Py.Raise (Py.NotImplementedError Py.AlreadyConnectedToNode) (self, h).
Proof. intros Hc1 Hc2. prologue. by rewrite Hc1, Hc2. Qed.

End connect_assets.

Lemma update_node_dangling r f self h :
  node_objs h !! r = None →
  update_node r f (self, h) = Py.Raise Py.DanglingReference (self, h).
Proof. intros Hn. unfold update_node. run. by rewrite Hn. Qed.

(** A call that returns went through one of the three wiring branches. *)
Lemma connect_assets_Return_inv self h asset1 cp1 asset2 cp2 uuid4 id s' :
  connect_assets asset1 cp1 asset2 cp2 uuid4 (self, h) = Py.Return id s' →
  ∃ r1 r2 o1 o2,
    assets self !! asset1 = Some r1 ∧ assets self !! asset2 = Some r2 ∧
    asset_objs h !! r1 = Some o1 ∧ asset_objs h !! r2 = Some o2 ∧
    ((BaseAsset.is_connected o1 cp1 = false ∧ BaseAsset.is_connected o2 cp2 = false) ∨
     (∃ n nd, BaseAsset.connected_nodes o1 !! cp1 = Some n ∧
              node_objs h !! n = Some nd ∧ BaseAsset.is_connected o2 cp2 = false) ∨
     (∃ n nd, BaseAsset.is_connected o1 cp1 = false ∧
              BaseAsset.connected_nodes o2 !! cp2 = Some n ∧
              node_objs h !! n = Some nd)).
Proof.
  intros Hcall.
  destruct (assets self !! asset1) as [r1|] eqn:Hr1; cycle 1.
  { revert Hcall. unfold connect_assets.
    erewrite bind_Return by apply exists_asset_run.
    rewrite Hr1, bool_decide_eq_false_2 by (by intros [??]). discriminate. }
  destruct (assets self !! asset2) as [r2|] eqn:Hr2; cycle 1.
  { revert Hcall. unfold connect_assets.
    erewrite bind_Return by apply exists_asset_run.
    rewrite Hr1, bool_decide_eq_true_2 by done. cbn [negb].
    erewrite bind_Return by apply exists_asset_run.
    rewrite Hr2, bool_decide_eq_false_2 by (by intros [??]). discriminate. }
  destruct (asset_objs h !! r1) as [o1|] eqn:Ho1; cycle 1.
  { revert Hcall. unfold connect_assets.
    erewrite bind_Return by apply exists_asset_run.
    rewrite Hr1, bool_decide_eq_true_2 by done. cbn [negb].
    erewrite bind_Return by apply exists_asset_run.
    rewrite Hr2, bool_decide_eq_true_2 by done. cbn [negb].
    unfold asset_is_connected. run. rewrite Hr1. cbn. rewrite Ho1. discriminate. }
  destruct (asset_objs h !! r2) as [o2|] eqn:Ho2; cycle 1.
  { revert Hcall. unfold connect_assets.
    erewrite bind_Return by apply exists_asset_run.
    rewrite Hr1, bool_decide_eq_true_2 by done. cbn [negb].
    erewrite bind_Return by apply exists_asset_run.
    rewrite Hr2, bool_decide_eq_true_2 by done. cbn [negb].
    erewrite bind_Return by (by eapply asset_is_connected_run).
    unfold asset_is_connected. run. rewrite Hr2. cbn. rewrite Ho2. discriminate. }
  exists r1, r2, o1, o2. do 4 (split; [done|]).
  destruct (BaseAsset.is_connected o1 cp1) eqn:Hc1,
           (BaseAsset.is_connected o2 cp2) eqn:Hc2.
  - by rewrite (connect_assets_both _ _ _ _ _ _ _ _ _ _ _ Hr1 Hr2 Ho1 Ho2 Hc1 Hc2) in Hcall.
  - right; left.
    destruct (BaseAsset.connected_nodes o1 !! cp1) as [n|] eqn:Hn; cycle 1.
    { apply is_connected_unbound in Hn. congruence. }
    destruct (node_objs h !! n) as [nd|] eqn:Hnd; [by eauto|].
    revert Hcall. unfold connect_assets.
    erewrite bind_Return by apply exists_asset_run.
    rewrite Hr1, bool_decide_eq_true_2 by done. cbn [negb].
    erewrite bind_Return by apply exists_asset_run.
    rewrite Hr2, bool_decide_eq_true_2 by done. cbn [negb].
    erewrite bind_Return by (by eapply asset_is_connected_run).
    erewrite bind_Return by (by eapply asset_is_connected_run).
    rewrite Hc1, Hc2. cbn [negb andb].
    erewrite bind_Return by (by eapply asset_get_connected_node_run).
    erewrite bind_Return by (by apply assets_item_run).
    erewrite bind_Return by (by eapply update_asset_run).
    erewrite bind_Return by (by apply assets_item_run).
    erewrite bind_Raise by (by apply update_node_dangling). discriminate.
  - right; right.
    destruct (BaseAsset.connected_nodes o2 !! cp2) as [n|] eqn:Hn; cycle 1.
    { apply is_connected_unbound in Hn. congruence. }
    destruct (node_objs h !! n) as [nd|] eqn:Hnd; [by eauto 10|].
    revert Hcall. unfold connect_assets.
    erewrite bind_Return by apply exists_asset_run.
    rewrite Hr1, bool_decide_eq_true_2 by done. cbn [negb].
    erewrite bind_Return by apply exists_asset_run.
    rewrite Hr2, bool_decide_eq_true_2 by done. cbn [negb].
    erewrite bind_Return by (by eapply asset_is_connected_run).
    erewrite bind_Return by (by eapply asset_is_connected_run).
    rewrite Hc1, Hc2. cbn [negb andb].
    erewrite bind_Return by (by eapply asset_get_connected_node_run).
    erewrite bind_Return by (by apply assets_item_run).
    erewrite bind_Return by (by eapply update_asset_run).
    erewrite bind_Return by (by apply assets_item_run).
    erewrite bind_Raise by (by apply update_node_dangling). discriminate.
  - by left.
Qed.

(** Attaching one connection point to a node of the store keeps the wiring
    consistent, provided the point was free or already on that node. *)
Lemma wired_attach h r o cp n nd :
  wired h →
  asset_objs h !! r = Some o →
  (BaseAsset.connected_nodes o !! cp = None ∨ BaseAsset.connected_nodes o !! cp = Some n) →
  node_objs h !! n = Some nd →
  wired {| asset_objs := alter (BaseAsset.connect_node cp n) r (asset_objs h);
           node_objs := alter (Node.connect_asset r cp) n (node_objs h) |}.
Proof.
  intros [Hfw Hbw] Ho Hfree Hnd. split; cbn.
  - intros r0 a0 cp0 n0. rewrite lookup_alter. case_decide as Hr; subst.
    + rewrite Ho. intros [= <-]. cbn. rewrite lookup_insert.
      case_decide as Hcp; subst.
      * intros [= <-]. rewrite lookup_alter_eq, Hnd. eexists; split; [done|].
        cbn. apply elem_of_app. right. by apply list_elem_of_singleton.
      * intros Hn0. destruct (Hfw _ _ _ _ Ho Hn0) as (nd0 & Hnd0 & Hin).
        rewrite lookup_alter. case_decide; subst.
        -- rewrite Hnd0. eexists; split; [done|]. cbn. apply elem_of_app. by left.
        -- eauto.
    + intros Ha0 Hn0. destruct (Hfw _ _ _ _ Ha0 Hn0) as (nd0 & Hnd0 & Hin).
      rewrite lookup_alter. case_decide; subst.
      * rewrite Hnd0. eexists; split; [done|]. cbn. apply elem_of_app. by left.
      * eauto.
  - intros n0 nd0 r0 cp0. rewrite lookup_alter. case_decide as Hn; subst.
    + rewrite Hnd. intros [= <-]. cbn. rewrite elem_of_app, list_elem_of_singleton.
      intros [Hin|[= -> ->]].
      * destruct (Hbw _ _ _ _ Hnd Hin) as (a0 & Ha0 & Hb).
        rewrite lookup_alter. case_decide; subst.
        -- rewrite Ha0. eexists; split; [done|]. cbn.
           rewrite lookup_insert. case_decide; subst; done.
        -- eauto.
      * rewrite lookup_alter_eq, Ho. eexists; split; [done|]. cbn.
        apply lookup_insert_eq.
    + intros Hnd0 Hin. destruct (Hbw _ _ _ _ Hnd0 Hin) as (a0 & Ha0 & Hb).
      rewrite lookup_alter. case_decide; subst.
      * rewrite Ha0. eexists; split; [done|]. cbn.
        rewrite lookup_insert. case_decide; subst; [|done].
        assert (o = a0) by congruence. subst. destruct Hfree; congruence.
      * eauto.
Qed.

(** A new node nobody is attached to keeps the wiring consistent. *)
Lemma wired_new_node h n nd :
  wired h → node_objs h !! n = None → Node.connected_assets nd = [] →
  wired {| asset_objs := asset_objs h; node_objs := <[n := nd]> (node_objs h) |}.
Proof.
  intros [Hfw Hbw] Hn Hnil. split; cbn.
  - intros r0 a0 cp0 n0 Ha0 Hn0. destruct (Hfw _ _ _ _ Ha0 Hn0) as (nd0 & Hnd0 & Hin).
    exists nd0. split; [|done]. rewrite lookup_insert_ne; [done|congruence].
  - intros n0 nd0 r0 cp0. rewrite lookup_insert. case_decide; subst.
    + intros [= <-]. rewrite Hnil. by intros ?%elem_of_nil.
    + eauto.
Qed.

(** Claim C10.  A [connect_assets] call that returns a node id leaves the
    wiring consistent in both directions: the two given connection points
    are bound to one and the same node, whose name is the returned id, and
    that node lists the (asset, connection point) pair of every point the
    call wired (every point that was free before the call).  Moreover the
    mutual consistency [wired] of the whole store is preserved by the
    call. *)
Theorem connect_assets_wiring_consistent
    (self : Network.t) (h : Heap) (asset1 asset2 uuid4 : UUID) (cp1 cp2 : Z)
    (id : UUID) (self' : Network.t) (h' : Heap) :
  connect_assets asset1 cp1 asset2 cp2 uuid4 (self, h) = Py.Return id (self', h') →
  (∃ r1 r2 o1 o2 o1' o2' n nd,
     assets self !! asset1 = Some r1 ∧ assets self !! asset2 = Some r2 ∧
     asset_objs h !! r1 = Some o1 ∧ asset_objs h !! r2 = Some o2 ∧
     assets self' = assets self ∧
     asset_objs h' !! r1 = Some o1' ∧ asset_objs h' !! r2 = Some o2' ∧
     BaseAsset.connected_nodes o1' !! cp1 = Some n ∧
     BaseAsset.connected_nodes o2' !! cp2 = Some n ∧
     node_objs h' !! n = Some nd ∧
     BaseNodeItem.name (Node.item nd) = id ∧
     (BaseAsset.is_connected o1 cp1 = false → (r1, cp1) ∈ Node.connected_assets nd) ∧
     (BaseAsset.is_connected o2 cp2 = false → (r2, cp2) ∈ Node.connected_assets nd)) ∧
  (wired h → wired h').
Proof.
  intros Hcall.
  destruct (connect_assets_Return_inv _ _ _ _ _ _ _ _ _ Hcall)
    as (r1 & r2 & o1 & o2 & Hr1 & Hr2 & Ho1 & Ho2 & Hcase).
  destruct Hcase as [[Hc1 Hc2]|[(n & nd & Hn & Hnd & Hc2)|(n & nd & Hc1 & Hn & Hnd)]].
  - rewrite (connect_assets_neither _ _ _ _ _ _ _ _ _ _ _ Hr1 Hr2 Ho1 Ho2 Hc1 Hc2) in Hcall.
    injection Hcall as <- <- <-.
    pose proof (new_ref_fresh h) as Hfresh.
    set (n := fresh (dom (node_objs h))) in *.
    split.
    + pose proof (alter_connect_node_lookup _ r1 cp1 n r1 o1 Ho1) as Ho1'.
      pose proof (alter_connect_node_lookup _ r1 cp1 n r2 o2 Ho2) as Ho2'.
      apply (alter_connect_node_lookup _ r2 cp2 n) in Ho1', Ho2'.
      eexists r1, r2, o1, o2, _, _, n, _. do 5 (split; [done|]). cbn.
      split; [exact Ho1'|]. split; [exact Ho2'|]. clear Ho1' Ho2'.
      split; [|split; [|split; [|split; [|split]]]].
      * repeat case_decide; cbn; rewrite ?lookup_insert; repeat case_decide; done.
      * repeat case_decide; cbn; rewrite ?lookup_insert; repeat case_decide; done.
      * apply lookup_insert_eq.
      * done.
      * intros _. cbn. set_solver.
      * intros _. cbn. set_solver.
    + intros Hw.
      apply is_connected_unbound in Hc1, Hc2.
      pose proof (wired_new_node h n (Node.init uuid4) Hw Hfresh eq_refl) as Hw0.
      pose proof (wired_attach _ r1 o1 cp1 n _ Hw0 Ho1 (or_introl Hc1)
                    (lookup_insert_eq _ _ _)) as Hw1. cbn in Hw1.
      assert (∃ o, alter (BaseAsset.connect_node cp1 n) r1 (asset_objs h) !! r2 = Some o ∧
                   (BaseAsset.connected_nodes o !! cp2 = None ∨
                    BaseAsset.connected_nodes o !! cp2 = Some n)) as (o & Ho & Hfree).
      { rewrite lookup_alter. case_decide; subst.
        - rewrite Ho1. eexists; split; [done|]. cbn. rewrite lookup_insert.
          case_decide; subst; [by right|]. left. congruence.
        - eauto. }
      pose proof (wired_attach _ r2 o cp2 n _ Hw1 Ho Hfree
                    ltac:(cbn; by rewrite lookup_alter_eq, lookup_insert_eq)) as Hw2.
      cbn in Hw2. by rewrite !alter_insert_eq in Hw2.
  - rewrite (connect_assets_first _ _ _ _ _ _ _ _ _ _ _ Hr1 Hr2 Ho1 Ho2 _ _ Hn Hnd Hc2)
      in Hcall.
    injection Hcall as <- <- <-. split.
    + assert (∃ o1', alter (BaseAsset.connect_node cp2 n) r2 (asset_objs h) !! r1 = Some o1' ∧
                     BaseAsset.connected_nodes o1' !! cp1 = Some n) as (o1' & Ho1' & Hn').
      { rewrite lookup_alter. case_decide; subst.
        - rewrite Ho1. eexists; split; [done|]. cbn. rewrite lookup_insert.
          case_decide; subst; done.
        - eauto. }
      eexists r1, r2, o1, o2, o1', _, n, _. do 5 (split; [done|]). cbn.
      split; [done|]. split; [by rewrite lookup_alter_eq, Ho2|].
      split; [done|]. split; [cbn; apply lookup_insert_eq|].
      split; [by rewrite lookup_alter_eq, Hnd|]. split; [done|]. split.
      * intros Hc1. by rewrite (is_connected_bound _ _ _ Hn) in Hc1.
      * intros _. cbn. set_solver.
    + intros Hw. apply is_connected_unbound in Hc2.
      by eapply wired_attach; eauto.
  - rewrite (connect_assets_second _ _ _ _ _ _ _ _ _ _ _ Hr1 Hr2 Ho1 Ho2 _ _ Hc1 Hn Hnd)
      in Hcall.
    injection Hcall as <- <- <-. split.
    + assert (∃ o2', alter (BaseAsset.connect_node cp1 n) r1 (asset_objs h) !! r2 = Some o2' ∧
                     BaseAsset.connected_nodes o2' !! cp2 = Some n) as (o2' & Ho2' & Hn').
      { rewrite lookup_alter. case_decide; subst.
        - rewrite Ho2. eexists; split; [done|]. cbn. rewrite lookup_insert.
          case_decide; subst; done.
        - eauto. }
      eexists r1, r2, o1, o2, _, o2', n, _. do 5 (split; [done|]). cbn.
      split; [by rewrite lookup_alter_eq, Ho1|]. split; [done|].
      split; [cbn; apply lookup_insert_eq|]. split; [done|].
      split; [by rewrite lookup_alter_eq, Hnd|]. split; [done|]. split.
      * intros _. cbn. set_solver.
      * intros Hc2. by rewrite (is_connected_bound _ _ _ Hn) in Hc2.
    + intros Hw. apply is_connected_unbound in Hc1.
      by eapply wired_attach; eauto.
Qed.

(** A store whose assets have no connection and which holds no node is
    consistently wired. *)
Lemma wired_unconnected (h : Heap) :
  map_Forall (λ _ a, BaseAsset.connected_nodes a = ∅) (asset_objs h) →
  node_objs h = ∅ →
  wired h.
Proof.
  intros Ha Hn. split.
  - intros r a cp n Hr Hcp. rewrite (Ha _ _ Hr) in Hcp. by rewrite lookup_empty in Hcp.
  - intros n nd r cp Hnd. by rewrite Hn, lookup_empty in Hnd.
Qed.

Lemma connect_assets_wiring_consistent_witness :
  wired Example.h0 ∧ wired Example.h1.
Proof.
  assert (wired Example.h0) as Hw0.
  { apply wired_unconnected; [|done].
    apply (bool_decide_unpack _). vm_compute. exact I. }
  split; [exact Hw0|].
  exact (proj2 (connect_assets_wiring_consistent Example.net0 Example.h0 1 2 100 0 0
                  100 Example.net1 Example.h1 ltac:(vm_compute; reflexivity)) Hw0).
Defined.

(** Claim C1.  For two connection points of assets of the network:
    when neither is connected, [connect_assets] creates exactly one new
    [Node] (a new object of the store, registered under the new id), binds
    both points to it and returns its id; when exactly one is connected, it
    binds the other point to that point's node, lists it there and returns
    that node's name, creating nothing; when both are connected (to
    different nodes or to the same one) it raises [NotImplementedError] -
    the specification's AlreadyConnectedError - and leaves the network and
    the store as they were. *)
Theorem connect_assets_spec
    (self : Network.t) (h : Heap) (asset1 asset2 uuid4 : UUID) (cp1 cp2 : Z)
    (r1 r2 : loc) (o1 o2 : BaseAsset.t) :
  assets self !! asset1 = Some r1 → assets self !! asset2 = Some r2 →
  asset_objs h !! r1 = Some o1 → asset_objs h !! r2 = Some o2 →
  let call := connect_assets asset1 cp1 asset2 cp2 uuid4 (self, h) in
  (BaseAsset.is_connected o1 cp1 = false → BaseAsset.is_connected o2 cp2 = false →
   let node := fresh (dom (node_objs h)) in
   node_objs h !! node = None ∧
   call = Py.Return uuid4
     ({| assets := assets self; nodes := <[uuid4 := node]> (nodes self) |},
      {| asset_objs :=
           alter (BaseAsset.connect_node cp2 node) r2
             (alter (BaseAsset.connect_node cp1 node) r1 (asset_objs h));
         node_objs :=
           <[node := {| Node.item := BaseNodeItem.init 3 uuid4;
                        Node.connected_assets := [(r1, cp1); (r2, cp2)] |}]>
             (node_objs h) |})) ∧
  (∀ node nd,
     BaseAsset.connected_nodes o1 !! cp1 = Some node → node_objs h !! node = Some nd →
     BaseAsset.is_connected o2 cp2 = false →
     call = Py.Return (BaseNodeItem.name (Node.item nd))
       (self,
        {| asset_objs := alter (BaseAsset.connect_node cp2 node) r2 (asset_objs h);
           node_objs := alter (Node.connect_asset r2 cp2) node (node_objs h) |})) ∧
  (∀ node nd,
     BaseAsset.is_connected o1 cp1 = false →
     BaseAsset.connected_nodes o2 !! cp2 = Some node → node_objs h !! node = Some nd →
     call = Py.Return (BaseNodeItem.name (Node.item nd))
       (self,
        {| asset_objs := alter (BaseAsset.connect_node cp1 node) r1 (asset_objs h);
           node_objs := alter (Node.connect_asset r1 cp1) node (node_objs h) |})) ∧
  (∀ node1 node2,
     BaseAsset.connected_nodes o1 !! cp1 = Some node1 →
     BaseAsset.connected_nodes o2 !! cp2 = Some node2 →
     call = Py.Raise (Py.NotImplementedError Py.AlreadyConnectedToNode) (self, h)).
Proof.
  intros Hr1 Hr2 Ho1 Ho2 call. subst call. repeat split.
  - apply new_ref_fresh.
  - by eapply connect_assets_neither.
  - intros. by eapply connect_assets_first.
  - intros. by eapply connect_assets_second.
  - intros. eapply connect_assets_both; eauto using is_connected_bound.
Qed.

Lemma connect_assets_spec_witness :
  connect_assets 1 0 2 0 100 (Example.net0, Example.h0)
  = Py.Return 100%N (Example.net1, Example.h1) ∧
  connect_assets 2 0 3 1 101 (Example.net1, Example.h1)
  = Py.Return 100%N (Example.net1, Example.h2) ∧
  connect_assets 1 0 3 1 102 (Example.net1, Example.h2)
  = Py.Raise (Py.NotImplementedError Py.AlreadyConnectedToNode)
      (Example.net1, Example.h2).
Proof.
  split; [|split].
  - destruct (connect_assets_spec Example.net0 Example.h0 1 2 100 0 0 1 2
                Example.pipe Example.boundary
                ltac:(vm_compute; reflexivity) ltac:(vm_compute; reflexivity)
                ltac:(vm_compute; reflexivity) ltac:(vm_compute; reflexivity))
      as (H & _).
    destruct (H ltac:(vm_compute; reflexivity) ltac:(vm_compute; reflexivity)) as [_ ->].
    vm_compute; reflexivity.
  - destruct (connect_assets_spec Example.net1 Example.h1 2 3 101 0 1 2 3
                (BaseAsset.connect_node 0 1%positive Example.boundary) Example.pipe2
                ltac:(vm_compute; reflexivity) ltac:(vm_compute; reflexivity)
                ltac:(vm_compute; reflexivity) ltac:(vm_compute; reflexivity))
      as (_ & H & _).
    rewrite (H 1%positive Example.node1
               ltac:(vm_compute; reflexivity) ltac:(vm_compute; reflexivity)
               ltac:(vm_compute; reflexivity)).
    vm_compute; reflexivity.
  - destruct (connect_assets_spec Example.net1 Example.h2 1 3 102 0 1 1 3
                (BaseAsset.connect_node 0 1%positive Example.pipe)
                (BaseAsset.connect_node 1 1%positive Example.pipe2)
                ltac:(vm_compute; reflexivity) ltac:(vm_compute; reflexivity)
                ltac:(vm_compute; reflexivity) ltac:(vm_compute; reflexivity))
      as (_ & _ & _ & H).
    exact (H 1%positive 1%positive
             ltac:(vm_compute; reflexivity) ltac:(vm_compute; reflexivity)).
Defined.

Lemma registered_class (asset_type : string) (cls : UUID → BaseAsset.t) (u : UUID) :
  str_to_class_dict !! asset_type = Some cls →
  BaseNodeItem.name (BaseAsset.item (cls u)) = u ∧
  BaseAsset.connected_nodes (cls u) = ∅.
Proof.
  unfold str_to_class_dict. intros H.
  repeat (rewrite lookup_insert in H; case_decide;
          [ injection H as <-; by split | ]).
  by rewrite lookup_empty in H.
Qed.

(** Claim C7.  [add_asset] raises exactly when [asset_type] is not a key of
    [str_to_class_dict]; the exception is a [ValueError] (the specification's
    UnknownKindError) and the network is unchanged.  For a registered kind
    and no name, a new object named by the generated id is created, stored
    under that id and the id is returned.  [add_existing_asset] raises
    exactly when the asset's name is already a key of [assets]; the
    exception is a [ValueError] (the specification's DuplicateEntityError)
    and the network is unchanged; otherwise the asset is stored under its
    name, which is returned. *)
Theorem add_asset_add_existing_asset_spec (s : Network.t * Heap) :
  (∀ asset_type name uuid4,
     ((∃ e s', add_asset asset_type name uuid4 s = Py.Raise e s')
        ↔ str_to_class_dict !! asset_type = None) ∧
     (str_to_class_dict !! asset_type = None →
        add_asset asset_type name uuid4 s
        = Py.Raise (Py.ValueError (Py.NotRecognized asset_type)) s) ∧
     (∀ cls, str_to_class_dict !! asset_type = Some cls →
        let r := fresh (dom (asset_objs s.2)) in
        asset_objs s.2 !! r = None ∧
        BaseNodeItem.name (BaseAsset.item (cls uuid4)) = uuid4 ∧
        add_asset asset_type None uuid4 s
        = Py.Return uuid4
            ({| assets := <[uuid4 := r]> (assets s.1); nodes := nodes s.1 |},
             {| asset_objs := <[r := cls uuid4]> (asset_objs s.2);
                node_objs := node_objs s.2 |}))) ∧
  (∀ asset a, asset_objs s.2 !! asset = Some a →
     let asset_name := BaseNodeItem.name (BaseAsset.item a) in
     ((∃ e s', add_existing_asset asset s = Py.Raise e s')
        ↔ is_Some (assets s.1 !! asset_name)) ∧
     (is_Some (assets s.1 !! asset_name) →
        add_existing_asset asset s
        = Py.Raise (Py.ValueError (Py.AlreadyExists asset_name)) s) ∧
     (assets s.1 !! asset_name = None →
        add_existing_asset asset s
        = Py.Return asset_name
            ({| assets := <[asset_name := asset]> (assets s.1); nodes := nodes s.1 |},
             s.2))).
Proof.
  destruct s as [self h]. split.
  - intros asset_type name uuid4. unfold add_asset.
    destruct (str_to_class_dict !! asset_type) as [cls|] eqn:Hcls.
    + split; [|split].
      * split; [|done]. intros (e & s' & H). revert H. run. discriminate.
      * done.
      * intros cls' [= <-]. run. split; [|split].
        -- apply not_elem_of_dom, is_fresh.
        -- by eapply registered_class.
        -- done.
    + split; [|split]; [|done|done].
      split; [done|]. intros _. by eexists _, _.
  - intros asset a Ha asset_name. unfold add_existing_asset.
    cbn in *. run. rewrite Ha. run. fold asset_name.
    case_bool_decide as Hin.
    + split; [|split].
      * split; [done|]. intros _. by eexists _, _.
      * done.
      * intros Hn. rewrite Hn in Hin. by destruct Hin.
    + split; [|split].
      * split; [|done]. intros (e & s' & H). discriminate.
      * done.
      * done.
Qed.

Lemma add_asset_add_existing_asset_spec_witness :
  add_asset "Pump" None 7 (Network.init, {| asset_objs := ∅; node_objs := ∅ |})
  = Py.Raise (Py.ValueError (Py.NotRecognized "Pump"))
      (Network.init, {| asset_objs := ∅; node_objs := ∅ |}) ∧
  add_asset "Pipe" None 7 (Network.init, {| asset_objs := ∅; node_objs := ∅ |})
  = Py.Return 7%N
      ({| assets := <[7%N := 1%positive]> ∅; nodes := ∅ |},
       {| asset_objs := <[1%positive := BaseAsset.init 7 6 2 ClsSolverPipe]> ∅;
          node_objs := ∅ |}) ∧
  add_existing_asset 1%positive (Example.net0, Example.h0)
  = Py.Raise (Py.ValueError (Py.AlreadyExists 1)) (Example.net0, Example.h0) ∧
  add_existing_asset 3%positive (Network.init, Example.h0)
  = Py.Return 3%N ({| assets := <[3%N := 3%positive]> ∅; nodes := ∅ |}, Example.h0).
Proof.
  split; [|split; [|split]].
  - destruct (add_asset_add_existing_asset_spec
                (Network.init, {| asset_objs := ∅; node_objs := ∅ |})) as [H _].
    destruct (H "Pump" None 7%N) as (_ & Hraise & _).
    exact (Hraise ltac:(vm_compute; reflexivity)).
  - destruct (add_asset_add_existing_asset_spec
                (Network.init, {| asset_objs := ∅; node_objs := ∅ |})) as [H _].
    destruct (H "Pipe" None 7%N) as (_ & _ & Hnew).
    destruct (Hnew (two_point_asset ClsSolverPipe)
                ltac:(vm_compute; reflexivity)) as (_ & _ & ->).
    vm_compute; reflexivity.
  - destruct (add_asset_add_existing_asset_spec (Example.net0, Example.h0)) as [_ H].
    destruct (H 1%positive Example.pipe ltac:(vm_compute; reflexivity)) as (_ & Hdup & _).
    exact (Hdup ltac:(vm_compute; eauto)).
  - destruct (add_asset_add_existing_asset_spec (Network.init, Example.h0)) as [_ H].
    destruct (H 3%positive Example.pipe2 ltac:(vm_compute; reflexivity)) as (_ & _ & Hnew).
    exact (Hnew ltac:(vm_compute; reflexivity)).
Defined.

(** A comprehension whose body returns, unchanged state, on every element. *)
Lemma mapM_run {A B} (f : A → M B) (g : A → B) (l : list A) s :
  (∀ x, x ∈ l → f x s = Py.Return (g x) s) →
  mapM f l s = Py.Return (g <$> l) s.
Proof.
  induction l as [|x l IH]; intros Hf; [done|].
  cbn. erewrite bind_Return by (apply Hf; left).
  erewrite bind_Return by (apply IH; intros; apply Hf; by right).
  done.
Qed.

Lemma forallb_id_fmap {A} (g : A → bool) (l : list A) :
  forallb id (g <$> l) = true ↔ ∀ x, x ∈ l → g x = true.
Proof.
  induction l as [|x l IH]; cbn.
  - split; [|done]. by intros _ ? ?%elem_of_nil.
  - rewrite andb_true_iff, IH. unfold id. split.
    + intros [Hx Hl] y [->|Hy]%elem_of_cons; auto.
    + intros H. split; [apply H; left|intros; apply H; by right].
Qed.

Lemma is_all_connected_spec (a : BaseAsset.t) :
  BaseAsset.is_all_connected a = true ↔
  ∀ cp, 0 ≤ cp < BaseAsset.number_of_connection_point a →
        is_Some (BaseAsset.connected_nodes a !! cp).
Proof.
  unfold BaseAsset.is_all_connected. rewrite forallb_forall. split.
  - intros H cp Hcp. specialize (H cp). unfold BaseAsset.is_connected in H.
    rewrite bool_decide_eq_true in H. apply H, list_elem_of_In, elem_of_seqZ. lia.
  - intros H cp Hcp%list_elem_of_In%elem_of_seqZ. unfold BaseAsset.is_connected.
    apply bool_decide_eq_true, H. lia.
Qed.

Lemma node_is_connected_spec (n : Node.t) :
  Node.is_connected n = true ↔ Node.connected_assets n ≠ [].
Proof.
  unfold Node.is_connected. rewrite bool_decide_eq_true.
  destruct (Node.connected_assets n); cbn; split; try done; lia.
Qed.

Lemma check_connectivity_assets_run self h :
  stored (self, h) →
  ∃ b, check_connectivity_assets (self, h) = Py.Return b (self, h) ∧
       (b = true ↔ ∀ k r a, assets self !! k = Some r → asset_objs h !! r = Some a →
                            BaseAsset.is_all_connected a = true).
Proof.
  intros [Hst _]. cbn in Hst. unfold check_connectivity_assets.
  set (g := λ kv : UUID * loc,
         from_option BaseAsset.is_all_connected false (asset_objs h !! kv.2)).
  eexists. split.
  - erewrite bind_Return by done.
    erewrite bind_Return; [done|]. cbn. apply (mapM_run _ g).
    intros [k r] Hkr%elem_of_map_to_list. destruct (Hst _ _ Hkr) as [a Ha].
    unfold g. run. by rewrite Ha.
  - rewrite forallb_id_fmap. split.
    + intros H k r a Hk Ha. specialize (H (k, r)). unfold g in H. cbn in H.
      rewrite Ha in H. apply H. by apply elem_of_map_to_list.
    + intros H [k r] Hkr%elem_of_map_to_list. unfold g. cbn.
      destruct (Hst _ _ Hkr) as [a Ha]. rewrite Ha. cbn. eauto.
Qed.

Lemma check_connectivity_nodes_run self h :
  stored (self, h) →
  ∃ b, check_connectivity_nodes (self, h) = Py.Return b (self, h) ∧
       (b = true ↔ ∀ k r n, nodes self !! k = Some r → node_objs h !! r = Some n →
                            Node.is_connected n = true).
Proof.
  intros [_ Hst]. cbn in Hst. unfold check_connectivity_nodes.
  set (g := λ kv : UUID * loc,
         from_option Node.is_connected false (node_objs h !! kv.2)).
  eexists. split.
  - erewrite bind_Return by done.
    erewrite bind_Return; [done|]. cbn. apply (mapM_run _ g).
    intros [k r] Hkr%elem_of_map_to_list. destruct (Hst _ _ Hkr) as [a Ha].
    unfold g. run. by rewrite Ha.
  - rewrite forallb_id_fmap. split.
    + intros H k r a Hk Ha. specialize (H (k, r)). unfold g in H. cbn in H.
      rewrite Ha in H. apply H. by apply elem_of_map_to_list.
    + intros H [k r] Hkr%elem_of_map_to_list. unfold g. cbn.
      destruct (Hst _ _ Hkr) as [a Ha]. rewrite Ha. cbn. eauto.
Qed.

(** Claim C5.  [check_connectivity] returns, without changing anything, and
    its result is [True] if and only if every asset of the network reports
    [is_all_connected] and every node of the network reports
    [is_connected].  In particular the result is [False] as soon as some
    asset has a connection point without a node, or some node has no asset
    attached. *)
Theorem check_connectivity_spec (self : Network.t) (h : Heap) :
  stored (self, h) →
  ∃ b : bool,
    check_connectivity (self, h) = Py.Return b (self, h) ∧
    (b = true ↔
       (∀ k r a, assets self !! k = Some r → asset_objs h !! r = Some a →
                 BaseAsset.is_all_connected a = true) ∧
       (∀ k r n, nodes self !! k = Some r → node_objs h !! r = Some n →
                 Node.is_connected n = true)) ∧
    ((∃ k r a cp, assets self !! k = Some r ∧ asset_objs h !! r = Some a ∧
                  0 ≤ cp < BaseAsset.number_of_connection_point a ∧
                  BaseAsset.connected_nodes a !! cp = None) → b = false) ∧
    ((∃ k r n, nodes self !! k = Some r ∧ node_objs h !! r = Some n ∧
               Node.connected_assets n = []) → b = false).
Proof.
  intros Hst.
  destruct (check_connectivity_assets_run _ _ Hst) as (ba & Hba & Hia).
  destruct (check_connectivity_nodes_run _ _ Hst) as (bn & Hbn & Hin).
  exists (ba && bn).
  assert (ba && bn = true ↔
       (∀ k r a, assets self !! k = Some r → asset_objs h !! r = Some a →
                 BaseAsset.is_all_connected a = true) ∧
       (∀ k r n, nodes self !! k = Some r → node_objs h !! r = Some n →
                 Node.is_connected n = true)) as Hiff.
  { by rewrite andb_true_iff, Hia, Hin. }
  split; [|split; [done|split]].
  - unfold check_connectivity. erewrite bind_Return by done.
    destruct ba; [done|]. done.
  - intros (k & r & a & cp & Hk & Ha & Hcp & Hnone).
    apply not_true_is_false. rewrite Hiff. intros [Hall _].
    specialize (Hall _ _ _ Hk Ha). rewrite is_all_connected_spec in Hall.
    destruct (Hall cp Hcp) as [? ?]. congruence.
  - intros (k & r & n & Hk & Hn & Hnil).
    apply not_true_is_false. rewrite Hiff. intros [_ Hall].
    specialize (Hall _ _ _ Hk Hn). by rewrite node_is_connected_spec in Hall.
Qed.

Lemma check_connectivity_spec_witness :
  check_connectivity (Example.net1, Example.h2)
  = Py.Return false (Example.net1, Example.h2).
Proof.
  destruct (check_connectivity_spec Example.net1 Example.h2
              ltac:(apply (bool_decide_unpack _); vm_compute; exact I))
    as (b & Hrun & _ & Hpartial & _).
  rewrite Hrun. f_equal. apply Hpartial.
  exists 1%N, 1%positive, (BaseAsset.connect_node 0 1%positive Example.pipe), 1.
  repeat split; vm_compute; congruence.
Defined.

Lemma get_asset_run k r self h :
  assets self !! k = Some r → get_asset k (self, h) = Py.Return r (self, h).
Proof.
  intros Hk. unfold get_asset. erewrite bind_Return by apply exists_asset_run.
  rewrite Hk, bool_decide_eq_true_2 by done. cbn. by apply assets_item_run.
Qed.

Lemma exists_node_run k self h :
  exists_node k (self, h)
  = Py.Return (bool_decide (is_Some (nodes self !! k))) (self, h).
Proof. done. Qed.

Lemma get_node_run k r self h :
  nodes self !! k = Some r → get_node k (self, h) = Py.Return r (self, h).
Proof.
  intros Hk. unfold get_node. erewrite bind_Return by apply exists_node_run.
  rewrite Hk, bool_decide_eq_true_2 by done. cbn. by apply nodes_item_run.
Qed.

Lemma asset_at_run r a self h :
  asset_objs h !! r = Some a → asset_at r (self, h) = Py.Return a (self, h).
Proof. unfold asset_at. cbn. by intros ->. Qed.

Lemma alter_ext_at `{Countable K} {A} (f g : A → A) (m : gmap K A) i x :
  m !! i = Some x → f x = g x → alter f i m = alter g i m.
Proof.
  intros Hi Hfg. apply map_eq. intros j. rewrite !lookup_alter.
  case_decide; [|done]. rewrite Hi. cbn. by rewrite Hfg.
Qed.

Lemma scattered_item_idemp sol i :
  scattered_item sol (scattered_item sol i) = scattered_item sol i.
Proof. done. Qed.

Lemma scattered_asset_idemp sol a :
  scattered_asset sol (scattered_asset sol a) = scattered_asset sol a.
Proof. done. Qed.

Lemma scattered_node_idemp sol n :
  scattered_node sol (scattered_node sol n) = scattered_node sol n.
Proof. done. Qed.

Lemma scatter_refs_nil {X} (f : X → X) refs objs : scatter_refs f refs [] objs objs.
Proof.
  intros r. case_decide as H; [|done]. by apply Exists_nil in H.
Qed.

Lemma scatter_refs_cons {X} (f : X → X) refs k r ks objs objs' :
  (∀ x, f (f x) = f x) →
  refs !! k = Some r →
  scatter_refs f refs ks (alter f r objs) objs' →
  scatter_refs f refs (k :: ks) objs objs'.
Proof.
  intros Hidem Hk Hs r'. rewrite (Hs r'), lookup_alter.
  destruct (decide (r = r')) as [<-|Hne].
  - rewrite (decide_True (P := Exists _ (k :: ks))) by (by left).
    case_decide; [|done]. destruct (objs !! r); cbn; by rewrite ?Hidem.
  - case_decide as Hex.
    + rewrite decide_True; [done|]. by right.
    + rewrite decide_False; [done|].
      intros [?|?]%Exists_cons; [congruence|done].
Qed.

Lemma set_result_asset_loop sol self ks h :
  (∀ k, k ∈ ks → ∃ r, assets self !! k = Some r ∧ is_Some (asset_objs h !! r)) →
  ∃ objs',
    for_each ks (set_result_asset_body sol) (self, h)
    = Py.Return () (self, {| asset_objs := objs'; node_objs := node_objs h |}) ∧
    scatter_refs (scattered_asset sol) (assets self) ks (asset_objs h) objs'.
Proof.
  revert h. induction ks as [|k ks IH]; intros h Hks.
  - exists (asset_objs h). split; [by destruct h|]. apply scatter_refs_nil.
  - destruct (Hks k) as (r & Hk & [o Ho]); [by left|].
    destruct (IH {| asset_objs := alter (scattered_asset sol) r (asset_objs h);
                    node_objs := node_objs h |}) as (objs' & Hrun & Hs).
    { intros k' Hk'. destruct (Hks k') as (r' & Hr' & Ho'); [by right|].
      exists r'. split; [done|]. cbn. rewrite lookup_alter.
      case_decide; subst; [|done]. by apply fmap_is_Some. }
    exists objs'. split.
    + cbn [for_each].
      erewrite bind_Return; [exact Hrun|]. unfold set_result_asset_body.
      erewrite bind_Return by (by apply get_asset_run).
      erewrite bind_Return by (by apply asset_at_run).
      erewrite bind_Return by (by apply get_asset_run).
      erewrite bind_Return by (by apply asset_at_run).
      erewrite bind_Return by (by apply get_asset_run).
      rewrite update_asset_run by done. do 3 f_equal.
      by apply (alter_ext_at _ _ _ _ o).
    + eapply scatter_refs_cons; eauto using scattered_asset_idemp.
Qed.

Lemma set_result_node_loop sol self ks h :
  (∀ k, k ∈ ks → ∃ r, nodes self !! k = Some r ∧ is_Some (node_objs h !! r)) →
  ∃ objs',
    for_each ks (set_result_node_body sol) (self, h)
    = Py.Return () (self, {| asset_objs := asset_objs h; node_objs := objs' |}) ∧
    scatter_refs (scattered_node sol) (nodes self) ks (node_objs h) objs'.
Proof.
  revert h. induction ks as [|k ks IH]; intros h Hks.
  - exists (node_objs h). split; [by destruct h|]. apply scatter_refs_nil.
  - destruct (Hks k) as (r & Hk & [o Ho]); [by left|].
    destruct (IH {| asset_objs := asset_objs h;
                    node_objs := alter (scattered_node sol) r (node_objs h) |})
      as (objs' & Hrun & Hs).
    { intros k' Hk'. destruct (Hks k') as (r' & Hr' & Ho'); [by right|].
      exists r'. split; [done|]. cbn. rewrite lookup_alter.
      case_decide; subst; [|done]. by apply fmap_is_Some. }
    exists objs'. split.
    + cbn [for_each].
      erewrite bind_Return; [exact Hrun|]. unfold set_result_node_body.
      erewrite bind_Return by (by apply get_node_run).
      erewrite bind_Return by (by apply node_at_run).
      erewrite bind_Return by (by apply get_node_run).
      erewrite bind_Return by (by apply node_at_run).
      erewrite bind_Return by (by apply get_node_run).
      rewrite update_node_run by done. do 3 f_equal.
      by apply (alter_ext_at _ _ _ _ o).
    + eapply scatter_refs_cons; eauto using scattered_node_idemp.
Qed.

Lemma Exists_keys (refs : gmap UUID loc) (r : loc) :
  Exists (λ k, refs !! k = Some r) (map_to_list refs).*1 ↔ ∃ k, refs !! k = Some r.
Proof.
  rewrite Exists_exists. split.
  - intros (k & _ & Hk). eauto.
  - intros (k & Hk). exists k. split; [|done].
    apply list_elem_of_fmap. exists (k, r). split; [done|]. by apply elem_of_map_to_list.
Qed.

(** Claim C6.  After the scatter ([set_result_asset] followed by
    [set_result_node]) every asset and every node of the network holds in
    [prev_sol] the slice [solution[matrix_index : matrix_index +
    number_of_unknowns]] taken at its own [matrix_index]; none of its other
    fields has changed; the objects of the store that are not in the
    network are untouched, and so are the network's dictionaries. *)
Theorem scatter_solution_spec (solution : list float) (self : Network.t) (h : Heap) :
  stored (self, h) →
  ∃ h',
    scatter_solution solution (self, h) = Py.Return () (self, h') ∧
    (∀ k r a, assets self !! k = Some r → asset_objs h !! r = Some a →
       ∃ a', asset_objs h' !! r = Some a' ∧
             BaseNodeItem.prev_sol (BaseAsset.item a')
             = Py.slice solution (BaseNodeItem.matrix_index (BaseAsset.item a))
                 (BaseNodeItem.matrix_index (BaseAsset.item a)
                  + BaseNodeItem.number_of_unknowns (BaseAsset.item a)) ∧
             same_asset_but_prev_sol a a') ∧
    (∀ k r n, nodes self !! k = Some r → node_objs h !! r = Some n →
       ∃ n', node_objs h' !! r = Some n' ∧
             BaseNodeItem.prev_sol (Node.item n')
             = Py.slice solution (BaseNodeItem.matrix_index (Node.item n))
                 (BaseNodeItem.matrix_index (Node.item n)
                  + BaseNodeItem.number_of_unknowns (Node.item n)) ∧
             same_node_but_prev_sol n n') ∧
    (∀ r, (∀ k, assets self !! k ≠ Some r) → asset_objs h' !! r = asset_objs h !! r) ∧
    (∀ r, (∀ k, nodes self !! k ≠ Some r) → node_objs h' !! r = node_objs h !! r).
Proof.
  intros [Hsa Hsn]. cbn in Hsa, Hsn.
  destruct (set_result_asset_loop solution self (map_to_list (assets self)).*1 h)
    as (A' & HrunA & HA).
  { intros k ((k' & r) & -> & Hk%elem_of_map_to_list)%list_elem_of_fmap. eauto. }
  destruct (set_result_node_loop solution self (map_to_list (nodes self)).*1
              {| asset_objs := A'; node_objs := node_objs h |})
    as (N' & HrunN & HN).
  { intros k ((k' & r) & -> & Hk%elem_of_map_to_list)%list_elem_of_fmap. eauto. }
  cbn in HrunN, HN.
  exists {| asset_objs := A'; node_objs := N' |}. split; [|split; [|split; [|split]]].
  - unfold scatter_solution, set_result_asset, set_result_node.
    erewrite bind_Return; [|erewrite bind_Return by done; exact HrunA].
    erewrite bind_Return by done. exact HrunN.
  - intros k r a Hk Ha. exists (scattered_asset solution a). split; [|done].
    cbn. rewrite (HA r), decide_True, Ha; [done|]. apply Exists_keys. eauto.
  - intros k r n Hk Hn. exists (scattered_node solution n). split; [|done].
    cbn. rewrite (HN r), decide_True, Hn; [done|]. apply Exists_keys. eauto.
  - intros r Hr. cbn. rewrite (HA r), decide_False; [done|].
    intros (k & Hk)%Exists_keys. by eapply Hr.
  - intros r Hr. cbn. rewrite (HN r), decide_False; [done|].
    intros (k & Hk)%Exists_keys. by eapply Hr.
Qed.

Lemma scatter_solution_spec_witness :
  ∃ h',
    scatter_solution [1.0; 2.0; 3.0; 4.0]%float (Example.net1, Example.h2)
    = Py.Return () (Example.net1, h') ∧
    (∃ a', asset_objs h' !! 2%positive = Some a' ∧
           BaseNodeItem.prev_sol (BaseAsset.item a') = [1.0; 2.0; 3.0]%float) ∧
    (∃ n', node_objs h' !! 1%positive = Some n' ∧
           BaseNodeItem.prev_sol (Node.item n') = [1.0; 2.0; 3.0]%float).
Proof.
  destruct (scatter_solution_spec [1.0; 2.0; 3.0; 4.0]%float Example.net1 Example.h2
              ltac:(apply (bool_decide_unpack _); vm_compute; exact I))
    as (h' & Hrun & Hassets & Hnodes & _).
  exists h'. split; [exact Hrun|]. split.
  - destruct (Hassets 2%N 2%positive
                (BaseAsset.connect_node 0 1%positive Example.boundary)
                ltac:(vm_compute; reflexivity) ltac:(vm_compute; reflexivity))
      as (a' & Ha' & Hsol & _).
    exists a'. split; [exact Ha'|]. rewrite Hsol. vm_compute; reflexivity.
  - destruct (Hnodes 100%N 1%positive (Node.connect_asset 3%positive 1 Example.node1)
                ltac:(vm_compute; reflexivity) ltac:(vm_compute; reflexivity))
      as (n' & Hn' & Hsol & _).
    exists n'. split; [exact Hn'|]. rewrite Hsol. vm_compute; reflexivity.
Defined.

End NetworkSpec.

(** ** The boundary asset *)

Module BaseBoundarySpec.
Import BaseBoundary.

(** Claim C8.  Whenever the two inherited equation methods return,
    [get_equations] returns exactly three equation objects, the first of
    which is the prescribed-pressure equation; and whatever [get_equations]
    returns has that shape.  The prescribed-pressure equation has the single
    index [matrix_index + IndexEnum.pressure], the single coefficient [1.0]
    and [initial_pressure] as right-hand side. *)
Theorem get_equations_spec
    (add_thermal_equations add_press_to_node_equation :
       Heap → BaseBoundary.t → Z → Py.exn + EquationObject)
    (h : Heap) (self : BaseBoundary.t) :
  let get := get_equations add_thermal_equations add_press_to_node_equation h self in
  (∀ e1 e2,
     add_thermal_equations h self 0 = inr e1 →
     add_press_to_node_equation h self 0 = inr e2 →
     get = inr [add_pressure_equation self; e1; e2]) ∧
  (∀ equations, get = inr equations →
     length equations = 3%nat ∧
     ∃ e1 e2, equations = [add_pressure_equation self; e1; e2]) ∧
  indices (add_pressure_equation self)
    = [BaseNodeItem.matrix_index (BaseAsset.item (super self)) + IndexEnum.pressure] ∧
  coefficients (add_pressure_equation self) = [1.0%float] ∧
  rhs (add_pressure_equation self) = initial_pressure self.
Proof.
  cbn zeta. unfold get_equations. split; [|split; [|done]].
  - by intros e1 e2 -> ->.
  - intros equations.
    destruct (add_thermal_equations h self 0); [done|].
    destruct (add_press_to_node_equation h self 0); [done|].
    intros [= <-]. eauto.
Qed.
Lemma get_equations_spec_witness :
  get_equations Example.thermal_row Example.press_to_node_row Example.h0 Example.boundary_obj
  = inr [ {| indices := [1]; coefficients := [1.0%float]; rhs := 10000.0%float |};
          {| indices := [2]; coefficients := [1.0%float]; rhs := 0%float |};
          {| indices := [1; 0]; coefficients := [1.0%float; (-1.0)%float];
             rhs := 0%float |} ].
Proof.
  destruct (get_equations_spec Example.thermal_row Example.press_to_node_row
              Example.h0 Example.boundary_obj) as (Hret & _).
  exact (Hret _ _ eq_refl eq_refl).
Defined.

End BaseBoundarySpec.

(** ** The production cluster *)

Module ProductionClusterSpec.
Import ProductionCluster.

Lemma SFltb_zero_of_leb (x : SpecFloat.spec_float) :
  SpecFloat.SFleb (SpecFloat.S754_zero false) x = true →
  SpecFloat.SFltb x (SpecFloat.S754_zero false) = false.
Proof.
  unfold SpecFloat.SFleb, SpecFloat.SFltb.
  destruct x as [[]|[]| |[] m e]; cbn; done.
Qed.

Lemma not_negative (m : float) : PrimFloat.leb 0 m = true → PrimFloat.ltb m 0 = false.
Proof.
  rewrite leb_spec, ltb_spec. replace (Prim2SF 0) with (SpecFloat.S754_zero false) by done.
  apply SFltb_zero_of_leb.
Qed.

(** Claim C9.  When the mass flow derived from the heat demand is negative,
    [_set_heat_demand] raises a [ValueError] and the two mass-flow columns of
    the pandapipes tables are as before; when it is non-negative, the call
    returns and both the circulation pump's and the control valve's entries
    hold the derived mass flow. *)
Theorem set_heat_demand_spec
    (heat_demand_and_temperature_to_mass_flow : float → float → float → pandapipesNet → float)
    (self : ProductionCluster.t) (heat_demand : float) :
  let mass_flow :=
    heat_demand_and_temperature_to_mass_flow heat_demand
      (temperature_supply self) (temperature_return self) (pandapipes_net self) in
  let call := _set_heat_demand heat_demand_and_temperature_to_mass_flow self heat_demand in
  (PrimFloat.ltb mass_flow 0 = true →
     ∃ self',
       call = Py.Raise (Py.ValueError (Py.NegativeMassFlow mass_flow (asset_name self))) self' ∧
       pandapipes_net self' = pandapipes_net self) ∧
  (PrimFloat.leb 0 mass_flow = true →
     ∃ self',
       call = Py.Return () self' ∧
       circ_pump_mass_mdot_flow_kg_per_s (pandapipes_net self') !! circ_pump_index self
       = Some mass_flow ∧
       flow_control_controlled_mdot_kg_per_s (pandapipes_net self') !! flow_control_index self
       = Some mass_flow).
Proof.
  cbn zeta. unfold _set_heat_demand. cbn. split.
  - intros ->. eexists. split; [done|]. done.
  - intros Hm%not_negative. rewrite Hm. eexists. split; [done|]. cbn.
    by rewrite !lookup_insert_eq.
Qed.
Lemma set_heat_demand_spec_witness :
  (∃ self',
     _set_heat_demand Example.mass_flow_of Example.cluster (-1000000)%float
     = Py.Raise (Py.ValueError
                   (Py.NegativeMassFlow
                      (Example.mass_flow_of (-1000000) 353 313
                         (pandapipes_net Example.cluster)) "producer")) self' ∧
     pandapipes_net self' = pandapipes_net Example.cluster) ∧
  (∃ self',
     _set_heat_demand Example.mass_flow_of Example.cluster 1000000%float
     = Py.Return () self' ∧
     circ_pump_mass_mdot_flow_kg_per_s (pandapipes_net self') !! 0
     = Some (Example.mass_flow_of 1000000 353 313 (pandapipes_net Example.cluster)) ∧
     flow_control_controlled_mdot_kg_per_s (pandapipes_net self') !! 0
     = Some (Example.mass_flow_of 1000000 353 313 (pandapipes_net Example.cluster))).
Proof.
  split.
  - exact (proj1 (set_heat_demand_spec Example.mass_flow_of Example.cluster
                    (-1000000)%float) ltac:(vm_compute; reflexivity)).
  - exact (proj2 (set_heat_demand_spec Example.mass_flow_of Example.cluster
                    1000000%float) ltac:(vm_compute; reflexivity)).
Defined.

End ProductionClusterSpec.

(** ** The simulation time loop *)

Module NetworkSimulationSpec.
Import NetworkSimulation.

Section run.
Context {HeatNetwork NetworkController ControllerInput : Type}.
Variable controller_run_time_step : NetworkController → Z → NetworkController * ControllerInput.
Variable network_run_time_step : HeatNetwork → Z → ControllerInput → HeatNetwork.
Variable network_store_output : HeatNetwork → HeatNetwork.

Abbreviation while_not_converged := (while_not_converged network_run_time_step).
Abbreviation time_step := (time_step controller_run_time_step network_run_time_step network_store_output).
Abbreviation time_loop := (time_loop controller_run_time_step network_run_time_step network_store_output).
Abbreviation run := (run controller_run_time_step network_run_time_step network_store_output).

(** The loop makes one pass and leaves on the second evaluation of its
    condition. *)
Lemma while_not_converged_once fuel time inp net calls :
  (2 ≤ fuel)%nat →
  while_not_converged fuel true time inp net calls
  = Some (network_run_time_step net time inp, S calls).
Proof. destruct fuel as [|[|fuel]]; [lia|lia|done]. Qed.

Lemma time_step_once fuel self time :
  (2 ≤ fuel)%nat →
  ∃ self', time_step fuel self time = Some self' ∧
           ∃ net, journal self' = journal self ++ [(time, 1%nat, net)].
Proof.
  intros Hfuel. unfold NetworkSimulation.time_step.
  destruct (controller_run_time_step (controller self) time) as [ctrl inp].
  rewrite while_not_converged_once by done. eauto.
Qed.

Lemma time_loop_once fuel times self :
  (2 ≤ fuel)%nat →
  ∃ self', time_loop fuel times self = Some self' ∧
           ∃ entries, journal self' = journal self ++ entries ∧
                      entries.*1.*1 = times ∧
                      Forall (λ e, e.1.2 = 1%nat) entries.
Proof.
  intros Hfuel. revert self. induction times as [|time times IH]; intros self.
  - exists self. split; [done|]. exists []. by rewrite app_nil_r.
  - destruct (time_step_once fuel self time Hfuel) as (self1 & Hstep & net & Hj1).
    destruct (IH self1) as (self' & Hloop & entries & Hj & Htimes & Hone).
    exists self'. split; [cbn; by rewrite Hstep|].
    exists ((time, 1%nat, net) :: entries). split; [|split].
    + by rewrite Hj, Hj1, <- app_assoc.
    + cbn. by rewrite Htimes.
    + by constructor.
Qed.

(** Claim C3, as the code has it.  Given fuel for two evaluations of the
    loop condition, [run] terminates; for every timestep of
    [range(start, stop, timestep)], in order, the [while] loop makes exactly
    one [network.run_time_step] call - the flag [not_converged] is cleared
    before that call and no convergence criterion is evaluated - and [run]
    returns without raising.  The only exception of [run] itself is the
    [ValueError] of [range] for a zero [timestep]. *)
Theorem run_single_pass (fuel : nat) (self : NetworkSimulation.t) (cfg : SimulationConfiguration) :
  (2 ≤ fuel)%nat →
  match Py.range (start cfg) (stop cfg) (timestep cfg) with
  | Some times =>
      ∃ self' entries,
        run fuel self cfg = Some (Py.Return () self') ∧
        journal self' = journal self ++ entries ∧
        entries.*1.*1 = times ∧
        Forall (λ e, e.1.2 = 1%nat) entries
  | None =>
      timestep cfg = 0 ∧
      ∃ self', run fuel self cfg = Some (Py.Raise (Py.ValueError Py.RangeArg3Zero) self')
  end.
Proof.
  intros Hfuel. unfold NetworkSimulation.run.
  destruct (Py.range _ _ _) as [times|] eqn:Hrange.
  - match goal with
    | |- context [NetworkSimulation.time_loop _ _ _ _ _ ?s] =>
        destruct (time_loop_once fuel times s Hfuel)
          as (self' & -> & entries & Hj & Ht & Hone)
    end.
    cbn in Hj. by exists self', entries.
  - split; [|eauto]. unfold Py.range in Hrange.
    destruct (timestep cfg =? 0) eqn:Hz; [lia|done].
Qed.

End run.

Lemma run_single_pass_witness :
  ∃ self' entries,
    Example.sim_run 5 = Some (Py.Return () self') ∧
    journal self' = journal Example.sim ++ entries ∧
    entries.*1.*1 = [0; 1] ∧ Forall (λ e, e.1.2 = 1%nat) entries.
Proof.
  exact (run_single_pass (ControllerInput := unit) (λ c _, (c, ())) (λ n _ _, S n)
           (λ n, n) 5 Example.sim Example.cfg ltac:(lia)).
Defined.

(** Claim C3, as the specification words it, fails: on a network that needs
    three solve steps to converge, with an iteration cap of ten, [run]
    returns normally after one solve step per timestep - neither converged
    nor at the cap, and nothing is raised. *)
Lemma run_does_not_iterate_to_convergence :
  ∃ r, Example.sim_run 5 = Some r ∧
       (∃ s, r = Py.Return () s) ∧
       ¬ repeats_until_converged_or_capped Example.converged_at_3 10 r.
Proof.
  eexists. split; [vm_compute; reflexivity|]. split; [by eexists|].
  intros [Hcap _]. destruct (Hcap 0 1%nat 1%nat) as [?|?]; [|done..].
  cbn. left.
Qed.

End NetworkSimulationSpec.

(** * Further properties *)

(** ** The network: construction, errors and scatter *)

Module NetworkMore.
Import Network NetworkSpec.

Lemma registered_class_points (asset_type : string) (cls : UUID → BaseAsset.t) (u : UUID) :
  str_to_class_dict !! asset_type = Some cls →
  1 ≤ BaseAsset.number_of_connection_point (cls u).
Proof.
  unfold str_to_class_dict. intros H.
  repeat (rewrite lookup_insert in H; case_decide;
          [ injection H as <-; cbn; lia | ]).
  by rewrite lookup_empty in H.
Qed.

(** What a returning [add_asset] did. *)
Lemma add_asset_Return_inv asset_type name uuid4 self h id s' :
  add_asset asset_type name uuid4 (self, h) = Py.Return id s' →
  ∃ cls,
    str_to_class_dict !! asset_type = Some cls ∧
    id = from_option (λ n, n) uuid4 name ∧
    s' = ({| assets := <[id := fresh (dom (asset_objs h))]> (assets self);
             nodes := nodes self |},
          {| asset_objs := <[fresh (dom (asset_objs h)) := cls id]> (asset_objs h);
             node_objs := node_objs h |}).
Proof.
  unfold add_asset. destruct (str_to_class_dict !! asset_type) as [cls|]; [|done].
  run. intros [= <- <-]. exists cls. by destruct name.
Qed.

Lemma get_asset_missing k self h :
  assets self !! k = None →
  get_asset k (self, h) = Py.Raise (Py.ValueError (Py.NotValidAssetId k)) (self, h).
Proof.
  intros Hk. unfold get_asset. erewrite bind_Return by apply exists_asset_run.
  rewrite Hk, bool_decide_eq_false_2; [done|]. by intros [??].
Qed.

(** Property X1.  Round trip of [add_asset] and [get_asset]: the id that a
    returning [add_asset] hands back is a key of the network, [exists_asset]
    holds for it and [get_asset] returns, without raising, an object that is
    new in the store, carries that id as its name and has no connection
    point bound.  Every other key keeps its asset, keys that were absent
    stay invalid for [get_asset], every other object of the store is
    untouched and so are the nodes. *)
Theorem add_asset_then_get_asset
    (asset_type : string) (name : option UUID) (uuid4 : UUID)
    (self : Network.t) (h : Heap) (id : UUID) (self' : Network.t) (h' : Heap) :
  add_asset asset_type name uuid4 (self, h) = Py.Return id (self', h') →
  ∃ r a,
    get_asset id (self', h') = Py.Return r (self', h') ∧
    exists_asset id (self', h') = Py.Return true (self', h') ∧
    asset_objs h !! r = None ∧
    asset_objs h' !! r = Some a ∧
    BaseNodeItem.name (BaseAsset.item a) = id ∧
    BaseAsset.connected_nodes a = ∅ ∧
    (∀ id', id' ≠ id →
       assets self' !! id' = assets self !! id' ∧
       (assets self !! id' = None →
        get_asset id' (self', h')
        = Py.Raise (Py.ValueError (Py.NotValidAssetId id')) (self', h'))) ∧
    (∀ r', r' ≠ r → asset_objs h' !! r' = asset_objs h !! r') ∧
    nodes self' = nodes self ∧ node_objs h' = node_objs h.
Proof.
  intros (cls & Hcls & Hid & [= -> ->])%add_asset_Return_inv.
  destruct (registered_class _ _ id Hcls) as [Hname Hconn].
  eexists _, _. split; [|split; [|split; [|split; [|split; [|split; [|split; [|split]]]]]]].
  - apply get_asset_run. cbn. apply lookup_insert_eq.
  - rewrite exists_asset_run. cbn. rewrite lookup_insert_eq.
    by rewrite bool_decide_eq_true_2.
  - apply not_elem_of_dom, is_fresh.
  - cbn. apply lookup_insert_eq.
  - done.
  - done.
  - intros id' Hne. cbn. rewrite lookup_insert_ne by done. split; [done|].
    intros Hnone. apply get_asset_missing. cbn. by rewrite lookup_insert_ne.
  - intros r' Hne. cbn. by rewrite lookup_insert_ne.
  - done.
Qed.

Lemma add_asset_then_get_asset_witness :
  ∃ r, get_asset 7 (ExampleMore.net_pipe, ExampleMore.h_pipe)
       = Py.Return r (ExampleMore.net_pipe, ExampleMore.h_pipe) ∧
       asset_objs ExampleMore.h_empty !! r = None.
Proof.
  destruct (add_asset_then_get_asset "Pipe" None 7 Network.init ExampleMore.h_empty
              7 ExampleMore.net_pipe ExampleMore.h_pipe
              ltac:(vm_compute; reflexivity)) as (r & a & Hget & _ & Hnew & _).
  by exists r.
Defined.

(** Property X2.  [add_asset] does not check whether the name it is given is
    in use: called with the name of a registered asset it returns normally
    and rebinds the name to a new object, the old object staying in the
    store without a key.  [add_existing_asset] with that very asset raises
    [ValueError] ("already exists") and changes nothing. *)
Theorem add_asset_replaces_silently
    (asset_type : string) (cls : UUID → BaseAsset.t) (name uuid4 : UUID)
    (self : Network.t) (h : Heap) (old : loc) (o : BaseAsset.t) :
  str_to_class_dict !! asset_type = Some cls →
  assets self !! name = Some old → asset_objs h !! old = Some o →
  BaseNodeItem.name (BaseAsset.item o) = name →
  ∃ self' h' new,
    add_asset asset_type (Some name) uuid4 (self, h) = Py.Return name (self', h') ∧
    new ≠ old ∧
    assets self' !! name = Some new ∧
    asset_objs h' !! new = Some (cls name) ∧
    asset_objs h' !! old = Some o ∧
    dom (assets self') = dom (assets self) ∧
    add_existing_asset old (self, h)
    = Py.Raise (Py.ValueError (Py.AlreadyExists name)) (self, h).
Proof.
  intros Hcls Hold Ho Hname.
  pose proof (is_fresh (dom (asset_objs h))) as Hfresh.
  assert (fresh (dom (asset_objs h)) ≠ old) as Hne.
  { intros Heq. apply Hfresh. rewrite Heq. by apply elem_of_dom. }
  eexists _, _, (fresh (dom (asset_objs h))). split; [|split; [done|split; [|split; [|split; [|split]]]]].
  - unfold add_asset. rewrite Hcls. by run.
  - cbn. apply lookup_insert_eq.
  - cbn. apply lookup_insert_eq.
  - cbn. by rewrite lookup_insert_ne.
  - cbn. by apply dom_insert_lookup_L.
  - unfold add_existing_asset. run. rewrite Ho. cbn. rewrite Hname, Hold.
    by rewrite bool_decide_eq_true_2.
Qed.

Lemma add_asset_replaces_silently_witness :
  ∃ self' h' new,
    add_asset "Pipe" (Some 1%N) 9 (Example.net0, Example.h0)
    = Py.Return 1%N (self', h') ∧
    new ≠ 1%positive ∧
    assets self' !! 1%N = Some new ∧
    add_existing_asset 1%positive (Example.net0, Example.h0)
    = Py.Raise (Py.ValueError (Py.AlreadyExists 1)) (Example.net0, Example.h0).
Proof.
  destruct (add_asset_replaces_silently "Pipe" (two_point_asset ClsSolverPipe) 1 9
              Example.net0 Example.h0 1%positive Example.pipe
              ltac:(vm_compute; reflexivity) ltac:(vm_compute; reflexivity)
              ltac:(vm_compute; reflexivity) ltac:(vm_compute; reflexivity))
    as (self' & h' & new & Hadd & Hne & Hnew & _ & _ & _ & Hexisting).
  by exists self', h', new.
Defined.


Lemma connect_assets_no_asset1 self h asset1 cp1 asset2 cp2 uuid4 :
  assets self !! asset1 = None →
  connect_assets asset1 cp1 asset2 cp2 uuid4 (self, h)
  = Py.Raise (Py.ValueError (Py.DoesNotExist asset1)) (self, h).
Proof.
  intros Hr1. unfold connect_assets.
  erewrite bind_Return by apply exists_asset_run.
  rewrite Hr1, bool_decide_eq_false_2; [done|]. by intros [??].
Qed.

Lemma connect_assets_no_asset2 self h asset1 cp1 asset2 cp2 uuid4 r1 :
  assets self !! asset1 = Some r1 → assets self !! asset2 = None →
  connect_assets asset1 cp1 asset2 cp2 uuid4 (self, h)
  = Py.Raise (Py.ValueError (Py.DoesNotExist asset2)) (self, h).
Proof.
  intros Hr1 Hr2. unfold connect_assets.
  erewrite bind_Return by apply exists_asset_run.
  rewrite Hr1, bool_decide_eq_true_2 by done. cbn [negb].
  erewrite bind_Return by apply exists_asset_run.
  rewrite Hr2, bool_decide_eq_false_2; [done|]. by intros [??].
Qed.

Lemma connect_assets_dangling_asset1 self h asset1 cp1 asset2 cp2 uuid4 r1 r2 :
  assets self !! asset1 = Some r1 → assets self !! asset2 = Some r2 →
  asset_objs h !! r1 = None →
  connect_assets asset1 cp1 asset2 cp2 uuid4 (self, h)
  = Py.Raise Py.DanglingReference (self, h).
Proof.
  intros Hr1 Hr2 Ho1. unfold connect_assets.
  erewrite bind_Return by apply exists_asset_run.
  rewrite Hr1, bool_decide_eq_true_2 by done. cbn [negb].
  erewrite bind_Return by apply exists_asset_run.
  rewrite Hr2, bool_decide_eq_true_2 by done. cbn [negb].
  unfold asset_is_connected. run. rewrite Hr1. cbn. by rewrite Ho1.
Qed.

Lemma connect_assets_dangling_asset2 self h asset1 cp1 asset2 cp2 uuid4 r1 r2 o1 :
  assets self !! asset1 = Some r1 → assets self !! asset2 = Some r2 →
  asset_objs h !! r1 = Some o1 → asset_objs h !! r2 = None →
  connect_assets asset1 cp1 asset2 cp2 uuid4 (self, h)
  = Py.Raise Py.DanglingReference (self, h).
Proof.
  intros Hr1 Hr2 Ho1 Ho2. unfold connect_assets.
  erewrite bind_Return by apply exists_asset_run.
  rewrite Hr1, bool_decide_eq_true_2 by done. cbn [negb].
  erewrite bind_Return by apply exists_asset_run.
  rewrite Hr2, bool_decide_eq_true_2 by done. cbn [negb].
  erewrite bind_Return by (by eapply asset_is_connected_run).
  unfold asset_is_connected. run. rewrite Hr2. cbn. by rewrite Ho2.
Qed.

(** A bound point whose node is not in the store: the call stops at the
    node, after the other asset was updated. *)
Lemma connect_assets_dangling_node1 self h asset1 cp1 asset2 cp2 uuid4 r1 r2 o1 o2 n :
  assets self !! asset1 = Some r1 → assets self !! asset2 = Some r2 →
  asset_objs h !! r1 = Some o1 → asset_objs h !! r2 = Some o2 →
  BaseAsset.connected_nodes o1 !! cp1 = Some n → node_objs h !! n = None →
  BaseAsset.is_connected o2 cp2 = false →
  ∃ s', connect_assets asset1 cp1 asset2 cp2 uuid4 (self, h)
        = Py.Raise Py.DanglingReference s'.
Proof.
  intros Hr1 Hr2 Ho1 Ho2 Hn Hnd Hc2. unfold connect_assets.
  erewrite bind_Return by apply exists_asset_run.
  rewrite Hr1, bool_decide_eq_true_2 by done. cbn [negb].
  erewrite bind_Return by apply exists_asset_run.
  rewrite Hr2, bool_decide_eq_true_2 by done. cbn [negb].
  erewrite bind_Return by (by eapply asset_is_connected_run).
  erewrite bind_Return by (by eapply asset_is_connected_run).
  rewrite (is_connected_bound _ _ _ Hn), Hc2. cbn [negb andb].
  erewrite bind_Return by (by eapply asset_get_connected_node_run).
  erewrite bind_Return by (by apply assets_item_run).
  erewrite bind_Return by (by eapply update_asset_run).
  erewrite bind_Return by (by apply assets_item_run).
  erewrite bind_Raise by (by apply update_node_dangling). eauto.
Qed.

Lemma connect_assets_dangling_node2 self h asset1 cp1 asset2 cp2 uuid4 r1 r2 o1 o2 n :
  assets self !! asset1 = Some r1 → assets self !! asset2 = Some r2 →
  asset_objs h !! r1 = Some o1 → asset_objs h !! r2 = Some o2 →
  BaseAsset.is_connected o1 cp1 = false →
  BaseAsset.connected_nodes o2 !! cp2 = Some n → node_objs h !! n = None →
  ∃ s', connect_assets asset1 cp1 asset2 cp2 uuid4 (self, h)
        = Py.Raise Py.DanglingReference s'.
Proof.
  intros Hr1 Hr2 Ho1 Ho2 Hc1 Hn Hnd. unfold connect_assets.
  erewrite bind_Return by apply exists_asset_run.
  rewrite Hr1, bool_decide_eq_true_2 by done. cbn [negb].
  erewrite bind_Return by apply exists_asset_run.
  rewrite Hr2, bool_decide_eq_true_2 by done. cbn [negb].
  erewrite bind_Return by (by eapply asset_is_connected_run).
  erewrite bind_Return by (by eapply asset_is_connected_run).
  rewrite (is_connected_bound _ _ _ Hn), Hc1. cbn [negb andb].
  erewrite bind_Return by (by eapply asset_get_connected_node_run).
  erewrite bind_Return by (by apply assets_item_run).
  erewrite bind_Return by (by eapply update_asset_run).
  erewrite bind_Return by (by apply assets_item_run).
  erewrite bind_Raise by (by apply update_node_dangling). eauto.
Qed.

(** Property X3.  [connect_assets] checks its two asset ids in order: an
    unknown first id raises [ValueError] naming the first id (whatever the
    second is), a known first id with an unknown second one raises
    [ValueError] naming the second; in both cases the network and the store
    are as before. *)
Theorem connect_assets_missing_asset
    (self : Network.t) (h : Heap) (asset1 asset2 uuid4 : UUID) (cp1 cp2 : Z) :
  (assets self !! asset1 = None →
   connect_assets asset1 cp1 asset2 cp2 uuid4 (self, h)
   = Py.Raise (Py.ValueError (Py.DoesNotExist asset1)) (self, h)) ∧
  (is_Some (assets self !! asset1) → assets self !! asset2 = None →
   connect_assets asset1 cp1 asset2 cp2 uuid4 (self, h)
   = Py.Raise (Py.ValueError (Py.DoesNotExist asset2)) (self, h)).
Proof.
  split.
  - apply connect_assets_no_asset1.
  - intros [r1 Hr1]. by eapply connect_assets_no_asset2.
Qed.

Lemma connect_assets_missing_asset_witness :
  connect_assets 8 0 9 0 100 (Example.net0, Example.h0)
  = Py.Raise (Py.ValueError (Py.DoesNotExist 8)) (Example.net0, Example.h0) ∧
  connect_assets 1 0 9 0 100 (Example.net0, Example.h0)
  = Py.Raise (Py.ValueError (Py.DoesNotExist 9)) (Example.net0, Example.h0).
Proof.
  split.
  - exact (proj1 (connect_assets_missing_asset Example.net0 Example.h0 8 9 100 0 0)
             ltac:(vm_compute; reflexivity)).
  - exact (proj2 (connect_assets_missing_asset Example.net0 Example.h0 1 9 100 0 0)
             ltac:(vm_compute; eauto) ltac:(vm_compute; reflexivity)).
Defined.

(** Property X4.  Whenever [connect_assets] raises one of its own exceptions,
    the network and the store are exactly as before the call, and the
    exception is one of three: [ValueError] for the first id, [ValueError]
    for the second id, or [NotImplementedError] with the message of the
    final [else] ("already connected to a node").  The message of the fourth
    branch ("already connected to assets") is never produced. *)
Theorem connect_assets_raises_unchanged
    (self : Network.t) (h : Heap) (asset1 asset2 uuid4 : UUID) (cp1 cp2 : Z)
    (e : Py.exn) (s' : Network.t * Heap) :
  connect_assets asset1 cp1 asset2 cp2 uuid4 (self, h) = Py.Raise e s' →
  e ≠ Py.DanglingReference →
  s' = (self, h) ∧
  (e = Py.ValueError (Py.DoesNotExist asset1) ∨
   e = Py.ValueError (Py.DoesNotExist asset2) ∨
   e = Py.NotImplementedError Py.AlreadyConnectedToNode).
Proof.
  intros Hcall Hne.
  destruct (assets self !! asset1) as [r1|] eqn:Hr1; cycle 1.
  { rewrite connect_assets_no_asset1 in Hcall by done. injection Hcall as <- <-. auto. }
  destruct (assets self !! asset2) as [r2|] eqn:Hr2; cycle 1.
  { erewrite connect_assets_no_asset2 in Hcall by done. injection Hcall as <- <-. auto. }
  destruct (asset_objs h !! r1) as [o1|] eqn:Ho1; cycle 1.
  { erewrite connect_assets_dangling_asset1 in Hcall by done. congruence. }
  destruct (asset_objs h !! r2) as [o2|] eqn:Ho2; cycle 1.
  { erewrite connect_assets_dangling_asset2 in Hcall by done. congruence. }
  destruct (BaseAsset.is_connected o1 cp1) eqn:Hc1,
           (BaseAsset.is_connected o2 cp2) eqn:Hc2.
  - rewrite (connect_assets_both _ _ _ _ _ _ _ _ _ _ _ Hr1 Hr2 Ho1 Ho2 Hc1 Hc2) in Hcall.
    injection Hcall as <- <-. auto.
  - destruct (BaseAsset.connected_nodes o1 !! cp1) as [n|] eqn:Hn; cycle 1.
    { apply is_connected_unbound in Hn. congruence. }
    destruct (node_objs h !! n) as [nd|] eqn:Hnd.
    + by rewrite (connect_assets_first _ _ _ _ _ _ _ _ _ _ _ Hr1 Hr2 Ho1 Ho2 _ _ Hn Hnd Hc2)
        in Hcall.
    + destruct (connect_assets_dangling_node1 self h asset1 cp1 asset2 cp2 uuid4
                  r1 r2 o1 o2 n) as [s'' Hd]; try done. congruence.
  - destruct (BaseAsset.connected_nodes o2 !! cp2) as [n|] eqn:Hn; cycle 1.
    { apply is_connected_unbound in Hn. congruence. }
    destruct (node_objs h !! n) as [nd|] eqn:Hnd.
    + by rewrite (connect_assets_second _ _ _ _ _ _ _ _ _ _ _ Hr1 Hr2 Ho1 Ho2 _ _ Hc1 Hn Hnd)
        in Hcall.
    + destruct (connect_assets_dangling_node2 self h asset1 cp1 asset2 cp2 uuid4
                  r1 r2 o1 o2 n) as [s'' Hd]; try done. congruence.
  - by rewrite (connect_assets_neither _ _ _ _ _ _ _ _ _ _ _ Hr1 Hr2 Ho1 Ho2 Hc1 Hc2) in Hcall.
Qed.

Lemma connect_assets_raises_unchanged_witness :
  (Example.net1, Example.h2) = (Example.net1, Example.h2) ∧
  (Py.NotImplementedError Py.AlreadyConnectedToNode = Py.ValueError (Py.DoesNotExist 1) ∨
   Py.NotImplementedError Py.AlreadyConnectedToNode = Py.ValueError (Py.DoesNotExist 3) ∨
   Py.NotImplementedError Py.AlreadyConnectedToNode
   = Py.NotImplementedError Py.AlreadyConnectedToNode).
Proof.
  exact (connect_assets_raises_unchanged Example.net1 Example.h2 1 3 102 0 1
           (Py.NotImplementedError Py.AlreadyConnectedToNode) (Example.net1, Example.h2)
           ltac:(vm_compute; reflexivity) ltac:(discriminate)).
Defined.

(** After a returning call both given points are bound. *)
Lemma connect_assets_Return_bound self h asset1 cp1 asset2 cp2 uuid4 id self' h' :
  connect_assets asset1 cp1 asset2 cp2 uuid4 (self, h) = Py.Return id (self', h') →
  ∃ r1 r2 o1' o2',
    assets self' !! asset1 = Some r1 ∧ assets self' !! asset2 = Some r2 ∧
    asset_objs h' !! r1 = Some o1' ∧ asset_objs h' !! r2 = Some o2' ∧
    BaseAsset.is_connected o1' cp1 = true ∧ BaseAsset.is_connected o2' cp2 = true.
Proof.
  intros Hcall.
  destruct (connect_assets_Return_inv _ _ _ _ _ _ _ _ _ Hcall)
    as (r1 & r2 & o1 & o2 & Hr1 & Hr2 & Ho1 & Ho2 & Hcase).
  destruct Hcase as [[Hc1 Hc2]|[(n & nd & Hn & Hnd & Hc2)|(n & nd & Hc1 & Hn & Hnd)]].
  - rewrite (connect_assets_neither _ _ _ _ _ _ _ _ _ _ _ Hr1 Hr2 Ho1 Ho2 Hc1 Hc2) in Hcall.
    injection Hcall as <- <- <-.
    set (n := fresh (dom (node_objs h))) in *.
    pose proof (alter_connect_node_lookup _ r1 cp1 n r1 o1 Ho1) as Ho1'.
    pose proof (alter_connect_node_lookup _ r1 cp1 n r2 o2 Ho2) as Ho2'.
    apply (alter_connect_node_lookup _ r2 cp2 n) in Ho1', Ho2'.
    eexists r1, r2, _, _. do 2 (split; [done|]). cbn.
    split; [exact Ho1'|]. split; [exact Ho2'|]. clear Ho1' Ho2'.
    split; apply (is_connected_bound _ _ n);
      repeat case_decide; cbn; rewrite ?lookup_insert; repeat case_decide; done.
  - rewrite (connect_assets_first _ _ _ _ _ _ _ _ _ _ _ Hr1 Hr2 Ho1 Ho2 _ _ Hn Hnd Hc2)
      in Hcall.
    injection Hcall as <- <- <-.
    pose proof (alter_connect_node_lookup _ r2 cp2 n r1 o1 Ho1) as Ho1'.
    pose proof (alter_connect_node_lookup _ r2 cp2 n r2 o2 Ho2) as Ho2'.
    eexists r1, r2, _, _. do 2 (split; [done|]). cbn.
    split; [exact Ho1'|]. split; [exact Ho2'|]. clear Ho1' Ho2'.
    split; apply (is_connected_bound _ _ n);
      repeat case_decide; cbn; rewrite ?lookup_insert; repeat case_decide; done.
  - rewrite (connect_assets_second _ _ _ _ _ _ _ _ _ _ _ Hr1 Hr2 Ho1 Ho2 _ _ Hc1 Hn Hnd)
      in Hcall.
    injection Hcall as <- <- <-.
    pose proof (alter_connect_node_lookup _ r1 cp1 n r1 o1 Ho1) as Ho1'.
    pose proof (alter_connect_node_lookup _ r1 cp1 n r2 o2 Ho2) as Ho2'.
    eexists r1, r2, _, _. do 2 (split; [done|]). cbn.
    split; [exact Ho1'|]. split; [exact Ho2'|]. clear Ho1' Ho2'.
    split; apply (is_connected_bound _ _ n);
      repeat case_decide; cbn; rewrite ?lookup_insert; repeat case_decide; done.
Qed.

(** Property X5.  [connect_assets] is not idempotent: after a call that
    returned, the same call again - and the call with the two ends swapped -
    raises [NotImplementedError] and leaves the network and the store as
    they are, since both points are bound by then. *)
Theorem connect_assets_not_idempotent
    (self : Network.t) (h : Heap) (asset1 asset2 uuid4 uuid4' : UUID) (cp1 cp2 : Z)
    (id : UUID) (self' : Network.t) (h' : Heap) :
  connect_assets asset1 cp1 asset2 cp2 uuid4 (self, h) = Py.Return id (self', h') →
  connect_assets asset1 cp1 asset2 cp2 uuid4' (self', h')
  = Py.Raise (Py.NotImplementedError Py.AlreadyConnectedToNode) (self', h') ∧
  connect_assets asset2 cp2 asset1 cp1 uuid4' (self', h')
  = Py.Raise (Py.NotImplementedError Py.AlreadyConnectedToNode) (self', h').
Proof.
  intros (r1 & r2 & o1' & o2' & Hr1 & Hr2 & Ho1 & Ho2 & Hc1 & Hc2)%connect_assets_Return_bound.
  split; by eapply connect_assets_both.
Qed.

Lemma connect_assets_not_idempotent_witness :
  connect_assets 1 0 2 0 101 (Example.net1, Example.h1)
  = Py.Raise (Py.NotImplementedError Py.AlreadyConnectedToNode)
      (Example.net1, Example.h1) ∧
  connect_assets 2 0 1 0 101 (Example.net1, Example.h1)
  = Py.Raise (Py.NotImplementedError Py.AlreadyConnectedToNode)
      (Example.net1, Example.h1).
Proof.
  exact (connect_assets_not_idempotent Example.net0 Example.h0 1 2 100 101 0 0 100
           Example.net1 Example.h1 ltac:(vm_compute; reflexivity)).
Defined.


(** Property X6.  On a consistently wired store and for two assets of the
    network, [connect_assets] returns exactly when at least one of the two
    connection points is free; otherwise - and only then - it raises, the
    exception is [NotImplementedError] and nothing changes. *)
Theorem connect_assets_succeeds_iff
    (self : Network.t) (h : Heap) (asset1 asset2 uuid4 : UUID) (cp1 cp2 : Z)
    (r1 r2 : loc) (o1 o2 : BaseAsset.t) :
  wired h →
  assets self !! asset1 = Some r1 → assets self !! asset2 = Some r2 →
  asset_objs h !! r1 = Some o1 → asset_objs h !! r2 = Some o2 →
  ((∃ id s', connect_assets asset1 cp1 asset2 cp2 uuid4 (self, h) = Py.Return id s')
   ↔ BaseAsset.is_connected o1 cp1 = false ∨ BaseAsset.is_connected o2 cp2 = false) ∧
  ((∃ e s', connect_assets asset1 cp1 asset2 cp2 uuid4 (self, h) = Py.Raise e s')
   → connect_assets asset1 cp1 asset2 cp2 uuid4 (self, h)
     = Py.Raise (Py.NotImplementedError Py.AlreadyConnectedToNode) (self, h)).
Proof.
  intros [Hfw _] Hr1 Hr2 Ho1 Ho2.
  destruct (BaseAsset.is_connected o1 cp1) eqn:Hc1,
           (BaseAsset.is_connected o2 cp2) eqn:Hc2.
  - rewrite (connect_assets_both _ _ _ _ _ _ _ _ _ _ _ Hr1 Hr2 Ho1 Ho2 Hc1 Hc2).
    split; [|done]. split; [by intros (? & ? & ?)|by intros [?|?]].
  - destruct (BaseAsset.connected_nodes o1 !! cp1) as [n|] eqn:Hn; cycle 1.
    { apply is_connected_unbound in Hn. congruence. }
    destruct (Hfw _ _ _ _ Ho1 Hn) as (nd & Hnd & _).
    rewrite (connect_assets_first _ _ _ _ _ _ _ _ _ _ _ Hr1 Hr2 Ho1 Ho2 _ _ Hn Hnd Hc2).
    split; [|by intros (? & ? & ?)]. split; [auto|eauto].
  - destruct (BaseAsset.connected_nodes o2 !! cp2) as [n|] eqn:Hn; cycle 1.
    { apply is_connected_unbound in Hn. congruence. }
    destruct (Hfw _ _ _ _ Ho2 Hn) as (nd & Hnd & _).
    rewrite (connect_assets_second _ _ _ _ _ _ _ _ _ _ _ Hr1 Hr2 Ho1 Ho2 _ _ Hc1 Hn Hnd).
    split; [|by intros (? & ? & ?)]. split; [auto|eauto].
  - rewrite (connect_assets_neither _ _ _ _ _ _ _ _ _ _ _ Hr1 Hr2 Ho1 Ho2 Hc1 Hc2).
    split; [|by intros (? & ? & ?)]. split; [auto|eauto].
Qed.

Lemma connect_assets_succeeds_iff_witness :
  ∃ id s', connect_assets 1 0 2 0 100 (Example.net0, Example.h0) = Py.Return id s'.
Proof.
  assert (wired Example.h0) as Hw0.
  { apply wired_unconnected; [|done].
    apply (bool_decide_unpack _). vm_compute. exact I. }
  destruct (connect_assets_succeeds_iff Example.net0 Example.h0 1 2 100 0 0
              1%positive 2%positive Example.pipe Example.boundary Hw0
              ltac:(vm_compute; reflexivity) ltac:(vm_compute; reflexivity)
              ltac:(vm_compute; reflexivity) ltac:(vm_compute; reflexivity))
    as [[_ Hreturns] _].
  apply Hreturns. left. vm_compute; reflexivity.
Defined.

(** ** The store keeps every object the network refers to *)

Lemma stored_grows self h h' :
  stored (self, h) →
  (∀ r, is_Some (asset_objs h !! r) → is_Some (asset_objs h' !! r)) →
  (∀ r, is_Some (node_objs h !! r) → is_Some (node_objs h' !! r)) →
  stored (self, h').
Proof.
  intros [Ha Hn] Hga Hgn. split; intros k r Hk; cbn in *.
  - apply Hga, (Ha _ _ Hk).
  - apply Hgn, (Hn _ _ Hk).
Qed.

Lemma add_asset_stored asset_type name uuid4 s id s' :
  stored s → add_asset asset_type name uuid4 s = Py.Return id s' → stored s'.
Proof.
  destruct s as [self h]. intros [Ha Hn] (cls & _ & _ & ->)%add_asset_Return_inv.
  cbn in *. split; cbn.
  - apply map_Forall_insert_2; [by rewrite lookup_insert_eq|].
    intros k r Hk. cbn. rewrite lookup_insert. case_decide; [done|]. by eapply Ha.
  - done.
Qed.

Lemma add_existing_asset_stored asset s id s' :
  stored s → add_existing_asset asset s = Py.Return id s' → stored s'.
Proof.
  destruct s as [self h]. intros [Ha Hn]. unfold add_existing_asset. run.
  destruct (asset_objs h !! asset) as [a|] eqn:Hasset; [|done]. cbn.
  case_bool_decide; [done|]. intros [= <- <-]. split; cbn; [|done].
  apply map_Forall_insert_2; [by rewrite Hasset|done].
Qed.

Lemma connect_assets_stored asset1 cp1 asset2 cp2 uuid4 s id s' :
  stored s → connect_assets asset1 cp1 asset2 cp2 uuid4 s = Py.Return id s' → stored s'.
Proof.
  destruct s as [self h]. intros Hst Hcall.
  destruct (connect_assets_Return_inv _ _ _ _ _ _ _ _ _ Hcall)
    as (r1 & r2 & o1 & o2 & Hr1 & Hr2 & Ho1 & Ho2 & Hcase).
  destruct Hcase as [[Hc1 Hc2]|[(n & nd & Hn & Hnd & Hc2)|(n & nd & Hc1 & Hn & Hnd)]].
  - rewrite (connect_assets_neither _ _ _ _ _ _ _ _ _ _ _ Hr1 Hr2 Ho1 Ho2 Hc1 Hc2) in Hcall.
    injection Hcall as <- <-. destruct Hst as [Ha Hn]. cbn in *. split; cbn.
    + intros k r Hk. cbn. rewrite !lookup_alter.
      repeat case_decide; subst; rewrite ?fmap_is_Some; by eapply Ha.
    + apply map_Forall_insert_2; [by rewrite lookup_insert_eq|].
      intros k r Hk. cbn. rewrite lookup_insert. case_decide; [done|]. by eapply Hn.
  - rewrite (connect_assets_first _ _ _ _ _ _ _ _ _ _ _ Hr1 Hr2 Ho1 Ho2 _ _ Hn Hnd Hc2)
      in Hcall.
    injection Hcall as <- <-. eapply stored_grows; [done|..]; cbn; intros r;
      rewrite lookup_alter; case_decide; subst; by rewrite ?fmap_is_Some.
  - rewrite (connect_assets_second _ _ _ _ _ _ _ _ _ _ _ Hr1 Hr2 Ho1 Ho2 _ _ Hc1 Hn Hnd)
      in Hcall.
    injection Hcall as <- <-. eapply stored_grows; [done|..]; cbn; intros r;
      rewrite lookup_alter; case_decide; subst; by rewrite ?fmap_is_Some.
Qed.

(** Property X7.  Every class of [str_to_class_dict] has at least one
    connection point and a new asset has none bound, so immediately after a
    returning [add_asset] the network is not fully connected:
    [check_connectivity] returns [False]. *)
Theorem add_asset_disconnects
    (asset_type : string) (name : option UUID) (uuid4 : UUID)
    (s s' : Network.t * Heap) (id : UUID) :
  stored s →
  add_asset asset_type name uuid4 s = Py.Return id s' →
  check_connectivity s' = Py.Return false s'.
Proof.
  intros Hst Hadd. pose proof (add_asset_stored _ _ _ _ _ _ Hst Hadd) as Hst'.
  destruct s as [self h].
  apply add_asset_Return_inv in Hadd as (cls & Hcls & _ & ->).
  destruct (check_connectivity_assets_run _ _ Hst') as (b & Hrun & Hb).
  unfold check_connectivity. erewrite bind_Return by exact Hrun.
  destruct b; [|done]. exfalso.
  destruct Hb as [Hb _].
  specialize (Hb eq_refl id (fresh (dom (asset_objs h))) (cls id)). cbn in Hb.
  rewrite !lookup_insert_eq in Hb. specialize (Hb eq_refl eq_refl).
  rewrite is_all_connected_spec in Hb.
  destruct (Hb 0) as [n Hn].
  { pose proof (registered_class_points _ _ id Hcls). lia. }
  destruct (registered_class _ _ id Hcls) as [_ Hempty].
  by rewrite Hempty, lookup_empty in Hn.
Qed.

Lemma add_asset_disconnects_witness :
  check_connectivity (ExampleMore.net_pipe, ExampleMore.h_pipe)
  = Py.Return false (ExampleMore.net_pipe, ExampleMore.h_pipe).
Proof.
  exact (add_asset_disconnects "Pipe" None 7 (Network.init, ExampleMore.h_empty)
           (ExampleMore.net_pipe, ExampleMore.h_pipe) 7
           ltac:(apply (bool_decide_unpack _); vm_compute; exact I)
           ltac:(vm_compute; reflexivity)).
Defined.


(** Property X8.  If every node of the network is connected
    ([check_connectivity_nodes] returns [True]), this still holds after a
    returning [add_asset] and after a returning [connect_assets]: a node is
    only ever created together with its first two connections. *)
Theorem construction_keeps_nodes_connected (s s' : Network.t * Heap) (id : UUID) :
  stored s →
  check_connectivity_nodes s = Py.Return true s →
  (∀ asset_type name uuid4,
     add_asset asset_type name uuid4 s = Py.Return id s' →
     check_connectivity_nodes s' = Py.Return true s') ∧
  (∀ asset1 cp1 asset2 cp2 uuid4,
     connect_assets asset1 cp1 asset2 cp2 uuid4 s = Py.Return id s' →
     check_connectivity_nodes s' = Py.Return true s').
Proof.
  destruct s as [self h]. intros Hst Hbefore.
  destruct (check_connectivity_nodes_run _ _ Hst) as (b & Hb & Hall).
  rewrite Hb in Hbefore. injection Hbefore as ->.
  destruct Hall as [Hall _]. specialize (Hall eq_refl). split.
  - intros asset_type name uuid4 Hadd.
    pose proof (add_asset_stored _ _ _ _ _ _ Hst Hadd) as Hst'.
    apply add_asset_Return_inv in Hadd as (cls & _ & _ & ->).
    destruct (check_connectivity_nodes_run _ _ Hst') as (b' & Hb' & Hall').
    rewrite Hb'. f_equal. apply Hall'. exact Hall.
  - intros asset1 cp1 asset2 cp2 uuid4 Hcall.
    pose proof (connect_assets_stored _ _ _ _ _ _ _ _ Hst Hcall) as Hst'.
    destruct s' as [self' h'].
    destruct (check_connectivity_nodes_run _ _ Hst') as (b' & Hb' & Hall').
    rewrite Hb'. f_equal. apply Hall'. clear b' Hb' Hall' Hst'.
    destruct (connect_assets_Return_inv _ _ _ _ _ _ _ _ _ Hcall)
      as (r1 & r2 & o1 & o2 & Hr1 & Hr2 & Ho1 & Ho2 & Hcase).
    destruct Hcase as [[Hc1 Hc2]|[(n & nd & Hn & Hnd & Hc2)|(n & nd & Hc1 & Hn & Hnd)]].
    + rewrite (connect_assets_neither _ _ _ _ _ _ _ _ _ _ _ Hr1 Hr2 Ho1 Ho2 Hc1 Hc2) in Hcall.
      injection Hcall as <- <- <-. cbn. intros k r n.
      rewrite lookup_insert. case_decide; subst.
      * intros [= <-]. rewrite lookup_insert_eq. intros [= <-]. done.
      * intros Hk. rewrite lookup_insert. case_decide; subst.
        -- destruct Hst as [_ Hsn]. destruct (Hsn _ _ Hk) as [? Hin]. cbn in Hin.
           by rewrite new_ref_fresh in Hin.
        -- by eapply Hall.
    + rewrite (connect_assets_first _ _ _ _ _ _ _ _ _ _ _ Hr1 Hr2 Ho1 Ho2 _ _ Hn Hnd Hc2)
        in Hcall.
      injection Hcall as <- <- <-. cbn. intros k r n' Hk.
      rewrite lookup_alter. case_decide; subst; [|by eapply Hall].
      rewrite Hnd. intros [= <-]. apply node_is_connected_spec. cbn.
      by destruct (Node.connected_assets nd).
    + rewrite (connect_assets_second _ _ _ _ _ _ _ _ _ _ _ Hr1 Hr2 Ho1 Ho2 _ _ Hc1 Hn Hnd)
        in Hcall.
      injection Hcall as <- <- <-. cbn. intros k r n' Hk.
      rewrite lookup_alter. case_decide; subst; [|by eapply Hall].
      rewrite Hnd. intros [= <-]. apply node_is_connected_spec. cbn.
      by destruct (Node.connected_assets nd).
Qed.

Lemma construction_keeps_nodes_connected_witness :
  check_connectivity_nodes (Example.net1, Example.h1)
  = Py.Return true (Example.net1, Example.h1).
Proof.
  destruct (construction_keeps_nodes_connected (Example.net0, Example.h0)
              (Example.net1, Example.h1) 100
              ltac:(apply (bool_decide_unpack _); vm_compute; exact I)
              ltac:(vm_compute; reflexivity)) as [_ Hconnect].
  exact (Hconnect 1%N 0 2%N 0 100%N ltac:(vm_compute; reflexivity)).
Defined.

(** ** Scattering a solution *)

Lemma scatter_refs_unique {X} (f : X → X) refs ks objs objs1 objs2 :
  scatter_refs f refs ks objs objs1 → scatter_refs f refs ks objs objs2 → objs1 = objs2.
Proof. intros H1 H2. apply map_eq. intros r. by rewrite (H1 r), (H2 r). Qed.

Lemma scatter_refs_then {X} (f g : X → X) refs ks objs objs1 objs2 :
  (∀ x, g (f x) = g x) →
  scatter_refs f refs ks objs objs1 → scatter_refs g refs ks objs1 objs2 →
  scatter_refs g refs ks objs objs2.
Proof.
  intros Hgf H1 H2 r. rewrite (H2 r), (H1 r). case_decide; [|done].
  destruct (objs !! r); cbn; by rewrite ?Hgf.
Qed.

Lemma scatter_refs_is_Some {X} (f : X → X) refs ks objs objs' r :
  scatter_refs f refs ks objs objs' → is_Some (objs !! r) → is_Some (objs' !! r).
Proof. intros H Hr. rewrite (H r). case_decide; by rewrite ?fmap_is_Some. Qed.

Lemma set_result_asset_run sol self h :
  stored (self, h) →
  ∃ objs',
    set_result_asset sol (self, h)
    = Py.Return () (self, {| asset_objs := objs'; node_objs := node_objs h |}) ∧
    scatter_refs (scattered_asset sol) (assets self) (map_to_list (assets self)).*1
      (asset_objs h) objs'.
Proof.
  intros [Hsa _]. cbn in Hsa.
  destruct (set_result_asset_loop sol self (map_to_list (assets self)).*1 h)
    as (A' & Hrun & HA).
  { intros k ((k' & r) & -> & Hk%elem_of_map_to_list)%list_elem_of_fmap. eauto. }
  exists A'. split; [|done]. unfold set_result_asset. by erewrite bind_Return by done.
Qed.

Lemma set_result_node_run sol self h :
  stored (self, h) →
  ∃ objs',
    set_result_node sol (self, h)
    = Py.Return () (self, {| asset_objs := asset_objs h; node_objs := objs' |}) ∧
    scatter_refs (scattered_node sol) (nodes self) (map_to_list (nodes self)).*1
      (node_objs h) objs'.
Proof.
  intros [_ Hsn]. cbn in Hsn.
  destruct (set_result_node_loop sol self (map_to_list (nodes self)).*1 h)
    as (N' & Hrun & HN).
  { intros k ((k' & r) & -> & Hk%elem_of_map_to_list)%list_elem_of_fmap. eauto. }
  exists N'. split; [|done]. unfold set_result_node. by erewrite bind_Return by done.
Qed.

Lemma scatter_solution_run sol self h :
  stored (self, h) →
  ∃ A' N',
    scatter_solution sol (self, h)
    = Py.Return () (self, {| asset_objs := A'; node_objs := N' |}) ∧
    scatter_refs (scattered_asset sol) (assets self) (map_to_list (assets self)).*1
      (asset_objs h) A' ∧
    scatter_refs (scattered_node sol) (nodes self) (map_to_list (nodes self)).*1
      (node_objs h) N' ∧
    stored (self, {| asset_objs := A'; node_objs := N' |}).
Proof.
  intros Hst.
  destruct (set_result_asset_run sol self h Hst) as (A' & HrunA & HA).
  assert (stored (self, {| asset_objs := A'; node_objs := node_objs h |})) as Hst1.
  { eapply stored_grows; [done|..]; cbn; [|done].
    intros r. by eapply scatter_refs_is_Some. }
  destruct (set_result_node_run sol self _ Hst1) as (N' & HrunN & HN). cbn in *.
  exists A', N'. split; [|split; [done|split; [done|]]].
  - unfold scatter_solution. by erewrite bind_Return by done.
  - eapply stored_grows; [exact Hst1|..]; cbn; [done|].
    intros r. by eapply scatter_refs_is_Some.
Qed.

(** Property X9.  Scattering a solution overwrites the previous one
    completely: the two scatter loops run for [sol1] and then for [sol2]
    leave exactly the state that the two loops run for [sol2] alone
    leave. *)
Theorem scatter_last_write_wins (sol1 sol2 : list float) (self : Network.t) (h : Heap) :
  stored (self, h) →
  (scatter_solution sol1 ≫= λ _, scatter_solution sol2) (self, h)
  = scatter_solution sol2 (self, h).
Proof.
  intros Hst.
  destruct (scatter_solution_run sol1 self h Hst) as (A1 & N1 & Hrun1 & HA1 & HN1 & Hst1).
  destruct (scatter_solution_run sol2 self _ Hst1) as (A2 & N2 & Hrun2 & HA2 & HN2 & _).
  destruct (scatter_solution_run sol2 self h Hst) as (A & N & Hrun & HA & HN & _).
  cbn in *. erewrite bind_Return by exact Hrun1. rewrite Hrun2, Hrun.
  do 3 f_equal.
  - eapply scatter_refs_unique; [|exact HA].
    by eapply (scatter_refs_then (scattered_asset sol1)); [|exact HA1|exact HA2].
  - eapply scatter_refs_unique; [|exact HN].
    by eapply (scatter_refs_then (scattered_node sol1)); [|exact HN1|exact HN2].
Qed.

Lemma scatter_last_write_wins_witness :
  (scatter_solution [9.0; 9.0; 9.0; 9.0]%float ≫= λ _, scatter_solution ExampleMore.solution)
    (Example.net1, Example.h2)
  = scatter_solution ExampleMore.solution (Example.net1, Example.h2).
Proof.
  exact (scatter_last_write_wins [9.0; 9.0; 9.0; 9.0]%float ExampleMore.solution
           Example.net1 Example.h2
           ltac:(apply (bool_decide_unpack _); vm_compute; exact I)).
Defined.

(** Property X10.  [set_result_asset] and [set_result_node] touch disjoint
    parts of the state: run in either order, also with different solution
    vectors, they give the same result. *)
Theorem set_result_asset_node_commute (sol sol' : list float) (self : Network.t) (h : Heap) :
  stored (self, h) →
  (set_result_asset sol ≫= λ _, set_result_node sol') (self, h)
  = (set_result_node sol' ≫= λ _, set_result_asset sol) (self, h).
Proof.
  intros Hst.
  destruct (set_result_asset_run sol self h Hst) as (A1 & HrunA1 & HA1).
  destruct (set_result_node_run sol' self h Hst) as (N2 & HrunN2 & HN2).
  assert (stored (self, {| asset_objs := A1; node_objs := node_objs h |})) as Hst1.
  { eapply stored_grows; [done|..]; cbn; [|done].
    intros r. by eapply scatter_refs_is_Some. }
  assert (stored (self, {| asset_objs := asset_objs h; node_objs := N2 |})) as Hst2.
  { eapply stored_grows; [exact Hst|..]; cbn; [done|].
    intros r. by eapply scatter_refs_is_Some. }
  destruct (set_result_node_run sol' self _ Hst1) as (N1 & HrunN1 & HN1).
  destruct (set_result_asset_run sol self _ Hst2) as (A2 & HrunA2 & HA2).
  cbn in *. erewrite bind_Return by exact HrunA1. erewrite bind_Return by exact HrunN2.
  rewrite HrunN1, HrunA2. do 3 f_equal.
  - by eapply scatter_refs_unique.
  - by eapply scatter_refs_unique.
Qed.

Lemma set_result_asset_node_commute_witness :
  (set_result_asset ExampleMore.solution ≫= λ _, set_result_node [9.0; 9.0; 9.0]%float)
    (Example.net1, Example.h2)
  = (set_result_node [9.0; 9.0; 9.0]%float ≫= λ _, set_result_asset ExampleMore.solution)
      (Example.net1, Example.h2).
Proof.
  exact (set_result_asset_node_commute ExampleMore.solution [9.0; 9.0; 9.0]%float
           Example.net1 Example.h2
           ltac:(apply (bool_decide_unpack _); vm_compute; exact I)).
Defined.

Lemma take_drop_min {A} (i n : nat) (l : list A) :
  take (n `min` (length l - i)) (drop i l) = take n (drop i l).
Proof.
  destruct (decide (n ≤ length l - i)%nat).
  - by rewrite Nat.min_l.
  - rewrite Nat.min_r by lia. rewrite !take_ge; [done|rewrite length_drop; lia..].
Qed.

(** [l[i:i+n]] for a start and a width that are not negative. *)
Lemma slice_block {A} (l : list A) (i n : Z) :
  0 ≤ i → 0 ≤ n →
  Py.slice l i (i + n) = take (Z.to_nat n) (drop (Z.to_nat i) l).
Proof.
  intros Hi Hn. unfold Py.slice, Py.slice_bound.
  destruct (i <? 0) eqn:Hi0; [lia|]. destruct (i + n <? 0) eqn:Hin0; [lia|].
  destruct (decide (i ≤ Z.of_nat (length l))) as [Hle|Hgt].
  - rewrite (Z.min_l i) by done.
    rewrite <- (take_drop_min (Z.to_nat i) (Z.to_nat n) l). f_equal. lia.
  - rewrite !drop_ge by lia. by rewrite !take_nil.
Qed.


Lemma slice_block_of (solution : list float) (index nou : Z) :
  0 ≤ index → 0 ≤ nou →
  block_of solution index nou (Py.slice solution index (index + nou)).
Proof.
  intros Hi Hn. rewrite slice_block by done. split; [done|split].
  - intros Hin. split.
    + rewrite length_take, length_drop. lia.
    + intros j Hj. by rewrite lookup_take_lt, lookup_drop by done.
  - intros Hout. rewrite drop_ge by lia. apply take_nil.
Qed.

(** Property X11.  What the slice [solution[index:index + nou]] of the scatter
    gives an entity whose index and number of unknowns are not negative: when
    the block lies inside the solution vector, [prev_sol] has exactly [nou]
    entries and entry [j] is [solution[index + j]]; when the vector is too
    short, [prev_sol] is silently truncated, down to the empty list for a
    block that starts past the end - no [IndexError] is raised. *)
Theorem scatter_copies_block (solution : list float) (self : Network.t) (h h' : Heap) :
  stored (self, h) →
  scatter_solution solution (self, h) = Py.Return () (self, h') →
  (∀ k r a, assets self !! k = Some r → asset_objs h !! r = Some a →
     0 ≤ BaseNodeItem.matrix_index (BaseAsset.item a) →
     0 ≤ BaseNodeItem.number_of_unknowns (BaseAsset.item a) →
     ∃ a', asset_objs h' !! r = Some a' ∧
           block_of solution (BaseNodeItem.matrix_index (BaseAsset.item a))
             (BaseNodeItem.number_of_unknowns (BaseAsset.item a))
             (BaseNodeItem.prev_sol (BaseAsset.item a'))) ∧
  (∀ k r n, nodes self !! k = Some r → node_objs h !! r = Some n →
     0 ≤ BaseNodeItem.matrix_index (Node.item n) →
     0 ≤ BaseNodeItem.number_of_unknowns (Node.item n) →
     ∃ n', node_objs h' !! r = Some n' ∧
           block_of solution (BaseNodeItem.matrix_index (Node.item n))
             (BaseNodeItem.number_of_unknowns (Node.item n))
             (BaseNodeItem.prev_sol (Node.item n'))).
Proof.
  intros Hst Hcall.
  destruct (scatter_solution_run solution self h Hst) as (A' & N' & Hrun & HA & HN & _).
  rewrite Hrun in Hcall. injection Hcall as <-. split.
  - intros k r a Hk Ha Hi Hn. exists (scattered_asset solution a). split.
    + cbn. rewrite (HA r), decide_True, Ha; [done|]. apply Exists_keys. eauto.
    + by apply slice_block_of.
  - intros k r n Hk Hn Hi Hnou. exists (scattered_node solution n). split.
    + cbn. rewrite (HN r), decide_True, Hn; [done|]. apply Exists_keys. eauto.
    + by apply slice_block_of.
Qed.

Lemma scatter_copies_block_witness :
  ∃ a', asset_objs ExampleMore.h3 !! 3%positive = Some a' ∧
        block_of ExampleMore.solution 0 6 (BaseNodeItem.prev_sol (BaseAsset.item a')).
Proof.
  destruct (scatter_copies_block ExampleMore.solution Example.net1 Example.h2
              ExampleMore.h3
              ltac:(apply (bool_decide_unpack _); vm_compute; exact I)
              ltac:(vm_compute; reflexivity)) as [Hassets _].
  exact (Hassets 3%N 3%positive (BaseAsset.connect_node 1 1%positive Example.pipe2)
           ltac:(vm_compute; reflexivity) ltac:(vm_compute; reflexivity)
           ltac:(vm_compute; discriminate) ltac:(vm_compute; discriminate)).
Defined.

Lemma scatter_refs_fmap {X} (f : X → X) refs ks objs objs' r :
  scatter_refs f refs ks objs objs' →
  objs' !! r = f <$> objs !! r ∨ objs' !! r = objs !! r.
Proof. intros H. rewrite (H r). case_decide; auto. Qed.

(** Replacing objects by objects with the same connections keeps the wiring
    consistent. *)
Lemma wired_same_connections h A' N' :
  wired h →
  (∀ r, ∃ f, (∀ a, BaseAsset.connected_nodes (f a) = BaseAsset.connected_nodes a) ∧
             A' !! r = f <$> asset_objs h !! r) →
  (∀ r, ∃ g, (∀ n, Node.connected_assets (g n) = Node.connected_assets n) ∧
             N' !! r = g <$> node_objs h !! r) →
  wired {| asset_objs := A'; node_objs := N' |}.
Proof.
  intros [Hfw Hbw] HA HN. split; cbn.
  - intros r a' cp n Ha' Hcp. destruct (HA r) as (f & Hf & Hr). rewrite Hr in Ha'.
    destruct (asset_objs h !! r) as [a|] eqn:Ha; [|done]. injection Ha' as <-.
    rewrite Hf in Hcp. destruct (Hfw _ _ _ _ Ha Hcp) as (nd & Hnd & Hin).
    destruct (HN n) as (g & Hg & Hn). rewrite Hnd in Hn.
    exists (g nd). by rewrite Hg.
  - intros n nd' r cp Hnd' Hin. destruct (HN n) as (g & Hg & Hn). rewrite Hn in Hnd'.
    destruct (node_objs h !! n) as [nd|] eqn:Hnd; [|done]. injection Hnd' as <-.
    rewrite Hg in Hin. destruct (Hbw _ _ _ _ Hnd Hin) as (a & Ha & Hcp).
    destruct (HA r) as (f & Hf & Hr). rewrite Ha in Hr.
    exists (f a). by rewrite Hf.
Qed.

(** Property X12.  The scatter changes [prev_sol] only: a consistently wired
    store stays consistently wired, and [check_connectivity] returns the same
    answer after the scatter as before it. *)
Theorem scatter_keeps_connectivity (solution : list float) (self : Network.t) (h h' : Heap) :
  stored (self, h) →
  scatter_solution solution (self, h) = Py.Return () (self, h') →
  (wired h → wired h') ∧
  ∃ b, check_connectivity (self, h) = Py.Return b (self, h) ∧
       check_connectivity (self, h') = Py.Return b (self, h').
Proof.
  intros Hst Hcall.
  destruct (scatter_solution_run solution self h Hst) as (A' & N' & Hrun & HA & HN & Hst').
  rewrite Hrun in Hcall. injection Hcall as <-. split.
  - intros Hw. apply (wired_same_connections h); [done|..]; intros r.
    + destruct (scatter_refs_fmap _ _ _ _ _ r HA) as [Hr|Hr]; cbn.
      * by exists (scattered_asset solution).
      * exists id. split; [done|]. by rewrite option_fmap_id.
    + destruct (scatter_refs_fmap _ _ _ _ _ r HN) as [Hr|Hr]; cbn.
      * by exists (scattered_node solution).
      * exists id. split; [done|]. by rewrite option_fmap_id.
  - destruct (check_connectivity_assets_run _ _ Hst) as (ba & Hba & Hia).
    destruct (check_connectivity_nodes_run _ _ Hst) as (bn & Hbn & Hin).
    destruct (check_connectivity_assets_run _ _ Hst') as (ba' & Hba' & Hia').
    destruct (check_connectivity_nodes_run _ _ Hst') as (bn' & Hbn' & Hin').
    cbn in *.
    assert (ba' = ba) as ->.
    { apply eq_true_iff_eq. rewrite Hia, Hia'. split.
      - intros H k r a Hk Ha.
        assert (A' !! r = Some (scattered_asset solution a)) as Ha'.
        { rewrite (HA r), decide_True, Ha; [done|]. apply Exists_keys. eauto. }
        apply (H _ _ _ Hk Ha').
      - intros H k r a' Hk Ha'.
        rewrite (HA r), decide_True in Ha' by (apply Exists_keys; eauto).
        destruct (asset_objs h !! r) as [a|] eqn:Ha; [|done]. injection Ha' as <-.
        apply (H _ _ _ Hk Ha). }
    assert (bn' = bn) as ->.
    { apply eq_true_iff_eq. rewrite Hin, Hin'. split.
      - intros H k r n Hk Hn.
        assert (N' !! r = Some (scattered_node solution n)) as Hn'.
        { rewrite (HN r), decide_True, Hn; [done|]. apply Exists_keys. eauto. }
        apply (H _ _ _ Hk Hn').
      - intros H k r n' Hk Hn'.
        rewrite (HN r), decide_True in Hn' by (apply Exists_keys; eauto).
        destruct (node_objs h !! r) as [n|] eqn:Hn; [|done]. injection Hn' as <-.
        apply (H _ _ _ Hk Hn). }
    exists (ba && bn). unfold check_connectivity.
    erewrite !bind_Return by done. destruct ba; done.
Qed.

Lemma scatter_keeps_connectivity_witness :
  ∃ b, check_connectivity (Example.net1, Example.h2)
       = Py.Return b (Example.net1, Example.h2) ∧
       check_connectivity (Example.net1, ExampleMore.h3)
       = Py.Return b (Example.net1, ExampleMore.h3).
Proof.
  exact (proj2 (scatter_keeps_connectivity ExampleMore.solution Example.net1 Example.h2
                  ExampleMore.h3
                  ltac:(apply (bool_decide_unpack _); vm_compute; exact I)
                  ltac:(vm_compute; reflexivity))).
Defined.

(** ** The boundary row and the scatter *)

(** Property X13.  The boundary's pressure row and the scatter agree on the
    layout of the unknowns: for a boundary of the network whose block lies
    inside the solution vector, the single index of the row built by
    [add_pressure_equation] designates the entry of the solution that the
    scatter stores at position [IndexEnum.pressure] of the boundary's
    [prev_sol]. *)
Theorem scatter_feeds_pressure_row
    (solution : list float) (self : Network.t) (h h' : Heap)
    (k : UUID) (r : loc) (b : BaseBoundary.t) :
  stored (self, h) →
  scatter_solution solution (self, h) = Py.Return () (self, h') →
  assets self !! k = Some r →
  asset_objs h !! r = Some (BaseBoundary.upcast b) →
  0 ≤ BaseBoundary.matrix_index b →
  IndexEnum.pressure < BaseNodeItem.number_of_unknowns (BaseAsset.item (BaseBoundary.super b)) →
  BaseBoundary.matrix_index b
  + BaseNodeItem.number_of_unknowns (BaseAsset.item (BaseBoundary.super b))
  ≤ Z.of_nat (length solution) →
  ∃ a' row x,
    asset_objs h' !! r = Some a' ∧
    indices (BaseBoundary.add_pressure_equation b) = [row] ∧
    solution !! Z.to_nat row = Some x ∧
    BaseNodeItem.prev_sol (BaseAsset.item a') !! Z.to_nat IndexEnum.pressure = Some x.
Proof.
  intros Hst Hcall Hk Hr Hi Hp Hlen.
  destruct (scatter_solution_run solution self h Hst) as (A' & N' & Hrun & HA & _ & _).
  rewrite Hrun in Hcall. injection Hcall as <-.
  unfold BaseBoundary.matrix_index in *. unfold IndexEnum.pressure in *.
  set (i := BaseNodeItem.matrix_index (BaseAsset.item (BaseBoundary.super b))) in *.
  set (nou := BaseNodeItem.number_of_unknowns (BaseAsset.item (BaseBoundary.super b))) in *.
  destruct (slice_block_of solution i nou) as (_ & Hin & _); [lia..|].
  destruct (Hin Hlen) as [_ Hlookup].
  destruct (lookup_lt_is_Some_2 solution (Z.to_nat (i + 1))) as [x Hx]; [lia|].
  exists (scattered_asset solution (BaseBoundary.upcast b)), (i + 1), x.
  split; [|split; [done|split; [done|]]].
  - cbn. rewrite (HA r), decide_True, Hr; [done|]. apply Exists_keys. eauto.
  - cbn. fold i nou. change (Z.to_nat 1) with 1%nat.
    rewrite (Hlookup 1%nat) by lia. rewrite <- Hx. f_equal. lia.
Qed.

Lemma scatter_feeds_pressure_row_witness :
  ∃ a' x,
    asset_objs ExampleMore.h_boundary' !! 1%positive = Some a' ∧
    ExampleMore.solution !! 2%nat = Some x ∧
    BaseNodeItem.prev_sol (BaseAsset.item a') !! 1%nat = Some x.
Proof.
  destruct (scatter_feeds_pressure_row ExampleMore.solution ExampleMore.net_boundary
              ExampleMore.h_boundary ExampleMore.h_boundary' 2 1%positive
              ExampleMore.boundary_at_1
              ltac:(apply (bool_decide_unpack _); vm_compute; exact I)
              ltac:(vm_compute; reflexivity) ltac:(vm_compute; reflexivity)
              ltac:(vm_compute; reflexivity) ltac:(vm_compute; discriminate)
              ltac:(vm_compute; reflexivity) ltac:(vm_compute; discriminate))
    as (a' & row & x & Ha' & Hrow & Hx & Hprev).
  injection Hrow as <-. by exists a', x.
Defined.

End NetworkMore.

(** ** The simulation: the run as a fold over the timesteps *)

Module NetworkSimulationMore.
Import NetworkSimulation NetworkSimulationStep.

Lemma count_from_app (n m : nat) (start step : Z) :
  Py.count_from (n + m) start step
  = Py.count_from n start step ++ Py.count_from m (start + Z.of_nat n * step) step.
Proof.
  revert start. induction n as [|n IH]; intros start; cbn [Py.count_from Nat.add].
  - cbn. f_equal. lia.
  - rewrite IH. cbn. do 3 f_equal. lia.
Qed.

Lemma range_len_nonneg start stop step : 0 ≤ Py.range_len start stop step.
Proof.
  unfold Py.range_len.
  destruct (0 <? step) eqn:Hs.
  - destruct (start <? stop) eqn:Hlt; [|lia].
    assert (0 ≤ (stop - start - 1) / step) by (apply Z.div_pos; lia). lia.
  - destruct (stop <? start) eqn:Hlt; [|lia].
    destruct (decide (step = 0)) as [->|Hne].
    + cbn. rewrite Z.div_0_r by lia. lia.
    + assert (0 ≤ (start - stop - 1) / - step) by (apply Z.div_pos; lia). lia.
Qed.

Lemma range_len_prefix (start step k : Z) :
  0 < step → 0 ≤ k → Py.range_len start (start + k * step) step = k.
Proof.
  intros Hs Hk. unfold Py.range_len.
  destruct (0 <? step) eqn:Hs'; [|lia].
  destruct (start <? start + k * step) eqn:Hlt.
  - assert (0 < k) by nia.
    replace (start + k * step - start - 1) with ((step - 1) + (k - 1) * step) by lia.
    rewrite Z.div_add by lia. rewrite Z.div_small by lia. lia.
  - nia.
Qed.

Lemma range_len_suffix (start stop step k : Z) :
  0 < step → 0 ≤ k → start + k * step ≤ stop →
  Py.range_len (start + k * step) stop step = Py.range_len start stop step - k.
Proof.
  intros Hs Hk Hmid. unfold Py.range_len.
  destruct (0 <? step) eqn:Hs'; [|lia].
  destruct (start + k * step <? stop) eqn:Hlt.
  - destruct (start <? stop) eqn:Hlt'; [|nia].
    replace (stop - start - 1) with ((stop - (start + k * step) - 1) + k * step) by lia.
    rewrite Z.div_add by lia. lia.
  - assert (stop = start + k * step) as -> by lia.
    fold (Py.range_len start (start + k * step) step) .
    destruct (start <? start + k * step) eqn:Hlt'.
    + replace (start + k * step - start - 1) with ((step - 1) + (k - 1) * step) by lia.
      rewrite Z.div_add by lia. rewrite Z.div_small by lia. lia.
    + nia.
Qed.

Lemma range_split (start stop step k : Z) (times : list Z) :
  0 < step → 0 ≤ k → start + k * step ≤ stop →
  Py.range start stop step = Some times →
  ∃ times1 times2,
    Py.range start (start + k * step) step = Some times1 ∧
    Py.range (start + k * step) stop step = Some times2 ∧
    times = times1 ++ times2.
Proof.
  intros Hs Hk Hmid. unfold Py.range.
  destruct (step =? 0) eqn:Hz; [lia|]. intros [= <-].
  eexists _, _. split; [done|split; [done|]].
  rewrite range_len_prefix, range_len_suffix by done.
  pose proof (range_len_nonneg (start + k * step) stop step) as Hnn.
  rewrite range_len_suffix in Hnn by done.
  replace (Z.to_nat (Py.range_len start stop step))
    with (Z.to_nat k + Z.to_nat (Py.range_len start stop step - k))%nat by lia.
  rewrite count_from_app. by rewrite Z2Nat.id.
Qed.

Section run.
Context {HeatNetwork NetworkController ControllerInput : Type}.
Variable controller_run_time_step : NetworkController → Z → NetworkController * ControllerInput.
Variable network_run_time_step : HeatNetwork → Z → ControllerInput → HeatNetwork.
Variable network_store_output : HeatNetwork → HeatNetwork.

Abbreviation time_step :=
  (time_step controller_run_time_step network_run_time_step network_store_output).
Abbreviation time_loop :=
  (time_loop controller_run_time_step network_run_time_step network_store_output).
Abbreviation run :=
  (run controller_run_time_step network_run_time_step network_store_output).
Abbreviation step_once :=
  (step_once controller_run_time_step network_run_time_step network_store_output).
Abbreviation controller_once := (controller_once controller_run_time_step).

Lemma time_loop_app fuel times1 times2 self :
  time_loop fuel (times1 ++ times2) self
  = time_loop fuel times1 self ≫= time_loop fuel times2.
Proof.
  revert self. induction times1 as [|time times1 IH]; intros self; [done|].
  cbn. destruct (time_step fuel self time); [apply IH|done].
Qed.

Lemma time_step_fold fuel self time :
  (2 ≤ fuel)%nat →
  ∃ self', time_step fuel self time = Some self' ∧
           (network self', controller self') = step_once (network self, controller self) time ∧
           config self' = config self.
Proof.
  intros Hfuel. unfold NetworkSimulation.time_step, NetworkSimulationStep.step_once. cbn.
  destruct (controller_run_time_step (controller self) time) as [ctrl inp].
  destruct fuel as [|[|fuel]]; [lia|lia|]. cbn. eauto.
Qed.

Lemma time_loop_fold fuel times self :
  (2 ≤ fuel)%nat →
  ∃ self', time_loop fuel times self = Some self' ∧
           (network self', controller self')
           = foldl step_once (network self, controller self) times ∧
           config self' = config self.
Proof.
  intros Hfuel. revert self. induction times as [|time times IH]; intros self.
  - by exists self.
  - destruct (time_step_fold fuel self time Hfuel) as (self1 & Hstep & Hst & Hcfg).
    destruct (IH self1) as (self' & Hloop & Hfold & Hcfg').
    exists self'. cbn. rewrite Hstep. split; [done|]. split; [|congruence].
    by rewrite Hfold, Hst.
Qed.

Lemma time_loop_config fuel times self self' :
  time_loop fuel times self = Some self' → config self' = config self.
Proof.
  revert self. induction times as [|time times IH]; intros self; cbn.
  - by intros [= ->].
  - destruct (time_step fuel self time) as [self1|] eqn:Hstep; [|done].
    intros Hloop. rewrite (IH _ Hloop). cbn.
    unfold NetworkSimulation.time_step in Hstep.
    destruct (controller_run_time_step (controller self) time) as [ctrl inp].
    destruct (NetworkSimulation.while_not_converged _ _ _ _ _ _ _) as [[net calls]|]; [|done].
    by injection Hstep as <-.
Qed.

Lemma time_loop_other_config fuel times c c' net ctrl jrn self' :
  time_loop fuel times (NetworkSimulation.mk c net ctrl jrn) = Some self' →
  time_loop fuel times (NetworkSimulation.mk c' net ctrl jrn)
  = Some (NetworkSimulation.mk c' (network self') (controller self') (journal self')).
Proof.
  revert net ctrl jrn. induction times as [|time times IH]; intros net ctrl jrn.
  - by intros [= <-].
  - cbn. unfold NetworkSimulation.time_step. cbn.
    destruct (controller_run_time_step ctrl time) as [ctrl' inp].
    destruct (NetworkSimulation.while_not_converged _ _ _ _ _ _ _) as [[net' calls]|]; [|done].
    apply IH.
Qed.

Lemma foldl_step_once_controller (state : HeatNetwork * NetworkController) times :
  (foldl step_once state times).2 = foldl controller_once state.2 times.
Proof.
  revert state. induction times as [|time times IH]; intros state; [done|].
  cbn. rewrite IH. f_equal.
  unfold NetworkSimulationStep.step_once, NetworkSimulationStep.controller_once.
  by destruct (controller_run_time_step state.2 time).
Qed.

(** Property X14.  The state a run leaves.  Given fuel for two evaluations of
    the loop condition, [run] returns, and its final network and controller
    are the left fold, over the timesteps of [range(start, stop, timestep)]
    in order, of: one controller step, one network step with the input that
    controller step produced, one [store_output].  The controller is stepped
    with the time only, so its final state is the fold of its own steps; the
    configuration stored is the one passed in. *)
Theorem run_is_fold (fuel : nat) (self : NetworkSimulation.t)
    (cfg : SimulationConfiguration) (times : list Z) :
  (2 ≤ fuel)%nat →
  Py.range (start cfg) (stop cfg) (timestep cfg) = Some times →
  ∃ self',
    run fuel self cfg = Some (Py.Return () self') ∧
    (network self', controller self')
    = foldl step_once (network self, controller self) times ∧
    controller self' = foldl controller_once (controller self) times ∧
    config self' = Some cfg.
Proof.
  intros Hfuel Hrange. unfold NetworkSimulation.run. rewrite Hrange.
  match goal with
  | |- context [NetworkSimulation.time_loop _ _ _ _ _ ?s] =>
      destruct (time_loop_fold fuel times s Hfuel) as (self' & -> & Hfold & Hcfg)
  end.
  cbn in *. exists self'. split; [done|]. split; [done|]. split; [|done].
  apply (f_equal snd) in Hfold. cbn in Hfold. rewrite Hfold.
  apply foldl_step_once_controller.
Qed.

(** Property X15.  An empty time range runs nothing: when [stop] is not beyond
    [start] in the direction of [timestep], [run] returns at once - whatever
    the fuel - having called neither the controller nor the network; only
    [config] is set. *)
Theorem run_empty_range (fuel : nat) (self : NetworkSimulation.t)
    (cfg : SimulationConfiguration) :
  (0 < timestep cfg ∧ stop cfg ≤ start cfg) ∨ (timestep cfg < 0 ∧ start cfg ≤ stop cfg) →
  run fuel self cfg
  = Some (Py.Return ()
            {| config := Some cfg; network := network self;
               controller := controller self; journal := journal self |}).
Proof.
  intros Hempty. unfold NetworkSimulation.run, Py.range, Py.range_len.
  destruct Hempty as [[Hs Hle]|[Hs Hle]].
  - destruct (timestep cfg =? 0) eqn:Hz; [lia|].
    destruct (0 <? timestep cfg) eqn:Hp; [|lia].
    destruct (start cfg <? stop cfg) eqn:Hlt; [lia|]. done.
  - destruct (timestep cfg =? 0) eqn:Hz; [lia|].
    destruct (0 <? timestep cfg) eqn:Hp; [lia|].
    destruct (stop cfg <? start cfg) eqn:Hlt; [lia|]. done.
Qed.

(** Property X16.  Runs compose: for a positive [timestep], a run from [first]
    to a point [first + k * timestep] not beyond [last], followed by a run
    from that point to [last], leaves the network, the controller and the
    journal of the single run from [first] to [last]; the runs differ only in
    the configuration they store. *)
Theorem run_split (fuel : nat) (self self1 self2 : NetworkSimulation.t)
    (first last step k : Z) :
  0 < step → 0 ≤ k → first + k * step ≤ last →
  run fuel self {| start := first; stop := first + k * step; timestep := step |}
  = Some (Py.Return () self1) →
  run fuel self1 {| start := first + k * step; stop := last; timestep := step |}
  = Some (Py.Return () self2) →
  run fuel self {| start := first; stop := last; timestep := step |}
  = Some (Py.Return ()
            {| config := Some {| start := first; stop := last; timestep := step |};
               network := network self2; controller := controller self2;
               journal := journal self2 |}).
Proof.
  intros Hs Hk Hmid. unfold NetworkSimulation.run. cbn.
  destruct (Py.range first last step) as [times|] eqn:Hrange; cycle 1.
  { unfold Py.range in Hrange. destruct (step =? 0) eqn:Hz; [lia|done]. }
  destruct (range_split _ _ _ _ _ Hs Hk Hmid Hrange) as (times1 & times2 & -> & -> & ->).
  rewrite time_loop_app.
  destruct (time_loop fuel times1 _) as [s1|] eqn:Hloop1; [|done].
  intros [= <-].
  destruct (time_loop fuel times2 _) as [s2|] eqn:Hloop2; [|done].
  intros [= <-].
  erewrite time_loop_other_config by exact Hloop1. cbn.
  destruct s1 as [c1 n1 k1 j1]. cbn.
  by erewrite time_loop_other_config by exact Hloop2.
Qed.
End run.
Lemma run_is_fold_witness :
  ∃ self',
    Example.sim_run 5 = Some (Py.Return () self') ∧
    network self' = 2%nat ∧ config self' = Some Example.cfg.
Proof.
  destruct (run_is_fold ExampleMore.controller_step ExampleMore.solve_step
              ExampleMore.store_output 5 Example.sim Example.cfg [0; 1]
              ltac:(lia) ltac:(vm_compute; reflexivity))
    as (self' & Hrun & Hfold & _ & Hcfg).
  exists self'. split; [exact Hrun|]. split; [|exact Hcfg].
  exact (f_equal fst Hfold).
Defined.

Lemma run_empty_range_witness :
  NetworkSimulation.run ExampleMore.controller_step ExampleMore.solve_step
    ExampleMore.store_output 0 Example.sim {| start := 3; stop := 3; timestep := 1 |}
  = Some (Py.Return ()
            {| config := Some {| start := 3; stop := 3; timestep := 1 |};
               network := 0%nat; controller := (); journal := [] |}).
Proof.
  exact (run_empty_range ExampleMore.controller_step ExampleMore.solve_step
           ExampleMore.store_output 0 Example.sim {| start := 3; stop := 3; timestep := 1 |}
           ltac:(left; vm_compute; split; [reflexivity|discriminate])).
Defined.

Lemma run_split_witness :
  ∃ self',
    Example.sim_run 5 = Some (Py.Return () self') ∧
    network self' = 2%nat ∧
    journal self' = [(0, 1%nat, 1%nat); (1, 1%nat, 2%nat)].
Proof.
  eexists. split; [|split].
  - exact (run_split ExampleMore.controller_step ExampleMore.solve_step
             ExampleMore.store_output 5 Example.sim
             {| config := Some {| start := 0; stop := 1; timestep := 1 |};
                network := 1%nat; controller := (); journal := [(0, 1%nat, 1%nat)] |}
             {| config := Some {| start := 1; stop := 2; timestep := 1 |};
                network := 2%nat; controller := ();
                journal := [(0, 1%nat, 1%nat); (1, 1%nat, 2%nat)] |}
             0 2 1 1 ltac:(lia) ltac:(lia) ltac:(lia)
             ltac:(vm_compute; reflexivity) ltac:(vm_compute; reflexivity)).
  - reflexivity.
  - reflexivity.
Defined.

End NetworkSimulationMore.

(** ** The production cluster: set-points, results and [update] *)

Module ProductionClusterSetpointsSpec.
Import ProductionClusterSetpoints.

Lemma necessary_subseteq (setpoints : gmap string float) :
  necessary_setpoints ⊆ dom setpoints ↔
  is_Some (setpoints !! PROPERTY_TEMPERATURE_SUPPLY) ∧
  is_Some (setpoints !! PROPERTY_TEMPERATURE_RETURN) ∧
  is_Some (setpoints !! PROPERTY_HEAT_DEMAND).
Proof.
  unfold necessary_setpoints. rewrite <- !elem_of_dom. split.
  - intros Hsub. split; [|split]; apply Hsub; set_solver.
  - intros (? & ? & ?) k. rewrite !elem_of_union, !elem_of_singleton.
    intros [[->| ->]| ->]; done.
Qed.

Section methods.
Variable heat_demand_and_temperature_to_mass_flow :
  float → float → float → ProductionCluster.pandapipesNet * more_tables → float.
Variable mass_flow_and_temperature_to_heat_demand :
  float → float → float → ProductionCluster.pandapipesNet * more_tables → float.

Abbreviation set_setpoints := (set_setpoints heat_demand_and_temperature_to_mass_flow).
Abbreviation get_setpoints := (get_setpoints mass_flow_and_temperature_to_heat_demand).
Abbreviation update :=
  (update heat_demand_and_temperature_to_mass_flow mass_flow_and_temperature_to_heat_demand).

(** The mass flow [set_setpoints] computes: from the set-points given, and
    from the network whose [t_flow_k] already holds the new supply
    temperature. *)
Local Abbreviation mass_flow_for self ts tr hd :=
  (heat_demand_and_temperature_to_mass_flow hd ts tr
     (ProductionCluster.pandapipes_net (cluster self),
      tables (_set_supply_temperature self ts))).

(** Property X17.  [set_setpoints] raises the [ValueError] of missing
    set-points exactly when one of the three necessary keys is absent from
    the dictionary.  It is then raised before anything is written: the
    cluster is unchanged, and the set reported is not empty and holds
    exactly the necessary keys that are absent. *)
Theorem set_setpoints_missing (self : t) (setpoints : gmap string float) :
  (¬ necessary_setpoints ⊆ dom setpoints →
     set_setpoints self setpoints
     = Raise (MissingSetpoints (necessary_setpoints ∖ dom setpoints)) self ∧
     necessary_setpoints ∖ dom setpoints ≠ ∅ ∧
     ∀ k, k ∈ necessary_setpoints ∖ dom setpoints
          ↔ k ∈ necessary_setpoints ∧ setpoints !! k = None) ∧
  (necessary_setpoints ⊆ dom setpoints →
     ∀ missing s, set_setpoints self setpoints ≠ Raise (MissingSetpoints missing) s).
Proof.
  unfold ProductionClusterSetpoints.set_setpoints. split.
  - intros Hsub. rewrite bool_decide_eq_false_2 by done.
    split; [done|]. split.
    + intros Hempty. apply Hsub. intros k Hk.
      destruct (decide (k ∈ dom setpoints)); [done|]. exfalso.
      eapply (not_elem_of_empty (C:=gset string) k). rewrite <- Hempty.
      by apply elem_of_difference.
    + intros k. by rewrite elem_of_difference, not_elem_of_dom.
  - intros Hsub missing s Hr. rewrite bool_decide_eq_true_2 in Hr by done.
    apply necessary_subseteq in Hsub as ([ts Hts] & [tr Htr] & [hd Hhd]).
    unfold setpoints_item in Hr. rewrite Hts, Htr, Hhd in Hr.
    unfold _set_heat_demand, ProductionCluster._set_heat_demand in Hr.
    cbn in Hr. repeat case_match; congruence.
Qed.

(** Property X18.  [set_setpoints] is not atomic.  When all three keys are
    present but the mass flow computed from them is negative, the
    [ValueError] of [_set_heat_demand] propagates after both temperatures,
    the pump's [t_flow_k] and [_controlled_mass_flow] (now negative) were
    already overwritten; only the two mass-flow columns of the network keep
    their old values.  No warning is issued. *)
Theorem set_setpoints_not_atomic (self : t) (setpoints : gmap string float)
    (ts tr hd : float) :
  setpoints !! PROPERTY_TEMPERATURE_SUPPLY = Some ts →
  setpoints !! PROPERTY_TEMPERATURE_RETURN = Some tr →
  setpoints !! PROPERTY_HEAT_DEMAND = Some hd →
  PrimFloat.ltb (mass_flow_for self ts tr hd) 0 = true →
  ∃ s,
    set_setpoints self setpoints
    = Raise (Inner (Py.ValueError
                      (Py.NegativeMassFlow (mass_flow_for self ts tr hd)
                         (ProductionCluster.asset_name (cluster self))))) s ∧
    ProductionCluster.temperature_supply (cluster s) = ts ∧
    ProductionCluster.temperature_return (cluster s) = tr ∧
    circ_pump_mass_t_flow_k (tables s)
    = <[ProductionCluster.circ_pump_index (cluster self) := ts]>
        (circ_pump_mass_t_flow_k (tables self)) ∧
    ProductionCluster._controlled_mass_flow (cluster s) = mass_flow_for self ts tr hd ∧
    ProductionCluster.pandapipes_net (cluster s)
    = ProductionCluster.pandapipes_net (cluster self) ∧
    warnings s = warnings self.
Proof.
  intros Hts Htr Hhd Hneg.
  unfold ProductionClusterSetpoints.set_setpoints.
  rewrite bool_decide_eq_true_2 by (apply necessary_subseteq; eauto).
  unfold setpoints_item. rewrite Hts, Htr, Hhd.
  unfold _set_heat_demand, ProductionCluster._set_heat_demand. cbn in Hneg |- *.
  rewrite Hneg. eexists. split; [reflexivity|]. cbn. done.
Qed.

(** Property X19.  A successful [set_setpoints].  With the three keys present
    and a mass flow that is not negative, the call returns; the cluster holds
    the two temperatures given; the mass flow is computed from these new
    temperatures (not from those the cluster had) on the network whose
    [t_flow_k] is already updated, and is written to [_controlled_mass_flow]
    and to both mass-flow columns.  Keys beyond the three necessary ones do
    not fail the call: they add one warning, and none is added when there
    are none. *)
Theorem set_setpoints_success (self : t) (setpoints : gmap string float)
    (ts tr hd : float) :
  setpoints !! PROPERTY_TEMPERATURE_SUPPLY = Some ts →
  setpoints !! PROPERTY_TEMPERATURE_RETURN = Some tr →
  setpoints !! PROPERTY_HEAT_DEMAND = Some hd →
  PrimFloat.ltb (mass_flow_for self ts tr hd) 0 = false →
  ∃ s,
    set_setpoints self setpoints = Return () s ∧
    ProductionCluster.temperature_supply (cluster s) = ts ∧
    ProductionCluster.temperature_return (cluster s) = tr ∧
    circ_pump_mass_t_flow_k (tables s)
      !! ProductionCluster.circ_pump_index (cluster self) = Some ts ∧
    ProductionCluster._controlled_mass_flow (cluster s) = mass_flow_for self ts tr hd ∧
    ProductionCluster.circ_pump_mass_mdot_flow_kg_per_s
      (ProductionCluster.pandapipes_net (cluster s))
      !! ProductionCluster.circ_pump_index (cluster self)
    = Some (mass_flow_for self ts tr hd) ∧
    ProductionCluster.flow_control_controlled_mdot_kg_per_s
      (ProductionCluster.pandapipes_net (cluster s))
      !! ProductionCluster.flow_control_index (cluster self)
    = Some (mass_flow_for self ts tr hd) ∧
    warnings s
    = warnings self ++
      (if decide (dom setpoints = necessary_setpoints) then []
       else [dom setpoints ∖ necessary_setpoints]).
Proof.
  intros Hts Htr Hhd Hpos.
  assert (necessary_setpoints ⊆ dom setpoints) as Hsub
    by (apply necessary_subseteq; eauto).
  unfold ProductionClusterSetpoints.set_setpoints.
  rewrite bool_decide_eq_true_2 by done.
  unfold setpoints_item. rewrite Hts, Htr, Hhd.
  unfold _set_heat_demand, ProductionCluster._set_heat_demand. cbn in Hpos |- *.
  rewrite Hpos. cbn.
  case_bool_decide as Hextra.
  - eexists. split; [reflexivity|]. cbn. rewrite !lookup_insert_eq.
    do 6 (split; [done|]). f_equal. rewrite decide_False; [done|].
    intros Heq. rewrite Heq, difference_diag_L, size_empty in Hextra. lia.
  - eexists. split; [reflexivity|]. cbn. rewrite !lookup_insert_eq.
    do 6 (split; [done|]). rewrite decide_True, app_nil_r; [done|].
    apply set_eq. intros k. split; [|apply Hsub]. intros Hk.
    destruct (decide (k ∈ necessary_setpoints)) as [|Hn]; [done|].
    exfalso.
    destruct (size (dom setpoints ∖ necessary_setpoints)) eqn:Hsize; [|apply Hextra; lia].
    apply size_empty_inv in Hsize. eapply (not_elem_of_empty (C:=gset string) k).
    rewrite <- Hsize. by apply elem_of_difference.
Qed.

Lemma setpoints_of_results_lookup (ts tr hd : float) :
  let setpoints : gmap string float :=
    <[PROPERTY_TEMPERATURE_SUPPLY := ts]>
      (<[PROPERTY_TEMPERATURE_RETURN := tr]> (<[PROPERTY_HEAT_DEMAND := hd]> ∅)) in
  setpoints !! PROPERTY_TEMPERATURE_SUPPLY = Some ts ∧
  setpoints !! PROPERTY_TEMPERATURE_RETURN = Some tr ∧
  setpoints !! PROPERTY_HEAT_DEMAND = Some hd ∧
  dom setpoints = necessary_setpoints.
Proof.
  cbn. split; [by rewrite lookup_insert_eq|]. split; [|split].
  - rewrite lookup_insert_ne by done. by rewrite lookup_insert_eq.
  - rewrite !lookup_insert_ne by done. by rewrite lookup_insert_eq.
  - rewrite !dom_insert_L, dom_empty_L. unfold necessary_setpoints.
    apply set_eq. intros k. rewrite !elem_of_union, !elem_of_singleton, elem_of_empty.
    tauto.
Qed.

(** Property X20.  The [ValueError] "Simulation data not available." of
    [get_setpoints] and [update] is unreachable: [simulation_performed]
    compares the result table with the class [AttributeError] by [is], which
    never holds, so it never returns [False].  When the network has no
    result table [res_circ_pump_mass], reading it raises [AttributeError]
    instead, from both methods and with the cluster unchanged. *)
Theorem results_absent (self : t) :
  (∀ s, get_setpoints self ≠ Raise SimulationDataNotAvailable s) ∧
  (∀ s, update self ≠ Raise SimulationDataNotAvailable s) ∧
  (res_circ_pump_mass_mdot_flow_kg_per_s (tables self) = None →
     get_setpoints self = Raise AttributeError self ∧
     update self = Raise AttributeError self).
Proof.
  split; [|split].
  - intros s. unfold ProductionClusterSetpoints.get_setpoints, simulation_performed,
      result_item.
    repeat case_match; congruence.
  - intros s. unfold ProductionClusterSetpoints.update, simulation_performed.
    destruct (res_circ_pump_mass_mdot_flow_kg_per_s (tables self)) as [mdot|] eqn:Hres;
      [|done].
    unfold ProductionClusterSetpoints.get_setpoints, simulation_performed,
      result_item.
    rewrite Hres. cbn.
    destruct (res_junction_t_k (tables self)) as [t_k|] eqn:Htk; [|done].
    destruct (t_k !! to_junction_index self) as [ts|]; cbn; [|done].
    rewrite Htk.
    destruct (t_k !! from_junction_index self) as [tr|]; cbn; [|done].
    rewrite Hres.
    destruct (mdot !! _) as [mf|] eqn:Hpump; cbn; [|done].
    match goal with
    | |- context [ProductionClusterSetpoints.set_setpoints _ _ ?sp] =>
        pose proof (setpoints_of_results_lookup ts tr
                      (mass_flow_and_temperature_to_heat_demand ts tr mf
                         (ProductionCluster.pandapipes_net (cluster self), tables self)))
          as (Hts & Htr & Hhd & Hdom)
    end.
    unfold ProductionClusterSetpoints.set_setpoints.
    rewrite bool_decide_eq_true_2 by (by rewrite Hdom).
    unfold setpoints_item. rewrite Hts, Htr, Hhd.
    unfold _set_heat_demand, ProductionCluster._set_heat_demand. cbn.
    destruct (PrimFloat.ltb _ _); [done|]. cbn.
    rewrite Hdom, difference_diag_L, size_empty.
    rewrite bool_decide_eq_false_2 by lia. cbn. by rewrite Hres, Hpump.
  - intros Hres. unfold ProductionClusterSetpoints.update,
      ProductionClusterSetpoints.get_setpoints, simulation_performed.
    by rewrite Hres.
Qed.

(** Property X21.  [update] on a simulated network: with [ts] and [tr] the
    result temperatures of the to- and from-junction and [mf] the result mass
    flow of the pump, [update] sets the set-points ([ts], [tr], and the heat
    demand computed from the three) through [set_setpoints].  If the mass
    flow recomputed from that heat demand is negative the [ValueError] of
    [_set_heat_demand] escapes and [_controlled_mass_flow] is left negative.
    Otherwise [update] returns: the cluster holds [ts] and [tr], both
    mass-flow columns hold the recomputed mass flow, while
    [_controlled_mass_flow] holds the result [mf] itself; the result tables
    are untouched and no warning is issued. *)
Theorem update_spec (self : t) (t_k mdot : gmap Z float) (ts tr mf : float) :
  res_junction_t_k (tables self) = Some t_k →
  res_circ_pump_mass_mdot_flow_kg_per_s (tables self) = Some mdot →
  t_k !! to_junction_index self = Some ts →
  t_k !! from_junction_index self = Some tr →
  mdot !! ProductionCluster.circ_pump_index (cluster self) = Some mf →
  let hd := mass_flow_and_temperature_to_heat_demand ts tr mf
              (ProductionCluster.pandapipes_net (cluster self), tables self) in
  let m := mass_flow_for self ts tr hd in
  if PrimFloat.ltb m 0 then
    ∃ s, update self
         = Raise (Inner (Py.ValueError
                           (Py.NegativeMassFlow m
                              (ProductionCluster.asset_name (cluster self))))) s ∧
         ProductionCluster._controlled_mass_flow (cluster s) = m
  else
    ∃ s, update self = Return () s ∧
         ProductionCluster.temperature_supply (cluster s) = ts ∧
         ProductionCluster.temperature_return (cluster s) = tr ∧
         ProductionCluster._controlled_mass_flow (cluster s) = mf ∧
         ProductionCluster.circ_pump_mass_mdot_flow_kg_per_s
           (ProductionCluster.pandapipes_net (cluster s))
           !! ProductionCluster.circ_pump_index (cluster self) = Some m ∧
         ProductionCluster.flow_control_controlled_mdot_kg_per_s
           (ProductionCluster.pandapipes_net (cluster s))
           !! ProductionCluster.flow_control_index (cluster self) = Some m ∧
         res_junction_t_k (tables s) = Some t_k ∧
         res_circ_pump_mass_mdot_flow_kg_per_s (tables s) = Some mdot ∧
         warnings s = warnings self.
Proof.
  intros Htk Hres Hto Hfrom Hpump hd m.
  unfold ProductionClusterSetpoints.update,
    ProductionClusterSetpoints.get_setpoints, simulation_performed, result_item.
  repeat (progress (rewrite ?Hres, ?Htk, ?Hto, ?Hfrom, ?Hpump; cbn)).
  pose proof (setpoints_of_results_lookup ts tr hd) as (Hts & Htr & Hhd & Hdom).
  subst hd m.
  unfold ProductionClusterSetpoints.set_setpoints.
  rewrite bool_decide_eq_true_2 by (by rewrite Hdom).
  unfold setpoints_item. rewrite Hts, Htr, Hhd.
  unfold _set_heat_demand, ProductionCluster._set_heat_demand.
  cbn.
  destruct (PrimFloat.ltb _ _) eqn:Hm.
  - eexists. split; [reflexivity|]. done.
  - cbn. rewrite Hdom, difference_diag_L, size_empty.
    rewrite bool_decide_eq_false_2 by lia. cbn. rewrite Hres, Hpump.
    eexists. split; [reflexivity|]. cbn. by rewrite !lookup_insert_eq.
Qed.

End methods.
Lemma set_setpoints_missing_witness :
  set_setpoints ExampleMore.mass_flow_on ExampleMore.producer
    (<[PROPERTY_TEMPERATURE_SUPPLY := 360.0%float]> ∅)
  = Raise (MissingSetpoints
             (necessary_setpoints ∖ dom (<[PROPERTY_TEMPERATURE_SUPPLY := 360.0%float]>
                                          (∅ : gmap string float))))
      ExampleMore.producer ∧
  ∀ missing s,
    set_setpoints ExampleMore.mass_flow_on ExampleMore.producer
      (ExampleMore.setpoints 1000000)
    ≠ Raise (MissingSetpoints missing) s.
Proof.
  split.
  - destruct (proj1 (set_setpoints_missing ExampleMore.mass_flow_on ExampleMore.producer
                       (<[PROPERTY_TEMPERATURE_SUPPLY := 360.0%float]> ∅))
                ltac:(apply (bool_decide_unpack _); vm_compute; exact I)) as [Hraise _].
    exact Hraise.
  - exact (proj2 (set_setpoints_missing ExampleMore.mass_flow_on ExampleMore.producer
                    (ExampleMore.setpoints 1000000))
             ltac:(apply (bool_decide_unpack _); vm_compute; exact I)).
Defined.

Lemma set_setpoints_not_atomic_witness :
  ∃ s,
    (∃ e, set_setpoints ExampleMore.mass_flow_on ExampleMore.producer
            (ExampleMore.setpoints (-1000000)) = Raise e s) ∧
    ProductionCluster.temperature_supply (cluster s) = 360.0%float ∧
    ProductionCluster.temperature_return (cluster s) = 320.0%float ∧
    ProductionCluster.pandapipes_net (cluster s)
    = ProductionCluster.pandapipes_net Example.cluster.
Proof.
  destruct (set_setpoints_not_atomic ExampleMore.mass_flow_on ExampleMore.producer
              (ExampleMore.setpoints (-1000000)) 360.0 320.0 (-1000000)
              ltac:(vm_compute; reflexivity) ltac:(vm_compute; reflexivity)
              ltac:(vm_compute; reflexivity) ltac:(vm_compute; reflexivity))
    as (s & Hraise & Hts & Htr & _ & _ & Hnet & _).
  exists s. split; [by eexists|]. done.
Defined.

Lemma set_setpoints_success_witness :
  ∃ s,
    set_setpoints ExampleMore.mass_flow_on ExampleMore.producer
      (ExampleMore.setpoints 1000000) = Return () s ∧
    ProductionCluster.temperature_supply (cluster s) = 360.0%float ∧
    ProductionCluster.temperature_return (cluster s) = 320.0%float ∧
    warnings s = [].
Proof.
  destruct (set_setpoints_success ExampleMore.mass_flow_on ExampleMore.producer
              (ExampleMore.setpoints 1000000) 360.0 320.0 1000000
              ltac:(vm_compute; reflexivity) ltac:(vm_compute; reflexivity)
              ltac:(vm_compute; reflexivity) ltac:(vm_compute; reflexivity))
    as (s & Hreturn & Hts & Htr & _ & _ & _ & _ & Hwarn).
  exists s. do 3 (split; [done|]). rewrite Hwarn. vm_compute; reflexivity.
Defined.

Lemma results_absent_witness :
  get_setpoints ExampleMore.heat_demand_of ExampleMore.producer
  = Raise AttributeError ExampleMore.producer ∧
  update ExampleMore.mass_flow_on ExampleMore.heat_demand_of ExampleMore.producer
  = Raise AttributeError ExampleMore.producer.
Proof.
  destruct (results_absent ExampleMore.mass_flow_on ExampleMore.heat_demand_of
              ExampleMore.producer) as (_ & _ & Habsent).
  exact (Habsent ltac:(vm_compute; reflexivity)).
Defined.

Lemma update_spec_witness :
  ∃ s,
    update ExampleMore.mass_flow_on ExampleMore.heat_demand_of
      ExampleMore.producer_simulated = Return () s ∧
    ProductionCluster.temperature_supply (cluster s) = 350.0%float ∧
    ProductionCluster.temperature_return (cluster s) = 315.0%float ∧
    ProductionCluster._controlled_mass_flow (cluster s) = 2.0%float.
Proof.
  destruct (update_spec ExampleMore.mass_flow_on ExampleMore.heat_demand_of
              ExampleMore.producer_simulated ExampleMore.t_k_results
              ExampleMore.mdot_results 350.0 315.0 2.0
              ltac:(vm_compute; reflexivity) ltac:(vm_compute; reflexivity)
              ltac:(vm_compute; reflexivity) ltac:(vm_compute; reflexivity)
              ltac:(vm_compute; reflexivity))
    as (s & Hreturn & Hts & Htr & Hmf & _).
  by exists s.
Defined.

End ProductionClusterSetpointsSpec.

(** ** The ESDL asset object *)

Module EsdlAssetObjectSpec.
Import EsdlAssetObject.

(** The warnings the loop logs for one item. *)
Local Abbreviation warnings_of self :=
  (λ item : string * EsdlKey,
     match esdl_asset self !! name item.2 with
     | Some _ => []
     | None => [AttributeNotFound (name item.2);
                DefaultValueUsed (default item.2) (name item.2)]
     end).

Lemma get_asset_parameters_foldl self items parameters log :
  foldl (get_asset_parameters_body self) (parameters, log) items
  = (foldl (λ p item, <[item.1 := parameter_of self item.2]> p) parameters items,
     log ++ flat_map (warnings_of self) items).
Proof.
  revert parameters log. induction items as [|[k e] items IH]; intros parameters log.
  - cbn. by rewrite app_nil_r.
  - cbn [foldl flat_map]. unfold get_asset_parameters_body at 2, parameter_of. cbn.
    destruct (esdl_asset self !! name e) as [v|]; cbn; rewrite IH.
    + done.
    + by rewrite <- app_assoc.
Qed.

Lemma foldl_insert_lookup_notin (f : EsdlKey → value) items
    (parameters : gmap string value) k :
  k ∉ items.*1 →
  foldl (λ p item, <[item.1 := f item.2]> p) parameters items !! k = parameters !! k.
Proof.
  revert parameters. induction items as [|[k' e] items IH]; intros parameters Hk; [done|].
  cbn in *. apply not_elem_of_cons in Hk as [Hne Hk].
  rewrite IH by done. by rewrite lookup_insert_ne.
Qed.

Lemma foldl_insert_lookup_in (f : EsdlKey → value) items
    (parameters : gmap string value) k e :
  NoDup items.*1 → (k, e) ∈ items →
  foldl (λ p item, <[item.1 := f item.2]> p) parameters items !! k = Some (f e).
Proof.
  revert parameters. induction items as [|[k' e'] items IH]; intros parameters Hnd Hin.
  - by apply elem_of_nil in Hin.
  - cbn in *. apply NoDup_cons in Hnd as [Hk' Hnd].
    apply elem_of_cons in Hin as [[= <- <-]|Hin].
    + rewrite foldl_insert_lookup_notin by done. by rewrite lookup_insert_eq.
    + by apply IH.
Qed.

(** Property X22.  [get_asset_parameters] never raises and returns a
    dictionary with exactly the keys of [asset_specific_parameters]: each
    holds the ESDL attribute named by its [EsdlKey] when the asset has it and
    the key's default otherwise.  The log holds, in the order of the keys,
    the two warnings of each missing attribute and nothing else. *)
Theorem get_asset_parameters_spec (self : t) :
  NoDup (asset_specific_parameters self).*1 →
  ∃ parameters log,
    get_asset_parameters self = (parameters, log) ∧
    (∀ k e, (k, e) ∈ asset_specific_parameters self →
            parameters !! k = Some (parameter_of self e)) ∧
    (∀ k, k ∉ (asset_specific_parameters self).*1 → parameters !! k = None) ∧
    log = flat_map (warnings_of self) (asset_specific_parameters self).
Proof.
  intros Hnd. unfold get_asset_parameters. rewrite get_asset_parameters_foldl.
  eexists _, _. split; [done|]. split; [|split; [|done]].
  - intros k e Hin. by apply foldl_insert_lookup_in.
  - intros k Hk. by rewrite foldl_insert_lookup_notin.
Qed.

Lemma get_asset_parameters_spec_witness :
  ∃ parameters log,
    get_asset_parameters ExampleMore.esdl_pipe = (parameters, log) ∧
    parameters !! "length" = Some (VFloat 120.0) ∧
    parameters !! "inner diameter" = Some (VFloat 0.5) ∧
    parameters !! "material" = Some (VStr EmptyString) ∧
    length log = 8%nat.
Proof.
  destruct (get_asset_parameters_spec ExampleMore.esdl_pipe
              ltac:(apply (bool_decide_unpack _); vm_compute; exact I))
    as (parameters & log & Hrun & Hin & _ & Hlog).
  exists parameters, log. split; [exact Hrun|].
  split; [|split; [|split]].
  - exact (Hin "length" (mkKey "length" (VFloat 0)) ltac:(vm_compute; set_solver)).
  - exact (Hin "inner diameter" (mkKey "innerDiameter" (VFloat 0))
             ltac:(vm_compute; set_solver)).
  - exact (Hin "material" (mkKey "material" (VStr EmptyString))
             ltac:(vm_compute; set_solver)).
  - rewrite Hlog. vm_compute; reflexivity.
Defined.

Lemma asset_dict_keys_unique (asset_type : string) (parameters : list (string * EsdlKey)) :
  (asset_type, parameters) ∈ ASSET_DICT → NoDup parameters.*1.
Proof.
  unfold ASSET_DICT. rewrite !elem_of_cons, elem_of_nil.
  intros [[= -> ->]|[[= -> ->]|[[= -> ->]|[]]]]; cbn;
    apply (bool_decide_unpack _); vm_compute; exact I.
Qed.

End EsdlAssetObjectSpec.

(** ** The pipe entity *)

Module PipeSpec.
Import Pipe.

Lemma roughness_nonzero (r : float) :
  PrimFloat.eqb (if PrimFloat.eqb r 0 then PIPE_DEFAULTS_k_value else r) 0 = false.
Proof. destruct (PrimFloat.eqb r 0) eqn:Hz; [reflexivity|exact Hz]. Qed.

Section pipe.
Context {SolverPipe : Type}.
Variable set_physical_properties : SolverPipe → float → float → float → SolverPipe.
Variable calculate_inverse_heat_transfer_coefficient :
  list float → list float → list float → list float.
Variable np_sum : list float → float.

Abbreviation add_physical_data :=
  (add_physical_data set_physical_properties
     calculate_inverse_heat_transfer_coefficient np_sum).

(** Property X23.  After a returning [add_physical_data] the pipe's roughness
    does not compare equal to zero (a zero read from the ESDL asset is
    replaced by [PIPE_DEFAULTS.k_value]); its length and diameter are the
    ESDL values, the inner diameter having been available; with an empty
    thermal-conductivity table [alpha_value] is kept; and the solver pipe
    received exactly the length, diameter and roughness the pipe now
    holds. *)
Theorem add_physical_data_success (self self' : Pipe.t) (esdl_asset : esdl_view) :
  add_physical_data self esdl_asset = inr self' →
  PrimFloat.eqb (roughness self') 0 = false ∧
  length self' = (get_property esdl_asset "length" (length self)).1 ∧
  get_property esdl_asset "innerDiameter" (diameter self) = (diameter self', true) ∧
  ((thermal_conductivity_table esdl_asset).1 = [] → alpha_value self' = alpha_value self) ∧
  solver_asset self'
  = set_physical_properties (solver_asset self)
      (length self') (diameter self') (roughness self').
Proof.
  unfold Pipe.add_physical_data, _get_diameter. cbn.
  destruct (get_property esdl_asset "innerDiameter" (diameter self))
    as [temp_diameter property_available] eqn:Hd.
  destruct property_available; [|done]. intros [= <-]. cbn.
  split; [|split; [done|split; [done|split; [|done]]]].
  - apply roughness_nonzero.
  - unfold _get_heat_transfer_coefficient. cbn.
    destruct (thermal_conductivity_table esdl_asset) as [diameters coefficients].
    cbn. by intros ->.
Qed.

(** Property X24.  When the ESDL asset has no inner diameter,
    [add_physical_data] raises [NotImplementedError] naming the asset - after
    it has already overwritten the pipe's length and roughness.  Diameter
    and [alpha_value] are unchanged and the solver pipe is not told: pipe and
    solver pipe may disagree from then on. *)
Theorem add_physical_data_failure (self : Pipe.t) (esdl_asset : esdl_view) :
  (get_property esdl_asset "innerDiameter" (diameter self)).2 = false →
  ∃ self',
    add_physical_data self esdl_asset
    = inl (InnerDiameterUnavailable (esdl_asset_name esdl_asset), self') ∧
    length self' = (get_property esdl_asset "length" (length self)).1 ∧
    PrimFloat.eqb (roughness self') 0 = false ∧
    diameter self' = diameter self ∧
    alpha_value self' = alpha_value self ∧
    solver_asset self' = solver_asset self.
Proof.
  intros Hd. unfold Pipe.add_physical_data, _get_diameter. cbn.
  destruct (get_property esdl_asset "innerDiameter" (diameter self))
    as [temp_diameter property_available].
  cbn in Hd. subst property_available.
  eexists. split; [reflexivity|]. cbn. split; [done|]. split; [|done].
  apply roughness_nonzero.
Qed.

End pipe.
Lemma add_physical_data_success_witness :
  PrimFloat.eqb Pipe.PIPE_DEFAULTS_k_value 0 = false ∧
  ExampleMore.keep_properties (1.0, 1.25, Pipe.PIPE_DEFAULTS_k_value)%float
    120.0 0.5 Pipe.PIPE_DEFAULTS_k_value
  = (120.0, 0.5, Pipe.PIPE_DEFAULTS_k_value)%float.
Proof.
  destruct (add_physical_data_success ExampleMore.keep_properties ExampleMore.no_layers
              ExampleMore.sum_one ExampleMore.pipe_obj
              {| length := 120.0; diameter := 0.5; roughness := PIPE_DEFAULTS_k_value;
                 alpha_value := 0.0;
                 solver_asset := (120.0, 0.5, PIPE_DEFAULTS_k_value)%float |}
              ExampleMore.esdl_view_complete ltac:(vm_compute; reflexivity))
    as (Hrough & _ & _ & _ & Hsolver).
  split; [exact Hrough|]. symmetry. exact Hsolver.
Defined.

Lemma add_physical_data_failure_witness :
  ∃ self',
    Pipe.add_physical_data ExampleMore.keep_properties ExampleMore.no_layers
      ExampleMore.sum_one ExampleMore.pipe_obj ExampleMore.esdl_view_length_only
    = inl (InnerDiameterUnavailable "pipe2", self') ∧
    length self' = 120.0%float ∧
    solver_asset self' = (1.0, 1.25, Pipe.PIPE_DEFAULTS_k_value)%float.
Proof.
  destruct (add_physical_data_failure ExampleMore.keep_properties ExampleMore.no_layers
              ExampleMore.sum_one ExampleMore.pipe_obj ExampleMore.esdl_view_length_only
              ltac:(vm_compute; reflexivity))
    as (self' & Hraise & Hlen & _ & _ & _ & Hsolver).
  by exists self'.
Defined.

End PipeSpec.

(** ** The heat exchanger *)

Module HeatExchangerSpec.
Import HeatExchanger.

Section heat_exchanger.
Context {pandapipesNet : Type}.
Variable create_heat_exchanger :
  pandapipesNet → Z → Z → float → float → bool → option string → option Z →
  Z * pandapipesNet.

Abbreviation create := (create create_heat_exchanger).

(** Property X25.  [create] registers a heat exchanger at most once: after a
    returning [create] the flag [_initialized] is set and a further [create]
    changes nothing - neither the pandapipes network nor the index. *)
Theorem create_registers_once (self self' : HeatExchanger.t) :
  create self = inr self' →
  _initialized self' = true ∧ create self' = inr self'.
Proof.
  unfold HeatExchanger.create.
  destruct (_initialized self) eqn:Hinit; cbn.
  - intros [= <-]. by rewrite Hinit.
  - destruct (from_junction self) as [fj|]; [|done].
    destruct (to_junction self) as [tj|]; [|done].
    destruct (create_heat_exchanger _ _ _ _ _ _ _ _) as [i net].
    by intros [= <-].
Qed.

(** Property X26.  [create] sets [_initialized] before it reads the junctions.
    Called before [connect_junctions] it raises [AttributeError] (the junction
    is [None]) with the flag already set and nothing registered; after that,
    connecting the junctions and calling [create] again returns without
    registering the heat exchanger. *)
Theorem create_before_connect_junctions (self : HeatExchanger.t) :
  _initialized self = false →
  from_junction self = None ∨ to_junction self = None →
  ∃ self',
    create self = inl (AttributeError, self') ∧
    _initialized self' = true ∧
    pandapipes_net self' = pandapipes_net self ∧
    index self' = index self ∧
    ∀ from_junction to_junction,
      create (connect_junctions self' from_junction to_junction)
      = inr (connect_junctions self' from_junction to_junction).
Proof.
  intros Hinit Hnone. unfold HeatExchanger.create. rewrite Hinit. cbn.
  exists {| pandapipes_net := pandapipes_net self;
            from_junction := from_junction self; to_junction := to_junction self;
            diameter_m := diameter_m self; heat_flux_w := heat_flux_w self;
            in_service := in_service self; name := name self; index := index self;
            _initialized := true |}.
  split; [|done].
  destruct Hnone as [Hnone|Hnone]; rewrite Hnone; [done|].
  by destruct (from_junction self).
Qed.

End heat_exchanger.
Lemma create_registers_once_witness :
  ∃ self',
    create ExampleMore.register
      (connect_junctions ExampleMore.exchanger (mkJunction 4) (mkJunction 5))
    = inr self' ∧
    _initialized self' = true ∧
    create ExampleMore.register self' = inr self'.
Proof.
  eexists. split; [vm_compute; reflexivity|].
  exact (create_registers_once ExampleMore.register
           (connect_junctions ExampleMore.exchanger (mkJunction 4) (mkJunction 5))
           _ ltac:(vm_compute; reflexivity)).
Defined.

Lemma create_before_connect_junctions_witness :
  ∃ self',
    create ExampleMore.register ExampleMore.exchanger = inl (AttributeError, self') ∧
    create ExampleMore.register (connect_junctions self' (mkJunction 4) (mkJunction 5))
    = inr (connect_junctions self' (mkJunction 4) (mkJunction 5)).
Proof.
  destruct (create_before_connect_junctions ExampleMore.register ExampleMore.exchanger
              ltac:(vm_compute; reflexivity) ltac:(left; vm_compute; reflexivity))
    as (self' & Hraise & _ & _ & _ & Hlater).
  exists self'. split; [exact Hraise|apply Hlater].
Defined.

End HeatExchangerSpec.
